(** * NutriTrack AI: the target calculator, the aggregator and the store glue

    A shallow embedding of [src/App.jsx].  JavaScript numbers are IEEE-754
    binary64 values; they are modelled with the Standard Library's executable
    specification of floating-point arithmetic ([SpecFloat], precision 53,
    [emax] 1024), so that every arithmetic step of the source rounds here as
    it rounds in the browser.  Strings are sequences of code units below
    256.  The document database is a finite map from document paths to
    documents. *)

From stdpp Require Import gmap strings list pretty.
From Stdlib Require Import ZArith Lia Ascii.
From Stdlib Require Import Floats.SpecFloat.

Local Open Scope Z_scope.

Declare Scope js_scope.
Delimit Scope js_scope with js.
Bind Scope js_scope with spec_float.

(** ** JavaScript numbers *)

Module Num.

Definition prec : Z := 53.
Definition emax : Z := 1024.

Abbreviation number := spec_float.

Definition NaN : number := S754_nan.
Definition zero : number := S754_zero false.

Definition add : number -> number -> number := SFadd prec emax.
Definition sub : number -> number -> number := SFsub prec emax.
Definition mul : number -> number -> number := SFmul prec emax.
Definition div : number -> number -> number := SFdiv prec emax.

(** The number nearest to the integer [n] (ties to even); exact below
    [2^53]. *)
Definition of_Z (n : Z) : number := binary_normalize prec emax n 0 false.

(** The number nearest to [(-1)^s * m * 10^e]: the value of a decimal
    literal of the source text and of a decimal string handed to
    [parseFloat].  One rounding only: the quotient is rounded from the
    exact integer division. *)
Definition decimal (s : bool) (m : Z) (e : Z) : number :=
  match m with
  | Zpos p =>
      if 0 <=? e
      then binary_normalize prec emax (cond_Zopp s (Zpos p * 10 ^ e)) 0 false
      else div (S754_finite s p 0) (S754_finite false (Z.to_pos (10 ^ (- e))) 0)
  | _ => S754_zero s
  end.

(** [ToBoolean] on a number: [NaN], [+0] and [-0] are falsy. *)
Definition truthy (x : number) : bool :=
  match x with
  | S754_nan | S754_zero _ => false
  | _ => true
  end.

(** [x > y], [x >= y]: false as soon as one side is [NaN]. *)
Definition gt (x y : number) : bool := SFltb y x.
Definition ge (x y : number) : bool := SFleb y x.

(** [Math.max(x, y)]: [NaN] if either is [NaN]; [+0] is larger than [-0]. *)
Definition Math_max (x y : number) : number :=
  match SFcompare x y with
  | None => NaN
  | Some Lt => y
  | Some Gt => x
  | Some Eq => match x with S754_zero true => y | _ => x end
  end.

(** [Math.round(x)]: the integer [floor(x + 1/2)], computed exactly; [NaN],
    the infinities and the zeros are returned unchanged, and a result of
    zero keeps the sign of [x]. *)
Definition Math_round (x : number) : number :=
  match x with
  | S754_finite s m e =>
      if 0 <=? e then x
      else
        let n := (cond_Zopp s (2 * Zpos m) + 2 ^ (- e)) / 2 ^ (- e + 1) in
        if n =? 0 then S754_zero s else of_Z n
  | _ => x
  end.

End Num.

Import Num.

Infix "+" := Num.add : js_scope.
Infix "-" := Num.sub : js_scope.
Infix "*" := Num.mul : js_scope.
Infix "/" := Num.div : js_scope.

(** Decimal literals of the source text, read in [js_scope]: [88.362] is the
    number nearest to 88362/1000. *)
Definition of_literal (n : Number.number) : option number :=
  let value (i : Decimal.int) (f : Decimal.uint) (e : Z) :=
    let k := Z.of_nat (Decimal.nb_digits f) in
    let s := match i with Decimal.Neg _ => true | Decimal.Pos _ => false end in
    decimal s (Z.abs (Z.of_int i) * 10 ^ k + Z.of_uint f) (e - k) in
  match n with
  | Number.Decimal (Decimal.Decimal i f) => Some (value i f 0)
  | Number.Decimal (Decimal.DecimalExp i f e) => Some (value i f (Z.of_int e))
  | Number.Hexadecimal _ => None
  end.

Definition to_literal (x : number) : option Number.number := None.

Number Notation spec_float of_literal to_literal : js_scope.

(** ** Strings to numbers: [parseFloat] and [parseInt] *)

Definition code (c : ascii) : Z := Z.of_N (N_of_ascii c).

(** [WhiteSpace] and [LineTerminator] code units below 256: TAB, LF, VT, FF,
    CR, SP and NBSP. *)
Definition is_white_space (c : ascii) : bool :=
  let n := code c in
  ((9 <=? n) && (n <=? 13)) || (n =? 32) || (n =? 160).

Fixpoint trim_start (s : string) : string :=
  match s with
  | String c s' => if is_white_space c then trim_start s' else s
  | EmptyString => s
  end.

(** The value of [c] as a digit in [radix], if it is one. *)
Definition digit_in (radix : Z) (c : ascii) : option Z :=
  let n := code c in
  let v := if (48 <=? n) && (n <=? 57) then n - 48
           else if (97 <=? n) && (n <=? 122) then n - 87
           else if (65 <=? n) && (n <=? 90) then n - 55
           else radix in
  if v <? radix then Some v else None.

(** The longest prefix of digits: the value accumulated on [acc], the number
    of digits read added to [n], and the rest of the string. *)
Fixpoint scan_digits (radix : Z) (s : string) (acc n : Z) : Z * Z * string :=
  match s with
  | String c s' =>
      match digit_in radix c with
      | Some d => scan_digits radix s' (acc * radix + d) (n + 1)
      | None => (acc, n, s)
      end
  | EmptyString => (acc, n, s)
  end.

Definition scan_sign (s : string) : bool * string :=
  match s with
  | String "-" s' => (true, s')
  | String "+" s' => (false, s')
  | _ => (false, s)
  end.

(** The radix [parseInt] picks when it is given none: 16 after [0x] or [0X],
    which it strips, and 10 otherwise. *)
Definition scan_radix (s : string) : Z * string :=
  match s with
  | String "0" (String "x" r) | String "0" (String "X" r) => (16, r)
  | _ => (10, s)
  end.

(** [parseInt(s)] with no radix argument: leading white space, a sign, an
    optional [0x], then the longest prefix of digits; [NaN] without a digit. *)
Definition parseInt (s : string) : number :=
  let '(neg, s1) := scan_sign (trim_start s) in
  let '(radix, s2) := scan_radix s1 in
  let '(v, n, _) := scan_digits radix s2 0 0 in
  if n =? 0 then NaN
  else if v =? 0 then S754_zero neg
  else of_Z (cond_Zopp neg v).

(** The exponent part [e±ddd] at the head of [s], 0 when there is none. *)
Definition scan_exponent (s : string) : Z :=
  match s with
  | String "e" s1 | String "E" s1 =>
      let '(neg, s2) := scan_sign s1 in
      let '(v, n, _) := scan_digits 10 s2 0 0 in
      if n =? 0 then 0 else cond_Zopp neg v
  | _ => 0
  end.

(** [parseFloat(s)]: leading white space, then the longest prefix that is a
    decimal literal ([Infinity], digits with an optional fraction and
    exponent); [NaN] when there is none. *)
Definition parseFloat (s : string) : number :=
  let '(neg, s1) := scan_sign (trim_start s) in
  if String.prefix "Infinity" s1 then S754_infinity neg
  else
    let '(ip, ni, s2) := scan_digits 10 s1 0 0 in
    match s2 with
    | String "." s3 =>
        let '(m, nf, s4) := scan_digits 10 s3 ip 0 in
        if (ni =? 0) && (nf =? 0) then NaN
        else decimal neg m (scan_exponent s4 - nf)
    | _ => if ni =? 0 then NaN else decimal neg ip (scan_exponent s2)
    end.

(** ** The target calculator (App.jsx, lines 27-54) *)

Definition calculateBMR (weight height age : number) (gender : string) : number :=
  if String.eqb gender "male"
  then (88.362 + (13.397 * weight) + (4.799 * height) - (5.677 * age))%js
  else (447.593 + (9.247 * weight) + (3.098 * height) - (4.330 * age))%js.

(** What a property read on an object literal with number fields yields: an
    own number, [undefined], or one of the functions and objects every object
    literal inherits from [Object.prototype]. *)
Inductive property : Type :=
  | PUndefined
  | PNumber (x : number)
  | PBuiltin.

Definition Object_prototype_keys : list string :=
  [ "constructor"; "hasOwnProperty"; "isPrototypeOf"; "propertyIsEnumerable";
    "toLocaleString"; "toString"; "valueOf"; "__proto__";
    "__defineGetter__"; "__defineSetter__"; "__lookupGetter__";
    "__lookupSetter__" ].

Fixpoint own_property (fields : list (string * number)) (key : string) : option number :=
  match fields with
  | (k, x) :: rest => if String.eqb k key then Some x else own_property rest key
  | [] => None
  end.

(** [obj[key]]: own properties first, then the prototype. *)
Definition get_property (fields : list (string * number)) (key : string) : property :=
  match own_property fields key with
  | Some x => PNumber x
  | None => if existsb (String.eqb key) Object_prototype_keys then PBuiltin else PUndefined
  end.

(** [p || d] *)
Definition or_default (p : property) (d : number) : property :=
  match p with
  | PUndefined => PNumber d
  | PNumber x => if truthy x then p else PNumber d
  | PBuiltin => p
  end.

(** [ToNumber]: a function or a plain object converts to [NaN]. *)
Definition ToNumber (p : property) : number :=
  match p with
  | PNumber x => x
  | PUndefined | PBuiltin => NaN
  end.

Definition activityMultipliers : list (string * number) :=
  [ ("sedentary", 1.2%js); ("light", 1.375%js); ("moderate", 1.55%js);
    ("active", 1.725%js); ("veryActive", 1.9%js) ].

Definition calculateTDEE (bmr : number) (activityLevel : string) : number :=
  (bmr * ToNumber (or_default (get_property activityMultipliers activityLevel) 1.2))%js.

Definition adjustCaloriesForGoal (tdee : number) (goal : string) : number :=
  if String.eqb goal "lose" then (tdee * 0.85)%js
  else if String.eqb goal "gain" then (tdee * 1.15)%js
  else tdee.

Record MacroTargets : Type := {
  mt_carbs : number;
  mt_protein : number;
  mt_fat : number
}.

Definition getMacroTargets (calories : number) : MacroTargets :=
  let carbsCalories := (calories * 0.4)%js in
  let proteinCalories := (calories * 0.3)%js in
  let fatCalories := (calories * 0.3)%js in
  {| mt_carbs := Math_round (carbsCalories / 4);
     mt_protein := Math_round (proteinCalories / 4);
     mt_fat := Math_round (fatCalories / 9) |}.

(** ** Consumed totals (HomePage, lines 455-459) *)

(** A meal as the reducer sees it: [id] and [name], and the four quantities,
    each a number (what the manual form writes, and what the response schema
    of the inference asks for) or absent. *)
Record Meal : Type := {
  meal_id : string;
  meal_name : string;
  meal_calories : option number;
  meal_carbs : option number;
  meal_protein : option number;
  meal_fat : option number
}.

Record Totals : Type := {
  calories : number;
  carbs : number;
  protein : number;
  fat : number
}.

(** [field || 0]: an absent field reads as [undefined], which is falsy, as
    are the numbers [0], [-0] and [NaN]. *)
Definition or_zero (field : option number) : number :=
  match field with
  | Some x => if truthy x then x else 0%js
  | None => 0%js
  end.

(** The callback of [reduce]: [acc.f += meal.f || 0] for the four fields. *)
Definition addMeal (acc : Totals) (meal : Meal) : Totals :=
  {| calories := (calories acc + or_zero (meal_calories meal))%js;
     carbs := (carbs acc + or_zero (meal_carbs meal))%js;
     protein := (protein acc + or_zero (meal_protein meal))%js;
     fat := (fat acc + or_zero (meal_fat meal))%js |}.

Definition consumedTotals (todaysMeals : list Meal) : Totals :=
  fold_left addMeal todaysMeals
    {| calories := 0%js; carbs := 0%js; protein := 0%js; fat := 0%js |}.

(** ** Values read from JSON *)

#[warnings="-register-all"]
Inductive jsval : Type :=
  | VUndefined
  | VNull
  | VBool (b : bool)
  | VNum (x : number)
  | VStr (s : string)
  | VArr (items : list jsval)
  | VObj (fields : list (string * jsval)).

(** [ToBoolean] *)
Definition ToBoolean (v : jsval) : bool :=
  match v with
  | VUndefined | VNull => false
  | VBool b => b
  | VNum x => truthy x
  | VStr s => negb (String.eqb s "")
  | VArr _ | VObj _ => true
  end.

Fixpoint own_field (fields : list (string * jsval)) (key : string) : jsval :=
  match fields with
  | (k, v) :: rest => if String.eqb k key then v else own_field rest key
  | [] => VUndefined
  end.

(** [v.name] for the names the source reads ([candidates], [content],
    [parts], [text], [length]); [None] is the [TypeError] of a read on
    [undefined] or [null]. *)
Definition get_field (v : jsval) (name : string) : option jsval :=
  match v with
  | VUndefined | VNull => None
  | VObj fields => Some (own_field fields name)
  | VArr items =>
      Some (if String.eqb name "length" then VNum (of_Z (Z.of_nat (List.length items)))
            else VUndefined)
  | VStr s =>
      Some (if String.eqb name "length" then VNum (of_Z (Z.of_nat (String.length s)))
            else VUndefined)
  | VBool _ | VNum _ => Some VUndefined
  end.

(** [v[0]] *)
Definition get_first (v : jsval) : option jsval :=
  match v with
  | VUndefined | VNull => None
  | VObj fields => Some (own_field fields "0")
  | VArr items => Some (match items with x :: _ => x | [] => VUndefined end)
  | VStr s => Some (match s with String c _ => VStr (String c "") | "" => VUndefined end)
  | VBool _ | VNum _ => Some VUndefined
  end.

(** ** The document store *)

(** A document path, [artifacts/<app>/users/<uid>/...]. *)
Abbreviation path := (list string).

Record FormData : Type := {
  fd_height : string;
  fd_weight : string;
  fd_age : string;
  fd_gender : string;
  fd_activityLevel : string;
  fd_goal : string;
  fd_createdAt : option Z
}.

(** [{ ...formData, calorieTarget, ...macroTargets }], with [createdAt] when
    the object has one. *)
Record ProfileData : Type := {
  pd_form : FormData;
  pd_calorieTarget : number;
  pd_carbs : number;
  pd_protein : number;
  pd_fat : number;
  pd_createdAt : option Z
}.

Inductive document : Type :=
  | DProfile (profile : ProfileData)
  | DMeal (food : jsval) (createdAt : Z)
  | DWater (waterCount : number).

Abbreviation store := (gmap path document).

Definition userRoot (deploymentAppId userId : string) : path :=
  ["artifacts"; deploymentAppId; "users"; userId].

Definition profileRef (deploymentAppId userId : string) : path :=
  userRoot deploymentAppId userId ++ ["profile"; "data"].

Definition mealsRef (deploymentAppId userId : string) : path :=
  userRoot deploymentAppId userId ++ ["meals"].

Definition dailyStatsRef (deploymentAppId userId : string) : path :=
  userRoot deploymentAppId userId ++ ["daily_stats"].

(** [doc(collection, id)] *)
Definition docRef (collection : path) (id : string) : path := collection ++ [id].

(** The paths of the documents that sit directly in a collection. *)
Definition in_collection (collection : path) (p : path) : Prop :=
  List.length p = S (List.length collection) /\ take (List.length collection) p = collection.

#[global] Instance in_collection_dec collection p : Decision (in_collection collection p).
Proof. unfold in_collection. apply _. Defined.

(** [getDocs(collection)]: the references of all the documents of the
    collection, whatever their fields. *)
Definition getDocs (db : store) (collection : path) : list path :=
  filter (in_collection collection) (elements (dom db)).

(** A write batch is the list of its queued deletions; [commit] applies
    them all at once. *)
Definition commit (batch : list path) (db : store) : store :=
  foldr delete db batch.

(** ** The application state *)

(** The documents of the database, the messages shown with [alert] (latest
    first), the signed-in user of the authentication provider, and the state
    variables of [App] that the handlers below read or write.  The busy flags
    of the two profile forms are not part of the model. *)
Record App : Type := {
  db : store;
  alerts : list string;
  currentUser : option string;
  userId : option string;
  userProfile : option ProfileData;
  editingMeal : option string;
  isAddFoodModalOpen : bool
}.

Definition set_db (d : store) (st : App) : App :=
  {| db := d; alerts := alerts st; currentUser := currentUser st;
     userId := userId st; userProfile := userProfile st;
     editingMeal := editingMeal st; isAddFoodModalOpen := isAddFoodModalOpen st |}.

Definition alert (message : string) (st : App) : App :=
  {| db := db st; alerts := message :: alerts st; currentUser := currentUser st;
     userId := userId st; userProfile := userProfile st;
     editingMeal := editingMeal st; isAddFoodModalOpen := isAddFoodModalOpen st |}.

Definition setUserProfile (p : option ProfileData) (st : App) : App :=
  {| db := db st; alerts := alerts st; currentUser := currentUser st;
     userId := userId st; userProfile := p;
     editingMeal := editingMeal st; isAddFoodModalOpen := isAddFoodModalOpen st |}.

(** [closeAddModal]: [setAddFoodModalOpen(false); setEditingMeal(null)]. *)
Definition closeAddModal (st : App) : App :=
  {| db := db st; alerts := alerts st; currentUser := currentUser st;
     userId := userId st; userProfile := userProfile st;
     editingMeal := None; isAddFoodModalOpen := false |}.

(** How an asynchronous handler ends: it returns, or an exception (a
    rejected promise) leaves it. *)
Inductive completion : Type := Returned | Threw.

Definition fill_all_fields : string := "Veuillez remplir tous les champs.".
Definition an_error_occurred : string := "Une erreur est survenue.".
Definition profile_updated : string :=
  "Profil mis " +:+ String "224" " jour !".
Definition analysis_failed : string :=
  "L'IA n'a pas pu analyser votre plat. Essayez une description plus d"
  +:+ String "233" ("taill" +:+ String "233" "e.").

(** ** Profile submission (ProfileSetup, lines 153-177; SettingsPage,
    lines 488-503; App.handleProfileUpdate, lines 613-618) *)

(** [!s] on a string: only the empty string is falsy. *)
Definition not_string (s : string) : bool :=
  match s with
  | EmptyString => true
  | String _ _ => false
  end.

(** What a submission did: it stopped at the check of the fields, or it went
    on to compute [profileData] and hand it to the write. *)
Inductive submission : Type :=
  | Rejected
  | Submitted (profileData : ProfileData).

Definition ProfileSetup_handleSubmit (deploymentAppId : string) (now : Z)
    (write_ok : bool) (formData : FormData) (st : App) : submission * App :=
  let height := fd_height formData in
  let weight := fd_weight formData in
  let age := fd_age formData in
  let gender := fd_gender formData in
  let activityLevel := fd_activityLevel formData in
  let goal := fd_goal formData in
  if not_string height || not_string weight || not_string age then
    (Rejected, alert fill_all_fields st)
  else
    let bmr := calculateBMR (parseFloat weight) (parseFloat height) (parseInt age) gender in
    let tdee := calculateTDEE bmr activityLevel in
    let calorieTarget := Math_round (adjustCaloriesForGoal tdee goal) in
    let macroTargets := getMacroTargets calorieTarget in
    let profileData :=
      {| pd_form := formData; pd_calorieTarget := calorieTarget;
         pd_carbs := mt_carbs macroTargets; pd_protein := mt_protein macroTargets;
         pd_fat := mt_fat macroTargets; pd_createdAt := Some now |} in
    match currentUser st with
    | Some uid =>
        if write_ok then
          (Submitted profileData,
           setUserProfile (Some profileData)
             (set_db (<[profileRef deploymentAppId uid := DProfile profileData]> (db st)) st))
        else (Submitted profileData, alert an_error_occurred st)
    | None => (Submitted profileData, alert an_error_occurred st)
    end.

(** [setDoc(ref, data, { merge: true })] on the profile: the fields written
    replace the stored ones, a stored [createdAt] stays when none is
    written. *)
Definition mergeProfile (stored : option document) (data : ProfileData) : document :=
  match pd_createdAt data, stored with
  | None, Some (DProfile old) =>
      DProfile {| pd_form := pd_form data; pd_calorieTarget := pd_calorieTarget data;
                  pd_carbs := pd_carbs data; pd_protein := pd_protein data;
                  pd_fat := pd_fat data; pd_createdAt := pd_createdAt old |}
  | _, _ => DProfile data
  end.

Definition handleProfileUpdate (deploymentAppId : string) (write_ok : bool)
    (newProfileData : ProfileData) (st : App) : completion * App :=
  match userId st with
  | None => (Returned, st)
  | Some uid =>
      let ref := profileRef deploymentAppId uid in
      if write_ok then
        (Returned,
         setUserProfile (Some newProfileData)
           (set_db (<[ref := mergeProfile (db st !! ref) newProfileData]> (db st)) st))
      else (Threw, st)
  end.

Definition SettingsPage_handleSubmit (deploymentAppId : string)
    (write_ok : bool) (formData : FormData) (st : App) : submission * App :=
  let height := fd_height formData in
  let weight := fd_weight formData in
  let age := fd_age formData in
  let gender := fd_gender formData in
  let activityLevel := fd_activityLevel formData in
  let goal := fd_goal formData in
  if not_string height || not_string weight || not_string age then
    (Rejected, alert fill_all_fields st)
  else
    let bmr := calculateBMR (parseFloat weight) (parseFloat height) (parseInt age) gender in
    let tdee := calculateTDEE bmr activityLevel in
    let calorieTarget := Math_round (adjustCaloriesForGoal tdee goal) in
    let macroTargets := getMacroTargets calorieTarget in
    let profileData :=
      {| pd_form := formData; pd_calorieTarget := calorieTarget;
         pd_carbs := mt_carbs macroTargets; pd_protein := mt_protein macroTargets;
         pd_fat := mt_fat macroTargets; pd_createdAt := fd_createdAt formData |} in
    match handleProfileUpdate deploymentAppId write_ok profileData st with
    | (Returned, st') => (Submitted profileData, alert profile_updated st')
    | (Threw, st') => (Submitted profileData, st')
    end.

(** ** The data wipe (App.handleDataDelete, lines 620-635) *)

(** Whether each of the three awaited calls resolves. *)
Record WipeNetwork : Type := {
  meals_read_ok : bool;
  stats_read_ok : bool;
  commit_ok : bool
}.

Definition handleDataDelete (deploymentAppId : string) (net : WipeNetwork)
    (st : App) : completion * App :=
  match userId st with
  | None => (Returned, st)
  | Some uid =>
      let profile := profileRef deploymentAppId uid in
      let meals := mealsRef deploymentAppId uid in
      let dailyStats := dailyStatsRef deploymentAppId uid in
      let batch := [profile] in
      if negb (meals_read_ok net) then (Threw, st) else
      let mealsSnapshot := getDocs (db st) meals in
      let batch := batch ++ mealsSnapshot in
      if negb (stats_read_ok net) then (Threw, st) else
      let dailyStatsSnapshot := getDocs (db st) dailyStats in
      let batch := batch ++ dailyStatsSnapshot in
      if negb (commit_ok net) then (Threw, st) else
      (Returned, setUserProfile None (set_db (commit batch (db st)) st))
  end.

(** ** Writing a meal (App.handleFoodAction, lines 589-598) *)

(** [{ ...v }]: the own enumerable properties of a value.  An object has its
    fields, an array and a string have their elements under their indices,
    and a number, a boolean, [null] and [undefined] have none. *)
Definition spread (v : jsval) : list (string * jsval) :=
  match v with
  | VObj fields => fields
  | VArr items => imap (fun i x => (pretty i, x)) items
  | VStr s => imap (fun i c => (pretty i, VStr (String c ""))) (String.list_ascii_of_string s)
  | VUndefined | VNull | VBool _ | VNum _ => []
  end.

Definition has_field (fields : list (string * jsval)) (name : string) : bool :=
  existsb (fun entry => String.eqb entry.1 name) fields.

Definition remove_field (name : string) (fields : list (string * jsval))
    : list (string * jsval) :=
  filter (fun entry => entry.1 <> name) fields.

Definition set_field (name : string) (v : jsval) (fields : list (string * jsval))
    : list (string * jsval) :=
  (name, v) :: remove_field name fields.

(** [name.split('.')] *)
Fixpoint segments (name : string) : list string :=
  match name with
  | EmptyString => [EmptyString]
  | String c rest =>
      if Ascii.eqb c "." then EmptyString :: segments rest
      else match segments rest with
           | segment :: others => String c segment :: others
           | [] => [String c EmptyString]
           end
  end.

(** The fields after the field at a path is set: a path of several segments
    leads into nested objects, and a value on the way that is not an object
    gives way to one. *)
Fixpoint set_path (path : list string) (v : jsval) (fields : list (string * jsval))
    : list (string * jsval) :=
  match path with
  | [] => fields
  | [name] => set_field name v fields
  | name :: rest =>
      let inner := match own_field fields name with
                   | VObj nested => nested
                   | _ => []
                   end in
      set_field name (VObj (set_path rest v inner)) fields
  end.

(** What [updateDoc] makes of the fields of a document: each field of the
    data is set, its name read as a path with dots between the segments, and
    the other fields stay. *)
Definition update_fields (data stored : list (string * jsval)) : list (string * jsval) :=
  foldr (fun entry fields => set_path (segments entry.1) entry.2 fields) stored data.

(** [newId] is the identifier the store gives to an added document, and
    [write_ok] tells whether the store accepts and performs the write.
    [addDoc] gets [{ ...foodData, createdAt: new Date() }]: the properties of
    the data, with the time of the call as [createdAt] whatever the data hold
    under that name.  [updateDoc] fails on a document that does not exist and
    on data that are not an object; otherwise it sets the fields sent and
    leaves the others.  An edit that sends a field [createdAt] replaces the
    time stamp by what it sends: the document then holds that value among
    its fields, which hides its time stamp (see [createdAt_of]).  A profile
    or a water count at the place of a meal, which no handler writes there,
    is not edited in this model. *)
Definition handleFoodAction (deploymentAppId : string) (now : Z) (newId : string)
    (write_ok : bool) (foodData : jsval) (st : App) : completion * App :=
  match userId st with
  | None => (Returned, st)
  | Some uid =>
      let meals := mealsRef deploymentAppId uid in
      match editingMeal st with
      | Some id =>
          match db st !! docRef meals id, foodData with
          | Some (DMeal stored createdAt), VObj fields =>
              if write_ok
              then (Returned,
                    set_db (<[docRef meals id :=
                                DMeal (VObj (update_fields fields (spread stored))) createdAt]>
                              (db st)) st)
              else (Threw, st)
          | _, _ => (Threw, st)
          end
      | None =>
          if write_ok
          then (Returned,
                set_db (<[docRef meals newId :=
                            DMeal (VObj (remove_field "createdAt" (spread foodData))) now]>
                          (db st)) st)
          else (Threw, st)
      end
  end.

(** ** The water counter (WaterTracker, lines 423-452) *)

Definition waterDocRef (deploymentAppId uid today : string) : path :=
  docRef (dailyStatsRef deploymentAppId uid) today.

(** The state variable [waterCount] and the database. *)
Record WaterTracker : Type := {
  waterCount : number;
  water_db : store
}.

(** The callback of [onSnapshot]. *)
Definition onWaterSnapshot (ref : path) (wt : WaterTracker) : WaterTracker :=
  {| waterCount :=
       match water_db wt !! ref with
       | Some (DWater n) => or_zero (Some n)
       | Some _ => 0%js
       | None => 0%js
       end;
     water_db := water_db wt |}.

Definition updateWaterCount (ref : path) (write_ok : bool) (newCount : number)
    (wt : WaterTracker) : WaterTracker :=
  let count := Math_max 0 newCount in
  {| waterCount := count;
     water_db := if write_ok then <[ref := DWater count]> (water_db wt) else water_db wt |}.

(** The two buttons. *)
Definition clickMinus (ref : path) (write_ok : bool) (wt : WaterTracker) : WaterTracker :=
  updateWaterCount ref write_ok (waterCount wt - 1)%js wt.

Definition clickPlus (ref : path) (write_ok : bool) (wt : WaterTracker) : WaterTracker :=
  updateWaterCount ref write_ok (waterCount wt + 1)%js wt.

Inductive water_event : Type :=
  | Minus (write_ok : bool)
  | Plus (write_ok : bool)
  | Snapshot.

Definition water_step (ref : path) (wt : WaterTracker) (ev : water_event) : WaterTracker :=
  match ev with
  | Minus ok => clickMinus ref ok wt
  | Plus ok => clickPlus ref ok wt
  | Snapshot => onWaterSnapshot ref wt
  end.

Definition water_run (ref : path) (wt : WaterTracker) (evs : list water_event) : WaterTracker :=
  fold_left (water_step ref) evs wt.

(** ** The inference request (AddFoodModal, lines 241-247 and 298-348) *)

(** The state variables of the dialog that the request and its confirmation
    touch; [aiResult] starts as [null].  The fields of the manual form and
    the image are not part of the model. *)
Record AddFoodModal : Type := {
  mode : string;
  aiText : string;
  aiResult : jsval;
  isLoading : bool
}.

Definition resetState (m : AddFoodModal) : AddFoodModal :=
  {| mode := "main"; aiText := ""; aiResult := VNull; isLoading := false |}.

(** What [fetch] gives: it throws (no network), or it resolves to a response
    with its [ok] flag, its [statusText] and what [response.json()] resolves
    to, [None] when the body is not JSON. *)
Inductive fetch_result : Type :=
  | FetchThrows
  | FetchResponse (ok : bool) (statusText : string) (json : option jsval).

Section Inference.

(** Two built-ins of the language stay abstract: [JSON.parse] of a value
    ([None] is its [SyntaxError]), and the comparison [v > 0] of a value [v]
    that is not a number. *)
Variable JSON_parse : jsval -> option jsval.
Variable gt_zero_coerced : jsval -> bool.

Definition gt_zero (v : jsval) : bool :=
  match v with
  | VNum x => Num.gt x 0
  | _ => gt_zero_coerced v
  end.

(** The condition of line 332; [None] is a [TypeError] raised while it is
    evaluated. *)
Definition has_first_part (result : jsval) : option bool :=
  candidates ← get_field result "candidates";
  if negb (ToBoolean candidates) then Some false else
  len ← get_field candidates "length";
  if negb (gt_zero len) then Some false else
  candidate ← get_first candidates;
  content ← get_field candidate "content";
  if negb (ToBoolean content) then Some false else
  parts ← get_field content "parts";
  if negb (ToBoolean parts) then Some false else
  plen ← get_field parts "length";
  Some (gt_zero plen).

(** [result.candidates[0].content.parts[0].text] *)
Definition first_part_text (result : jsval) : option jsval :=
  candidates ← get_field result "candidates";
  candidate ← get_first candidates;
  content ← get_field candidate "content";
  parts ← get_field content "parts";
  part ← get_first parts;
  get_field part "text".

(** The [try] block: [Some r] when [setAiResult(r)] is reached, [None] when
    an exception leaves the block. *)
Definition sendAIRequest_try (response : fetch_result) : option jsval :=
  match response with
  | FetchThrows => None
  | FetchResponse ok _ json =>
      if negb ok then None else
      result ← json;
      found ← has_first_part result;
      if (found : bool)
      then (jsonText ← first_part_text result; JSON_parse jsonText)
      else None
  end.

Definition sendAIRequest (response : fetch_result) (m : AddFoodModal) (st : App)
    : AddFoodModal * App :=
  match sendAIRequest_try response with
  | Some r =>
      ({| mode := mode m; aiText := aiText m; aiResult := r; isLoading := false |}, st)
  | None =>
      ({| mode := mode m; aiText := aiText m; aiResult := VNull; isLoading := false |},
       alert analysis_failed st)
  end.

End Inference.

(** [handleAiResultConfirm]: [if (aiResult) { onFoodAction(aiResult);
    handleClose(); }] *)
Definition handleAiResultConfirm (deploymentAppId : string) (now : Z) (newId : string)
    (write_ok : bool) (m : AddFoodModal) (st : App) : AddFoodModal * App :=
  if ToBoolean (aiResult m) then
    let '(_, st1) := handleFoodAction deploymentAppId now newId write_ok (aiResult m) st in
    (resetState m, closeAddModal st1)
  else (m, st).

(** ** The formulas of the specification, for comparison *)

Definition spec_BMR_male (weight height age : number) : number :=
  (88.362 + 13.397 * weight + 4.799 * height - 5.677 * age)%js.

Definition spec_BMR_female (weight height age : number) : number :=
  (447.593 + 9.247 * weight + 3.098 * height - 4.330 * age)%js.

(** The multiplier table of the specification: the five levels, and 1.2 for
    any other level. *)
Definition spec_multiplier (activityLevel : string) : number :=
  if decide (activityLevel = "sedentary") then 1.2%js
  else if decide (activityLevel = "light") then 1.375%js
  else if decide (activityLevel = "moderate") then 1.55%js
  else if decide (activityLevel = "active") then 1.725%js
  else if decide (activityLevel = "veryActive") then 1.9%js
  else 1.2%js.

Definition spec_TDEE (bmr : number) (activityLevel : string) : number :=
  (bmr * spec_multiplier activityLevel)%js.

(** [computeBMR]: the male formula for [male], and the female one for any
    other gender. *)
Definition spec_BMR (weight height age : number) (gender : string) : number :=
  if decide (gender = "male") then spec_BMR_male weight height age
  else spec_BMR_female weight height age.

(** [adjustForGoal]: lose, [x 0.85]; gain, [x 1.15]; maintain or anything
    else, unchanged. *)
Definition spec_adjustForGoal (tdee : number) (goal : string) : number :=
  if decide (goal = "lose") then (tdee * 0.85)%js
  else if decide (goal = "gain") then (tdee * 1.15)%js
  else tdee.

(** [round(adjustForGoal(computeTDEE(computeBMR(weight, height, age, gender),
    activityLevel), goal))], with the formulas and the table of the
    specification. *)
Definition spec_target_formula (weight height age : number)
    (gender activityLevel goal : string) : number :=
  Math_round
    (spec_adjustForGoal (spec_TDEE (spec_BMR weight height age gender) activityLevel) goal).

(** ** Profiles, as the submissions compute and store them *)

Definition submitted (s : submission) : option ProfileData :=
  match s with
  | Submitted profileData => Some profileData
  | Rejected => None
  end.

(** The profile of the first two scenarios, as the form holds it. *)
Definition scenario_form (goal : string) : FormData :=
  {| fd_height := "175"; fd_weight := "70"; fd_age := "30"; fd_gender := "male";
     fd_activityLevel := "sedentary"; fd_goal := goal; fd_createdAt := None |}.

(** A session right after sign-in: no document yet. *)
Definition fresh_session (uid : string) : App :=
  {| db := ∅; alerts := []; currentUser := Some uid; userId := Some uid;
     userProfile := None; editingMeal := None; isAddFoodModalOpen := false |}.

(** [Math.round(adjustCaloriesForGoal(calculateTDEE(calculateBMR(weight,
    height, age, gender), activityLevel), goal))]: the calorie target as both
    submissions compute it (lines 160-162 and 495-497). *)
Definition computed_target (weight height age : number)
    (gender activityLevel goal : string) : number :=
  Math_round
    (adjustCaloriesForGoal
       (calculateTDEE (calculateBMR weight height age gender) activityLevel) goal).

(** What a submission hands to the write when it is not rejected: the form,
    the targets computed from the fields as [parseFloat] and [parseInt] read
    them, and [createdAt]. *)
Definition computed_profile (formData : FormData) (createdAt : option Z) : ProfileData :=
  let calorieTarget :=
    computed_target (parseFloat (fd_weight formData)) (parseFloat (fd_height formData))
      (parseInt (fd_age formData)) (fd_gender formData)
      (fd_activityLevel formData) (fd_goal formData) in
  {| pd_form := formData; pd_calorieTarget := calorieTarget;
     pd_carbs := mt_carbs (getMacroTargets calorieTarget);
     pd_protein := mt_protein (getMacroTargets calorieTarget);
     pd_fat := mt_fat (getMacroTargets calorieTarget);
     pd_createdAt := createdAt |}.

(** The profile document of a user, as the database holds it. *)
Definition persistedProfile (deploymentAppId uid : string) (st : App) : option ProfileData :=
  match db st !! profileRef deploymentAppId uid with
  | Some (DProfile p) => Some p
  | _ => None
  end.

(** A whole number written in digits, like ["30"]. *)
Definition is_digit (c : ascii) : bool :=
  let n := code c in (48 <=? n) && (n <=? 57).

Fixpoint all_digits (s : string) : bool :=
  match s with
  | EmptyString => true
  | String c s' => is_digit c && all_digits s'
  end.

Definition whole_number (s : string) : bool :=
  negb (not_string s) && all_digits s.

(** The integer that a string of digits denotes. *)
Fixpoint digits_value_from (acc : Z) (s : string) : Z :=
  match s with
  | EmptyString => acc
  | String c s' => digits_value_from (acc * 10 + (code c - 48)) s'
  end.

Definition digits_value (s : string) : Z := digits_value_from 0 s.

(** A number in decimal notation: a whole number, then possibly a point and
    more digits, like [70], [70.5] or [175.25]. *)
Definition numeral (whole fraction : string) : string :=
  if not_string fraction then whole else whole +:+ String "." fraction.

Definition is_numeral (whole fraction : string) : bool :=
  whole_number whole && all_digits fraction.

(** The number that the notation denotes: the number nearest to
    [whole.fraction]. *)
Definition numeral_value (whole fraction : string) : number :=
  decimal false (digits_value (whole +:+ fraction))
    (- Z.of_nat (String.length fraction)).

(** The profile of the first scenario with the height left empty. *)
Definition empty_height_form : FormData :=
  {| fd_height := ""; fd_weight := "70"; fd_age := "30"; fd_gender := "male";
     fd_activityLevel := "sedentary"; fd_goal := "maintain"; fd_createdAt := None |}.

(** The profile of the first scenario with the age 30.5. *)
Definition fractional_age_form : FormData :=
  {| fd_height := "175"; fd_weight := "70"; fd_age := "30.5"; fd_gender := "male";
     fd_activityLevel := "sedentary"; fd_goal := "maintain"; fd_createdAt := None |}.

(** Whether one of the three fields the submission checks is empty. *)
Definition some_field_empty (formData : FormData) : Prop :=
  fd_height formData = "" \/ fd_weight formData = "" \/ fd_age formData = "".

#[global] Instance some_field_empty_dec formData : Decision (some_field_empty formData).
Proof. unfold some_field_empty. apply _. Defined.

(** A user with a profile, a meal of an earlier day (time 5), a meal of
    today (time 1000) and two days of water, next to a document of another
    user. *)
Definition some_profile : ProfileData := computed_profile (scenario_form "maintain") (Some 0).

Definition populated_session : App :=
  let app := "default-app-id" in
  {| db := <[profileRef app "u1" := DProfile some_profile]>
          (<[docRef (mealsRef app "u1") "m1" := DMeal (VObj [("calories", VNum 300%js)]) 5]>
          (<[docRef (mealsRef app "u1") "m2" := DMeal (VObj [("calories", VNum 450%js)]) 1000]>
          (<[docRef (dailyStatsRef app "u1") "2024-01-01" := DWater 3%js]>
          (<[docRef (dailyStatsRef app "u1") "2024-01-02" := DWater 1%js]>
          (<[profileRef app "u2" := DProfile some_profile]> ∅)))));
     alerts := []; currentUser := Some "u1"; userId := Some "u1";
     userProfile := Some some_profile; editingMeal := None;
     isAddFoodModalOpen := false |}.

Definition all_resolve : WipeNetwork :=
  {| meals_read_ok := true; stats_read_ok := true; commit_ok := true |}.

(** ** The failures of the inference service, as the specification lists
    them *)

(** A read that finds nothing: it throws, or yields [undefined] or [null]. *)
Definition absent (v : option jsval) : Prop :=
  v = None \/ v = Some VUndefined \/ v = Some VNull.

(** A value that is missing: the read throws, or yields a falsy value
    ([undefined], [null], [false], [0], [NaN] or the empty string). *)
Definition missing (v : option jsval) : Prop :=
  match v with
  | Some x => ToBoolean x = false
  | None => True
  end.

Section Failures.

(** [JSON.parse] and the comparison [v > 0] on a value that is not a number,
    as in the request. *)
Variable JSON_parse : jsval -> option jsval.
Variable gt_zero_coerced : jsval -> bool.

(** A value without a first element: its [length] is not above 0, or its
    element 0 is [undefined] or [null]. *)
Definition no_first (v : jsval) : Prop :=
  (exists len, get_field v "length" = Some len /\ gt_zero gt_zero_coerced len = false)
  \/ absent (get_first v).

(** The result lacks an expected field: on the way
    [result.candidates[0].content.parts[0]], one of [candidates], [content]
    and [parts] is missing, or [candidates] or [parts] has no first
    element. *)
Inductive lacks_expected_fields (result : jsval) : Prop :=
  | no_candidates :
      missing (get_field result "candidates") ->
      lacks_expected_fields result
  | no_candidate candidates :
      get_field result "candidates" = Some candidates ->
      no_first candidates ->
      lacks_expected_fields result
  | no_content candidates candidate :
      get_field result "candidates" = Some candidates ->
      get_first candidates = Some candidate ->
      missing (get_field candidate "content") ->
      lacks_expected_fields result
  | no_parts candidates candidate content :
      get_field result "candidates" = Some candidates ->
      get_first candidates = Some candidate ->
      get_field candidate "content" = Some content ->
      missing (get_field content "parts") ->
      lacks_expected_fields result
  | no_part candidates candidate content parts :
      get_field result "candidates" = Some candidates ->
      get_first candidates = Some candidate ->
      get_field candidate "content" = Some content ->
      get_field content "parts" = Some parts ->
      no_first parts ->
      lacks_expected_fields result.

(** An error (no response, or a response that is not [ok]), a malformed
    response (a body that is not JSON, or a text of the first part that is
    not JSON), or a result that lacks the expected fields. *)
Inductive inference_failure : fetch_result -> Prop :=
  | network_error :
      inference_failure FetchThrows
  | error_response statusText json :
      inference_failure (FetchResponse false statusText json)
  | malformed_body statusText :
      inference_failure (FetchResponse true statusText None)
  | missing_fields statusText result :
      lacks_expected_fields result ->
      inference_failure (FetchResponse true statusText (Some result))
  | malformed_text statusText result text :
      first_part_text result = Some text ->
      JSON_parse text = None ->
      inference_failure (FetchResponse true statusText (Some result)).


End Failures.



Definition empty_modal : AddFoodModal :=
  {| mode := "ai-text"; aiText := "un bol de riz"; aiResult := VNull; isLoading := true |}.

(** ** Non-negative counts *)

(** [x >= 0]: false on [NaN]. *)
Definition is_nonneg (x : number) : bool := Num.ge x 0.

(** The count on the screen and the count in the document of the day, when
    there is one, are non-negative. *)
Definition water_nonneg (ref : path) (wt : WaterTracker) : Prop :=
  is_nonneg (waterCount wt) = true /\
  match water_db wt !! ref with
  | Some (DWater n) => is_nonneg n = true
  | _ => True
  end.

Definition water_start (count : number) : WaterTracker :=
  {| waterCount := count; water_db := ∅ |}.

(** ** Numbers as the engine holds them *)

(** [spec_float] also has triples no binary64 number has, with an exponent
    below [emin] = -1074.  Every binary64 number is well scaled. *)
Definition well_scaled (x : number) : Prop :=
  match x with
  | S754_finite _ _ e => -1074 <= e
  | _ => True
  end.

Definition well_scaled_field (field : option number) : Prop :=
  match field with
  | Some x => well_scaled x
  | None => True
  end.

Definition well_scaled_meal (m : Meal) : Prop :=
  well_scaled_field (meal_calories m) /\ well_scaled_field (meal_carbs m) /\
  well_scaled_field (meal_protein m) /\ well_scaled_field (meal_fat m).

(** The binary64 number of a positive integer below [2^53]: a mantissa of 53
    bits. *)
Definition canonical (s : bool) (n : positive) : number :=
  let d := Zpos (digits2_pos n) in
  S754_finite s (Z.to_pos (Zpos n * 2 ^ (53 - d))) (d - 53).

(** Well scaled and not [-0]: what the totals are at every step. *)
Definition clean (x : number) : Prop :=
  well_scaled x /\ x <> S754_zero true.

(** One column of the totals: [a += meal.field || 0] along the list. *)
Definition column_sum (field : Meal -> option number) (meals : list Meal) (a : number) : number :=
  fold_left (fun a m => (a + or_zero (field m))%js) meals a.

(** ** Meals with whole quantities *)

(** A meal whose quantities, when present, are whole numbers. *)
Record WholeMeal : Type := {
  wm_id : string;
  wm_name : string;
  wm_calories : option N;
  wm_carbs : option N;
  wm_protein : option N;
  wm_fat : option N
}.

Definition whole (n : N) : number := of_Z (Z.of_N n).

Definition meal_of (w : WholeMeal) : Meal :=
  {| meal_id := wm_id w; meal_name := wm_name w;
     meal_calories := whole <$> wm_calories w;
     meal_carbs := whole <$> wm_carbs w;
     meal_protein := whole <$> wm_protein w;
     meal_fat := whole <$> wm_fat w |}.

(** The sum of a quantity over the meals, an absent one counting for 0. *)
Definition quantity_sum (field : WholeMeal -> option N) (ws : list WholeMeal) : Z :=
  foldr (fun w acc => Z.of_N (default 0%N (field w)) + acc) 0 ws.

(** The four sums are in the range where the addition of numbers is exact. *)
Definition sums_exact (ws : list WholeMeal) : Prop :=
  quantity_sum wm_calories ws < 2 ^ 53 /\
  quantity_sum wm_carbs ws < 2 ^ 53 /\
  quantity_sum wm_protein ws < 2 ^ 53 /\
  quantity_sum wm_fat ws < 2 ^ 53.

(** A meal of which only the fat is known. *)
Definition fat_only (id : string) (grams : number) : Meal :=
  {| meal_id := id; meal_name := id; meal_calories := None; meal_carbs := None;
     meal_protein := None; meal_fat := Some grams |}.

(** The meal with each absent quantity written as the number 0. *)
Definition fill_missing (m : Meal) : Meal :=
  {| meal_id := meal_id m; meal_name := meal_name m;
     meal_calories := Some (default 0%js (meal_calories m));
     meal_carbs := Some (default 0%js (meal_carbs m));
     meal_protein := Some (default 0%js (meal_protein m));
     meal_fat := Some (default 0%js (meal_fat m)) |}.

Definition no_totals : Totals :=
  {| calories := 0%js; carbs := 0%js; protein := 0%js; fat := 0%js |}.

(** The three meals of the third scenario, with macros for the first two. *)
Definition scenario_meals : list Meal :=
  [ {| meal_id := "m1"; meal_name := "porridge"; meal_calories := Some 300%js;
       meal_carbs := Some 54%js; meal_protein := Some 10.5%js; meal_fat := Some 5%js |};
    {| meal_id := "m2"; meal_name := "riz au poulet"; meal_calories := Some 450%js;
       meal_carbs := Some 60.2%js; meal_protein := Some 35%js; meal_fat := Some 8.1%js |};
    {| meal_id := "m3"; meal_name := "eau"; meal_calories := Some 0%js;
       meal_carbs := None; meal_protein := None; meal_fat := None |} ].

Definition whole_meals : list WholeMeal :=
  [ {| wm_id := "m1"; wm_name := "porridge"; wm_calories := Some 300%N;
       wm_carbs := Some 54%N; wm_protein := Some 10%N; wm_fat := Some 5%N |};
    {| wm_id := "m2"; wm_name := "riz au poulet"; wm_calories := Some 450%N;
       wm_carbs := Some 60%N; wm_protein := Some 35%N; wm_fat := Some 8%N |};
    {| wm_id := "m3"; wm_name := "eau"; wm_calories := Some 0%N;
       wm_carbs := None; wm_protein := None; wm_fat := None |} ].

(** * The rest of the interface *)

(** ** The gauges (CalorieCircle, lines 190-207; MacroBar, lines 209-220) *)

(** [Math.min(x, y)]: [NaN] if either is [NaN]; [-0] is smaller than [+0]. *)
Definition Math_min (x y : number) : number :=
  match SFcompare x y with
  | None => NaN
  | Some Lt => x
  | Some Gt => y
  | Some Eq => match x with S754_zero false => y | _ => x end
  end.

(** [target > 0 ? Math.min((consumed / target) * 100, 100) : 0], the share
    of the target that the ring and the bars show. *)
Definition percentage (consumed target : number) : number :=
  if Num.gt target 0 then Math_min ((consumed / target) * 100)%js 100%js else 0%js.

(** [x <= y]: false as soon as one side is [NaN]. *)
Definition le (x y : number) : bool := SFleb x y.

(** The number is a zero, a finite number or an infinity of sign [s]. *)
Definition has_sign (s : bool) (x : number) : Prop :=
  match x with
  | S754_zero s' | S754_infinity s' | S754_finite s' _ _ => s' = s
  | S754_nan => False
  end.

Definition is_infinite (x : number) : bool :=
  match x with
  | S754_infinity _ => true
  | _ => false
  end.

(** A quantity that is not below zero: [x < 0] is false (so is it of [NaN],
    which the reducer reads as 0). *)
Definition not_negative_field (field : option number) : Prop :=
  match field with
  | Some x => Num.gt 0 x = false
  | None => True
  end.

Definition not_negative_meal (m : Meal) : Prop :=
  not_negative_field (meal_calories m) /\ not_negative_field (meal_carbs m) /\
  not_negative_field (meal_protein m) /\ not_negative_field (meal_fat m).

(** A day of three meals, one of them with a field that is not a number. *)
Definition gauge_meals : list Meal :=
  [ {| meal_id := "m1"; meal_name := "porridge"; meal_calories := Some 300.5%js;
       meal_carbs := Some 54%js; meal_protein := Some 10.5%js; meal_fat := Some 5%js |};
    {| meal_id := "m2"; meal_name := "riz au poulet"; meal_calories := Some 2450%js;
       meal_carbs := Some 60.2%js; meal_protein := Some NaN; meal_fat := Some 8.1%js |};
    {| meal_id := "m3"; meal_name := "eau"; meal_calories := Some 0%js;
       meal_carbs := None; meal_protein := None; meal_fat := None |} ].

(** ** The water counter as a counter of whole servings *)

(** The count on the screen and the count of the document of the day, when
    there is one, as integers. *)
Definition Counter : Type := Z * option Z.

Definition counter_step (c : Counter) (ev : water_event) : Counter :=
  match ev with
  | Minus ok => let n := Z.max 0 (c.1 - 1) in (n, if ok then Some n else c.2)
  | Plus ok => let n := c.1 + 1 in (n, if ok then Some n else c.2)
  | Snapshot => (default 0 c.2, c.2)
  end.

Definition counter_run (c : Counter) (evs : list water_event) : Counter :=
  fold_left counter_step evs c.

(** The tracker shows and stores the numbers of the counter. *)
Definition water_matches (ref : path) (c : Counter) (wt : WaterTracker) : Prop :=
  waterCount wt = of_Z c.1 /\
  water_db wt !! ref = (fun n => DWater (of_Z n)) <$> c.2.

(** The counter and what it stores are whole numbers from 0 to [bound]. *)
Definition counter_within (bound : Z) (c : Counter) : Prop :=
  0 <= c.1 <= bound /\ match c.2 with Some n => 0 <= n <= bound | None => True end.

(** ** Manual entry (AddFoodModal, lines 247-254) *)

(** The fields of the manual form, as texts: what the user typed.  (When a
    meal is edited the form starts from the stored numbers; a field the user
    leaves untouched is then a number, which is outside this model.) *)
Record ManualData : Type := {
  md_name : string;
  md_calories : string;
  md_carbs : string;
  md_protein : string;
  md_fat : string
}.

(** [parseFloat(field || 0)]: an empty field gives the number 0, which
    [parseFloat] reads back from its text ["0"]. *)
Definition parseFloat_or_zero (field : string) : number :=
  if not_string field then parseFloat "0" else parseFloat field.

Definition manualFoodData (manualData : ManualData) : jsval :=
  VObj [ ("name", VStr (md_name manualData));
         ("calories", VNum (parseFloat_or_zero (md_calories manualData)));
         ("carbs", VNum (parseFloat_or_zero (md_carbs manualData)));
         ("protein", VNum (parseFloat_or_zero (md_protein manualData)));
         ("fat", VNum (parseFloat_or_zero (md_fat manualData))) ].

(** [handleClose]: [resetState(); onClose()]. *)
Definition handleClose (m : AddFoodModal) (st : App) : AddFoodModal * App :=
  (resetState m, closeAddModal st).

Definition handleManualSubmit (deploymentAppId : string) (now : Z) (newId : string)
    (write_ok : bool) (manualData : ManualData) (m : AddFoodModal) (st : App)
    : AddFoodModal * App :=
  let foodData := manualFoodData manualData in
  let '(_, st1) := handleFoodAction deploymentAppId now newId write_ok foodData st in
  handleClose m st1.

(** ** The meals of the day (App, lines 576-587) *)

(** The time stamp that a document holds as [createdAt], when it holds one:
    a meal holds the one of its creation unless an edit has put another
    value under that name, and a range of dates finds no such value. *)
Definition createdAt_of (d : document) : option Z :=
  match d with
  | DMeal food createdAt =>
      if has_field (spread food) "createdAt" then None else Some createdAt
  | DProfile p => pd_createdAt p
  | DWater _ => None
  end.

(** What the query keeps: the documents of the collection whose [createdAt]
    is at or after [today] and before [tomorrow]. *)
Definition is_todays_meal (meals : path) (today tomorrow : Z)
    (entry : path * document) : Prop :=
  in_collection meals entry.1 /\
  match createdAt_of entry.2 with
  | Some createdAt => today <= createdAt < tomorrow
  | None => False
  end.

#[global] Instance is_todays_meal_dec meals today tomorrow entry :
  Decision (is_todays_meal meals today tomorrow entry).
Proof. unfold is_todays_meal. destruct (createdAt_of entry.2); apply _. Defined.

(** The documents of a snapshot of the query, by reference. *)
Definition todaysMeals (deploymentAppId uid : string) (today tomorrow : Z)
    (db : store) : gmap path document :=
  filter (is_todays_meal (mealsRef deploymentAppId uid) today tomorrow) db.

(** ** Deleting a meal (App, lines 600-611) *)

Record DeleteDialog : Type := {
  mealToDelete : option string;
  isDeleteMealModalOpen : bool
}.

Definition handleDeleteMealRequest (mealId : string) (d : DeleteDialog) : DeleteDialog :=
  {| mealToDelete := Some mealId; isDeleteMealModalOpen := true |}.

Definition confirmDeleteMeal (deploymentAppId : string) (write_ok : bool)
    (d : DeleteDialog) (st : App) : completion * DeleteDialog * App :=
  match userId st, mealToDelete d with
  | Some uid, Some id =>
      if write_ok then
        (Returned, {| mealToDelete := None; isDeleteMealModalOpen := false |},
         set_db (delete (docRef (mealsRef deploymentAppId uid) id) (db st)) st)
      else (Threw, d, st)
  | _, _ => (Returned, d, st)
  end.

(** ** Signing in and the first screen (App, lines 557-574 and 641-642) *)

Definition setUserId (u : option string) (st : App) : App :=
  {| db := db st; alerts := alerts st; currentUser := currentUser st;
     userId := u; userProfile := userProfile st;
     editingMeal := editingMeal st; isAddFoodModalOpen := isAddFoodModalOpen st |}.

(** The callback of [onAuthStateChanged], with the busy flag of [App] beside
    the state.  With a user it reads the profile document and takes its data
    as the profile.  Without a user it asks for an anonymous sign-in and
    changes nothing.  The result is [None] when the document found at the
    place of the profile is a meal or a water count, which no handler writes
    there and which cannot be told as a profile here. *)
Definition onAuthStateChanged (deploymentAppId : string) (read_ok : bool)
    (user : option string) (isLoading : bool) (st : App)
    : option (completion * bool * App) :=
  match user with
  | Some uid =>
      let st1 := setUserId (Some uid) st in
      if read_ok then
        match db st !! profileRef deploymentAppId uid with
        | Some (DProfile p) => Some (Returned, false, setUserProfile (Some p) st1)
        | None => Some (Returned, false, st1)
        | Some _ => None
        end
      else Some (Threw, isLoading, st1)
  | None => Some (Returned, isLoading, st)
  end.

Inductive screen : Type :=
  | SpinnerScreen
  | ProfileSetupScreen
  | MainScreen.

(** What [App] returns: the spinner while loading, the profile setup without
    a profile, the pages otherwise. *)
Definition render (isLoading : bool) (st : App) : screen :=
  if isLoading then SpinnerScreen
  else match userProfile st with
       | None => ProfileSetupScreen
       | Some _ => MainScreen
       end.

(** ** Opening the dialog (App, lines 637-639) *)

Definition handleEditMeal (mealId : string) (st : App) : App :=
  {| db := db st; alerts := alerts st; currentUser := currentUser st;
     userId := userId st; userProfile := userProfile st;
     editingMeal := Some mealId; isAddFoodModalOpen := true |}.

Definition openAddModal (st : App) : App :=
  {| db := db st; alerts := alerts st; currentUser := currentUser st;
     userId := userId st; userProfile := userProfile st;
     editingMeal := None; isAddFoodModalOpen := true |}.

(** ** A session as a sequence of actions *)

(** What the user does in a session, with what the network answers. *)
Inductive app_event : Type :=
  | SubmitSetup (now : Z) (write_ok : bool) (formData : FormData)
  | SubmitSettings (write_ok : bool) (formData : FormData)
  | FoodAction (now : Z) (newId : string) (write_ok : bool) (foodData : jsval)
  | ManualSubmit (now : Z) (newId : string) (write_ok : bool) (manualData : ManualData)
  | EditMeal (mealId : string)
  | OpenAdd
  | CloseAdd
  | DeleteMeal (write_ok : bool) (mealId : string)
  | Wipe (net : WipeNetwork).

Definition app_step (deploymentAppId : string) (st : App) (ev : app_event) : App :=
  match ev with
  | SubmitSetup now ok formData =>
      (ProfileSetup_handleSubmit deploymentAppId now ok formData st).2
  | SubmitSettings ok formData =>
      (SettingsPage_handleSubmit deploymentAppId ok formData st).2
  | FoodAction now newId ok foodData =>
      (handleFoodAction deploymentAppId now newId ok foodData st).2
  | ManualSubmit now newId ok manualData =>
      (handleManualSubmit deploymentAppId now newId ok manualData
         {| mode := "manual"; aiText := ""; aiResult := VNull; isLoading := false |} st).2
  | EditMeal mealId => handleEditMeal mealId st
  | OpenAdd => openAddModal st
  | CloseAdd => closeAddModal st
  | DeleteMeal ok mealId =>
      (confirmDeleteMeal deploymentAppId ok
         (handleDeleteMealRequest mealId
            {| mealToDelete := None; isDeleteMealModalOpen := false |}) st).2
  | Wipe net => (handleDataDelete deploymentAppId net st).2
  end.

Definition app_run (deploymentAppId : string) (st : App) (evs : list app_event) : App :=
  fold_left (app_step deploymentAppId) evs st.

(** The session is the session of [uid]: the provider and [App] both hold
    this user. *)
Definition session_of (uid : string) (st : App) : Prop :=
  currentUser st = Some uid /\ userId st = Some uid.

(** The targets of a profile are the ones computed from the form stored with
    them. *)
Definition profile_consistent (p : ProfileData) : Prop :=
  p = computed_profile (pd_form p) (pd_createdAt p).

(** Every profile in the database and the profile of the session are
    consistent. *)
Definition profiles_consistent (st : App) : Prop :=
  (forall ref p, db st !! ref = Some (DProfile p) -> profile_consistent p) /\
  (forall p, userProfile st = Some p -> profile_consistent p).

(** What a day of use looks like: setup, two meals, an edit, a deletion, new
    settings, and a wipe that fails. *)
Definition sample_day : list app_event :=
  [ SubmitSetup 100 true (scenario_form "maintain");
    OpenAdd;
    ManualSubmit 200 "m1"
      true {| md_name := "porridge"; md_calories := "300"; md_carbs := "54";
              md_protein := ""; md_fat := "5" |};
    OpenAdd;
    FoodAction 300 "m2" true (VObj [("name", VStr "riz"); ("calories", VNum 450%js)]);
    EditMeal "m1";
    ManualSubmit 400 "m9"
      true {| md_name := "porridge"; md_calories := "320"; md_carbs := "54";
              md_protein := "11"; md_fat := "5" |};
    DeleteMeal true "m2";
    SubmitSettings true (scenario_form "lose");
    Wipe {| meals_read_ok := true; stats_read_ok := false; commit_ok := true |} ].

(** The profile of the session and the profile document of the user agree:
    both are missing, or both are there with the same form and the same
    targets ([createdAt] may differ: a merge keeps the stored one). *)
Definition profile_in_sync (deploymentAppId uid : string) (st : App) : Prop :=
  match userProfile st, db st !! profileRef deploymentAppId uid with
  | None, None => True
  | Some p, Some (DProfile q) =>
      pd_form p = pd_form q /\ pd_calorieTarget p = pd_calorieTarget q /\
      pd_carbs p = pd_carbs q /\ pd_protein p = pd_protein q /\ pd_fat p = pd_fat q
  | _, _ => False
  end.

(** The state of [App] when the page is loaded again on the same database:
    the initial values of the state variables (lines 547-554), the user
    still signed in at the provider. *)
Definition reloaded (st : App) : App :=
  {| db := db st; alerts := alerts st; currentUser := currentUser st;
     userId := None; userProfile := None;
     editingMeal := None; isAddFoodModalOpen := false |}.

(** ** What is sent to the inference service (AddFoodModal, lines 256-296) *)

Definition quoted (s : string) : string := String "034" (s +:+ String "034" "").

Definition prompt : string :=
  "You are an expert nutritionist. Analyze the following meal. Provide your best estimate for the meal's name, total calories, and macronutrients (carbohydrates, protein, fat) in grams. If portion size is unclear, assume a standard single serving. Your response MUST be a single, valid JSON object with no other text or explanations. The format is: {"
  +:+ quoted "name" +:+ ": " +:+ quoted "..." +:+ ", "
  +:+ quoted "calories" +:+ ": ..., " +:+ quoted "carbs" +:+ ": ..., "
  +:+ quoted "protein" +:+ ": ..., " +:+ quoted "fat" +:+ ": ...}. The meal is: ".

(** A part of the message: a text, or the data of an image with its type;
    [None] as data is [undefined]. *)
Inductive part : Type :=
  | TextPart (text : string)
  | InlineData (mimeType : string) (data : option string).

(** An image file, as what a [FileReader] makes of it: an error, or the data
    URL that [readAsDataURL] yields. *)
Inductive file_read : Type :=
  | ReadError
  | ReadResult (result : string).

(** [s.split(',')[1]]: the text between the first comma and the next one,
    [undefined] without a comma. *)
Fixpoint after_comma (s : string) : option string :=
  match s with
  | EmptyString => None
  | String c s' => if Ascii.eqb c "," then Some s' else after_comma s'
  end.

Fixpoint until_comma (s : string) : string :=
  match s with
  | EmptyString => EmptyString
  | String c s' => if Ascii.eqb c "," then EmptyString else String c (until_comma s')
  end.

Definition split_comma_1 (s : string) : option string :=
  until_comma <$> after_comma s.

(** [handleImageChange], on the dialog and the state variable [aiImage];
    [file] is [e.target.files[0]].  The preview is not part of the model. *)
Definition handleImageChange (file : option file_read) (m : AddFoodModal)
    (aiImage : option file_read) : AddFoodModal * option file_read :=
  match file with
  | Some f =>
      ({| mode := "ai-image-confirm"; aiText := aiText m; aiResult := aiResult m;
          isLoading := isLoading m |}, Some f)
  | None => (m, aiImage)
  end.

Definition image_unreadable : string := "Erreur de lecture de l'image.".

Section Analysis.

Variable JSON_parse : jsval -> option jsval.
Variable gt_zero_coerced : jsval -> bool.

(** [analyzeWithAI], up to the end of the request it starts: the parts of
    the one message of [chatHistory] when a request is sent, and the dialog
    and the application afterwards.  [response] is what [fetch] gives to the
    request. *)
Definition analyzeWithAI (aiImage : option file_read) (response : fetch_result)
    (m : AddFoodModal) (st : App) : option (list part) * (AddFoodModal * App) :=
  let busy := {| mode := mode m; aiText := aiText m; aiResult := VNull; isLoading := true |} in
  let idle := {| mode := mode m; aiText := aiText m; aiResult := VNull; isLoading := false |} in
  if String.eqb (mode m) "ai-text"
     || (String.eqb (mode m) "ai-image-confirm" && negb (not_string (aiText m)))
  then
    let parts := [TextPart (prompt +:+ aiText m)] in
    (Some parts, sendAIRequest JSON_parse gt_zero_coerced response busy st)
  else
    match String.eqb (mode m) "ai-image-confirm", aiImage with
    | true, Some (ReadResult result) =>
        let base64ImageData := split_comma_1 result in
        let parts := [TextPart prompt; InlineData "image/jpeg" base64ImageData] in
        (Some parts, sendAIRequest JSON_parse gt_zero_coerced response busy st)
    | true, Some ReadError => (None, (idle, alert image_unreadable st))
    | _, _ => (None, (idle, st))
    end.

End Analysis.

(** The text has no comma: so it is with the header [data:<type>;base64] of
    a data URL and with base64 data. *)
Fixpoint no_comma (s : string) : bool :=
  match s with
  | EmptyString => true
  | String c s' => negb (Ascii.eqb c ",") && no_comma s'
  end.

(** * Properties *)

Example literal_88_362 : (88.362)%js = S754_finite false 6217922973026746 (-46).
Proof. reflexivity. Qed.
Example literal_0 : (0)%js = Num.zero.
Proof. reflexivity. Qed.
Example literal_1_2 : (1.2)%js = (12 / 10)%js.
Proof. reflexivity. Qed.

(** ** Numbers: rounding never yields [NaN] *)

Lemma iter_pos_invariant {A : Type} (P : A -> Prop) (f : A -> A) :
  (forall x, P x -> P (f x)) -> forall n x, P x -> P (iter_pos f n x).
Proof. intros Hf. induction n as [n IH|n IH|]; simpl; auto. Qed.

Lemma shr_1_nonneg (mrs : shr_record) : 0 <= shr_m mrs -> 0 <= shr_m (shr_1 mrs).
Proof. destruct mrs as [[|[p|p|]|p] r s]; simpl; lia. Qed.

Lemma shr_nonneg (mrs : shr_record) (e n : Z) :
  0 <= shr_m mrs -> 0 <= shr_m (shr mrs e n).1.
Proof.
  intros H. destruct n as [|p|p]; simpl; try done.
  by apply (iter_pos_invariant (fun mrs => 0 <= shr_m mrs)), H; apply shr_1_nonneg.
Qed.

Lemma shr_fexp_nonneg (m e : Z) (l : location) :
  0 <= m -> 0 <= shr_m (shr_fexp prec emax m e l).1.
Proof.
  intros H. unfold shr_fexp. apply shr_nonneg. by destruct l as [|[]].
Qed.

Lemma round_nearest_even_nonneg (m : Z) (l : location) :
  0 <= m -> 0 <= round_nearest_even m l.
Proof. intros H. destruct l as [|[]]; simpl; try done; [case Z.even|]; lia. Qed.

Lemma binary_round_aux_not_NaN (s : bool) (m e : Z) (l : location) :
  0 <= m -> binary_round_aux prec emax s m e l <> NaN.
Proof.
  intros H. unfold binary_round_aux.
  pose proof (shr_fexp_nonneg m e l H) as H1.
  destruct (shr_fexp prec emax m e l) as [mrs1 e1]. simpl in H1.
  pose proof (shr_fexp_nonneg _ e1 loc_Exact
                (round_nearest_even_nonneg _ (loc_of_shr_record mrs1) H1)) as H2.
  destruct (shr_fexp prec emax _ e1 loc_Exact) as [mrs2 e2]. simpl in H2.
  destruct (shr_m mrs2) as [|p|p]; [done| |lia].
  by destruct (e2 <=? emax - prec).
Qed.

Lemma binary_normalize_not_NaN (m e : Z) (szero : bool) :
  binary_normalize prec emax m e szero <> NaN.
Proof.
  destruct m as [|p|p]; simpl; [done| |];
    unfold binary_round; destruct (shl_align _ _ _) as [mz ez];
    by apply binary_round_aux_not_NaN.
Qed.

(** ** Numbers: whole numbers below [2^53] add exactly *)

Lemma digits2_pos_bounds (p : positive) :
  2 ^ (Zpos (digits2_pos p) - 1) <= Zpos p < 2 ^ Zpos (digits2_pos p).
Proof.
  induction p as [p IH|p IH|]; simpl digits2_pos; [| |by vm_compute].
  all: rewrite Pos2Z.inj_succ;
       replace (Z.succ (Zpos (digits2_pos p)) - 1) with (Z.succ (Zpos (digits2_pos p) - 1)) by lia;
       rewrite !Z.pow_succ_r by lia; lia.
Qed.

Lemma digits2_pos_unique (p : positive) (d : Z) :
  2 ^ (d - 1) <= Zpos p < 2 ^ d -> Zpos (digits2_pos p) = d.
Proof.
  intros [Hlo Hhi]. pose proof (digits2_pos_bounds p) as [Hlo' Hhi'].
  assert (0 < d).
  { destruct (Z.lt_ge_cases 0 d) as [|Hd]; [done|].
    destruct (Z.eq_dec d 0) as [->|]; [simpl in Hhi; lia|].
    rewrite Z.pow_neg_r in Hhi by lia. lia. }
  destruct (Z.lt_trichotomy (Zpos (digits2_pos p)) d) as [Hlt|[Heq|Hgt]]; [|done|].
  - assert (2 ^ Zpos (digits2_pos p) <= 2 ^ (d - 1)) by (apply Z.pow_le_mono_r; lia). lia.
  - assert (2 ^ d <= 2 ^ (Zpos (digits2_pos p) - 1)) by (apply Z.pow_le_mono_r; lia). lia.
Qed.

Lemma iter_pos_nat {A : Type} (f : A -> A) (p : positive) (x : A) :
  iter_pos f p x = Nat.iter (Pos.to_nat p) f x.
Proof.
  revert x. induction p as [p IH|p IH|]; intros x; simpl iter_pos; [| |done].
  - rewrite !IH, Pos2Nat.inj_xI, Nat.iter_succ_r.
    replace (2 * Pos.to_nat p)%nat with (Pos.to_nat p + Pos.to_nat p)%nat by lia.
    by rewrite Nat.iter_add.
  - rewrite !IH, Pos2Nat.inj_xO.
    replace (2 * Pos.to_nat p)%nat with (Pos.to_nat p + Pos.to_nat p)%nat by lia.
    by rewrite Nat.iter_add.
Qed.

Lemma shr_1_double (p : positive) :
  shr_1 {| shr_m := Zpos p~0; shr_r := false; shr_s := false |}
  = {| shr_m := Zpos p; shr_r := false; shr_s := false |}.
Proof. done. Qed.

Lemma iter_shr_1_exact (k : nat) (n : positive) :
  Nat.iter k shr_1 {| shr_m := Zpos n * 2 ^ Z.of_nat k; shr_r := false; shr_s := false |}
  = {| shr_m := Zpos n; shr_r := false; shr_s := false |}.
Proof.
  revert n. induction k as [|k IH]; intros n.
  - change (Z.of_nat 0) with 0. by rewrite Z.pow_0_r, Z.mul_1_r.
  - rewrite Nat.iter_succ_r.
    replace (Zpos n * 2 ^ Z.of_nat (S k)) with (Zpos (n * 2 ^ Pos.of_succ_nat k)).
    2:{ by rewrite Pos2Z.inj_mul, Pos2Z.inj_pow. }
    assert (exists q, (n * 2 ^ Pos.of_succ_nat k)%positive = (q~0)%positive /\ Zpos q = Zpos n * 2 ^ Z.of_nat k) as (q & -> & Hq).
    { exists (Z.to_pos (Zpos n * 2 ^ Z.of_nat k)).
      assert (0 < Zpos n * 2 ^ Z.of_nat k) by (apply Z.mul_pos_pos; [lia|apply Z.pow_pos_nonneg; lia]).
      split; [|lia]. apply Pos2Z.inj. rewrite Pos2Z.inj_mul, Pos2Z.inj_pow, (Pos2Z.inj_xO (Z.to_pos _)), Z2Pos.id by done.
      replace (Zpos (Pos.of_succ_nat k)) with (Z.succ (Z.of_nat k)) by lia.
      rewrite Z.pow_succ_r by lia. lia. }
    rewrite shr_1_double, Hq. apply IH.
Qed.

Lemma shr_exact (N : positive) (e k : Z) :
  0 <= k ->
  shr {| shr_m := Zpos N * 2 ^ k; shr_r := false; shr_s := false |} e k
  = ({| shr_m := Zpos N; shr_r := false; shr_s := false |}, e + k).
Proof.
  intros Hk. destruct k as [|p|p]; [| |lia].
  - unfold shr. by rewrite Z.pow_0_r, Z.mul_1_r, Z.add_0_r.
  - unfold shr. rewrite iter_pos_nat. f_equal.
    rewrite <- (positive_nat_Z p). apply iter_shr_1_exact.
Qed.

Lemma iter_xO_spec (m d : positive) :
  Zpos (Pos.iter xO m d) = Zpos m * 2 ^ Zpos d.
Proof.
  induction d as [|d IH] using Pos.peano_ind.
  - simpl. lia.
  - rewrite Pos.iter_succ, Pos2Z.inj_xO, IH, Pos2Z.inj_succ, Z.pow_succ_r; lia.
Qed.

Lemma shl_align_spec (m : positive) (e e' : Z) :
  e' <= e ->
  exists m', shl_align m e e' = (m', e') /\ Zpos m' = Zpos m * 2 ^ (e - e').
Proof.
  intros He. unfold shl_align. destruct (e' - e) as [|d|d] eqn:Hd; [|lia|].
  - exists m. assert (e' = e) as -> by lia. by rewrite Z.sub_diag, Z.pow_0_r, Z.mul_1_r.
  - exists (Pos.iter xO m d). split; [done|]. rewrite iter_xO_spec. f_equal. f_equal. lia.
Qed.

Lemma shl_align_ge (m : positive) (e e' : Z) :
  e <= e' -> shl_align m e e' = (m, e).
Proof. intros He. unfold shl_align. destruct (e' - e) eqn:Hd; try done. lia. Qed.

(** A 53-bit mantissa followed by [k] zero bits rounds to itself. *)
Lemma binary_round_aux_exact (s : bool) (m N : positive) (E k : Z) :
  2 ^ 52 <= Zpos N < 2 ^ 53 ->
  0 <= k ->
  Zpos m = Zpos N * 2 ^ k ->
  -1074 <= E + k <= 971 ->
  binary_round_aux prec emax s (Zpos m) E loc_Exact = S754_finite s N (E + k).
Proof.
  intros HN Hk Hm HE.
  assert (Zpos (digits2_pos N) = 53) as HdN by (by apply digits2_pos_unique).
  assert (Zpos (digits2_pos m) = 53 + k) as Hdm.
  { apply digits2_pos_unique. rewrite Hm.
    replace (53 + k - 1) with (52 + k) by lia. rewrite !Z.pow_add_r by lia.
    assert (0 < 2 ^ k) by (apply Z.pow_pos_nonneg; lia). nia. }
  unfold binary_round_aux, shr_fexp, Zdigits2. rewrite Hdm.
  unfold fexp, emin, prec, emax.
  replace (Z.max (53 + k + E - 53) (3 - 1024 - 53) - E) with k by lia.
  unfold shr_record_of_loc. rewrite Hm, shr_exact by done.
  cbn [shr_m loc_of_shr_record round_nearest_even]. rewrite HdN.
  replace (Z.max (53 + (E + k) - 53) (3 - 1024 - 53) - (E + k)) with 0 by lia.
  cbn [shr shr_m].
  replace (E + k <=? 1024 - 53) with true by (symmetry; apply Z.leb_le; lia).
  done.
Qed.

(** Whatever power of two an integer below [2^53] is scaled by, rounding
    gives its canonical form. *)
Lemma binary_round_integer (s : bool) (m n : positive) (e : Z) :
  e <= 0 ->
  Zpos m = Zpos n * 2 ^ (- e) ->
  Zpos n < 2 ^ 53 ->
  binary_round prec emax s m e = canonical s n.
Proof.
  intros He Hm Hn. unfold canonical. set (dn := Zpos (digits2_pos n)).
  pose proof (digits2_pos_bounds n) as [Hlo Hhi]. fold dn in Hlo, Hhi.
  assert (1 <= dn <= 53) as Hdn.
  { split; [unfold dn; lia|].
    destruct (Z.le_gt_cases dn 53) as [|Hgt]; [done|].
    assert (2 ^ 53 <= 2 ^ (dn - 1)) by (apply Z.pow_le_mono_r; lia). lia. }
  assert (0 < 2 ^ (- e)) as Hpe by (apply Z.pow_pos_nonneg; lia).
  assert (0 < 2 ^ (53 - dn)) as Hpd by (apply Z.pow_pos_nonneg; lia).
  set (N := Z.to_pos (Zpos n * 2 ^ (53 - dn))).
  assert (Zpos N = Zpos n * 2 ^ (53 - dn)) as HN by (unfold N; rewrite Z2Pos.id; nia).
  assert (2 ^ 52 <= Zpos N < 2 ^ 53) as HNb.
  { rewrite HN. split.
    - replace 52 with ((dn - 1) + (53 - dn)) by lia. rewrite Z.pow_add_r by lia. nia.
    - replace 53 with (dn + (53 - dn)) at 2 by lia. rewrite Z.pow_add_r by lia. nia. }
  assert (Zpos (digits2_pos m) = dn - e) as Hdm.
  { apply digits2_pos_unique. rewrite Hm.
    replace (dn - e - 1) with ((dn - 1) + - e) by lia.
    replace (dn - e) with (dn + - e) by lia.
    rewrite !Z.pow_add_r by lia. nia. }
  unfold binary_round. rewrite Hdm. unfold fexp at 1, emin, prec, emax.
  replace (Z.max (dn - e + e - 53) (3 - 1024 - 53)) with (dn - 53) by lia.
  change (binary_round_aux 53 1024) with (binary_round_aux prec emax).
  destruct (Z.lt_ge_cases (dn - 53) e) as [Hlt|Hge].
  - destruct (shl_align_spec m e (dn - 53) ltac:(lia)) as (m' & -> & Hm').
    rewrite (binary_round_aux_exact s m' N (dn - 53) 0); try done; try lia.
    + by rewrite Z.add_0_r.
    + rewrite Hm', Hm, HN, Z.pow_0_r, Z.mul_1_r, <- Z.mul_assoc, <- Z.pow_add_r by lia.
      f_equal. f_equal. lia.
  - rewrite shl_align_ge by lia.
    rewrite (binary_round_aux_exact s m N e (dn - 53 - e)); try done; try lia.
    + f_equal. lia.
    + rewrite Hm, HN, <- Z.mul_assoc, <- Z.pow_add_r by lia. f_equal. f_equal. lia.
Qed.

Lemma of_Z_pos (n : positive) : Zpos n < 2 ^ 53 -> of_Z (Zpos n) = canonical false n.
Proof.
  intros Hn. unfold of_Z, binary_normalize. apply binary_round_integer; [lia| |done].
  simpl. lia.
Qed.

Lemma digits2_pos_le_53 (n : positive) : Zpos n < 2 ^ 53 -> 1 <= Zpos (digits2_pos n) <= 53.
Proof.
  intros Hn. pose proof (digits2_pos_bounds n) as [Hlo Hhi]. split; [lia|].
  destruct (Z.le_gt_cases (Zpos (digits2_pos n)) 53) as [|Hgt]; [done|].
  assert (2 ^ 53 <= 2 ^ (Zpos (digits2_pos n) - 1)) by (apply Z.pow_le_mono_r; lia). lia.
Qed.

Lemma canonical_mantissa_spec (n : positive) :
  Zpos n < 2 ^ 53 ->
  Zpos (Z.to_pos (Zpos n * 2 ^ (53 - Zpos (digits2_pos n))))
  = Zpos n * 2 ^ (53 - Zpos (digits2_pos n)).
Proof.
  intros Hn. pose proof (digits2_pos_le_53 n Hn).
  assert (0 < 2 ^ (53 - Zpos (digits2_pos n))) by (apply Z.pow_pos_nonneg; lia).
  rewrite Z2Pos.id; nia.
Qed.

(** Adding two integers whose sum is below [2^53] is exact. *)
Lemma add_of_Z (a b : Z) :
  0 <= a -> 0 <= b -> a + b < 2 ^ 53 ->
  (of_Z a + of_Z b)%js = of_Z (a + b).
Proof.
  intros Ha Hb Hab.
  destruct a as [|a|a]; [|clear Ha|lia].
  { destruct b as [|b|b]; [done| |lia]. rewrite Z.add_0_l, of_Z_pos by lia. done. }
  destruct b as [|b|b]; [|clear Hb|lia].
  { rewrite Z.add_0_r, of_Z_pos by lia. done. }
  rewrite !of_Z_pos by lia. change (Zpos a + Zpos b) with (Zpos (a + b)).
  rewrite of_Z_pos by lia.
  unfold canonical at 1 2. cbv zeta.
  set (da := Zpos (digits2_pos a)). set (db := Zpos (digits2_pos b)).
  pose proof (digits2_pos_le_53 a ltac:(lia)) as Hda. fold da in Hda.
  pose proof (digits2_pos_le_53 b ltac:(lia)) as Hdb. fold db in Hdb.
  pose proof (canonical_mantissa_spec a ltac:(lia)) as HMa. fold da in HMa.
  pose proof (canonical_mantissa_spec b ltac:(lia)) as HMb. fold db in HMb.
  set (Ma := Z.to_pos (Zpos a * 2 ^ (53 - da))) in *.
  set (Mb := Z.to_pos (Zpos b * 2 ^ (53 - db))) in *.
  unfold Num.add, SFadd. set (ez := Z.min (da - 53) (db - 53)).
  destruct (shl_align_spec Ma (da - 53) ez ltac:(lia)) as (ma' & -> & Hma).
  destruct (shl_align_spec Mb (db - 53) ez ltac:(lia)) as (mb' & -> & Hmb).
  cbn [fst cond_Zopp]. change (Zpos ma' + Zpos mb') with (Zpos (ma' + mb')).
  unfold binary_normalize. apply binary_round_integer; [lia| |lia].
  rewrite Pos2Z.inj_add, Hma, Hmb, HMa, HMb, !Pos2Z.inj_add.
  rewrite <- !Z.mul_assoc, <- !Z.pow_add_r by lia.
  replace (53 - da + (da - 53 - ez)) with (- ez) by lia.
  replace (53 - db + (db - 53 - ez)) with (- ez) by lia. lia.
Qed.

Lemma of_Z_pos_finite (n : positive) :
  Zpos n < 2 ^ 53 -> exists m e, of_Z (Zpos n) = S754_finite false m e.
Proof. intros Hn. rewrite of_Z_pos by done. unfold canonical. eauto. Qed.

(** ** Numbers: a sum is [-0] only when both terms are *)

Lemma shr_1_div2 (mrs : shr_record) :
  0 <= shr_m mrs -> shr_m (shr_1 mrs) = shr_m mrs / 2.
Proof.
  destruct mrs as [[|[p|p|]|p] r s]; simpl; try done; intros _.
  - rewrite Pos2Z.inj_xI. apply Z.div_unique with 1; lia.
  - rewrite Pos2Z.inj_xO. apply Z.div_unique with 0; lia.
Qed.

Lemma iter_shr_1_div (k : nat) (mrs : shr_record) :
  0 <= shr_m mrs ->
  shr_m (Nat.iter k shr_1 mrs) = shr_m mrs / 2 ^ Z.of_nat k.
Proof.
  intros Hm. induction k as [|k IH].
  - simpl. by rewrite Z.div_1_r.
  - rewrite Nat2Z.inj_succ, Z.pow_succ_r by lia. simpl Nat.iter.
    rewrite shr_1_div2, IH.
    + rewrite Z.div_div by (try apply Z.pow_pos_nonneg; lia). f_equal. lia.
    + rewrite IH. apply Z.div_pos; [done|apply Z.pow_pos_nonneg; lia].
Qed.

Lemma shr_fexp_pos (m e : Z) (l : location) :
  0 < m -> -1074 <= e ->
  0 < shr_m (shr_fexp prec emax m e l).1 /\ -1074 <= (shr_fexp prec emax m e l).2.
Proof.
  intros Hm He. unfold shr_fexp.
  assert (shr_m (shr_record_of_loc m l) = m) as Hrec by (by destruct l as [|[]]).
  destruct m as [|p|p]; [lia| |lia]. unfold Zdigits2.
  pose proof (digits2_pos_bounds p) as [Hlo Hhi].
  set (d := Zpos (digits2_pos p)) in *.
  unfold fexp, emin, prec, emax.
  destruct (Z.max (d + e - 53) (3 - 1024 - 53) - e) as [|k|k] eqn:Hk; simpl;
    rewrite ?Hrec; try lia.
  split; [|lia]. rewrite iter_pos_nat, iter_shr_1_div, Hrec, positive_nat_Z by (rewrite Hrec; lia).
  apply Z.div_str_pos. split; [apply Z.pow_pos_nonneg; lia|].
  assert (Zpos k <= d - 1) by lia.
  assert (2 ^ Zpos k <= 2 ^ (d - 1)) by (apply Z.pow_le_mono_r; lia). lia.
Qed.

Lemma round_nearest_even_pos (m : Z) (l : location) :
  0 < m -> 0 < round_nearest_even m l.
Proof. intros H. destruct l as [|[]]; simpl; try done; [case Z.even|]; lia. Qed.

(** Rounding a positive mantissa at an exponent of [emin] or more gives a
    finite number of that sign, or the infinity of that sign. *)
Lemma binary_round_aux_pos (s : bool) (m e : Z) (l : location) :
  0 < m -> -1074 <= e ->
  (exists m' e', binary_round_aux prec emax s m e l = S754_finite s m' e' /\ -1074 <= e')
  \/ binary_round_aux prec emax s m e l = S754_infinity s.
Proof.
  intros Hm He. unfold binary_round_aux.
  pose proof (shr_fexp_pos m e l Hm He) as [H1 He1].
  destruct (shr_fexp prec emax m e l) as [mrs1 e1]. simpl in H1, He1.
  pose proof (shr_fexp_pos _ e1 loc_Exact
                (round_nearest_even_pos _ (loc_of_shr_record mrs1) H1) He1) as [H2 He2].
  destruct (shr_fexp prec emax _ e1 loc_Exact) as [mrs2 e2]. simpl in H2, He2.
  destruct (shr_m mrs2) as [|p|p]; [lia| |lia].
  destruct (e2 <=? emax - prec); [left; eauto | by right].
Qed.

Lemma shl_align_exponent (m : positive) (e e' : Z) :
  -1074 <= e -> -1074 <= e' -> -1074 <= (shl_align m e e').2.
Proof. intros He He'. unfold shl_align. by destruct (e' - e). Qed.

Lemma binary_round_pos (s : bool) (m : positive) (e : Z) :
  -1074 <= e ->
  (exists m' e', binary_round prec emax s m e = S754_finite s m' e' /\ -1074 <= e')
  \/ binary_round prec emax s m e = S754_infinity s.
Proof.
  intros He. unfold binary_round.
  pose proof (shl_align_exponent m e (fexp prec emax (Zpos (digits2_pos m) + e)) He) as Hz.
  destruct (shl_align _ _ _) as [mz ez]. simpl in Hz.
  apply binary_round_aux_pos; [lia|]. apply Hz. unfold fexp, emin, prec, emax. lia.
Qed.

Lemma binary_normalize_scaled (m e : Z) :
  -1074 <= e ->
  well_scaled (binary_normalize prec emax m e false) /\
  binary_normalize prec emax m e false <> S754_zero true.
Proof.
  intros He. destruct m as [|p|p]; simpl; [done| |].
  - destruct (binary_round_pos false p e He) as [(m' & e' & -> & He')| ->]; done.
  - destruct (binary_round_pos true p e He) as [(m' & e' & -> & He')| ->]; done.
Qed.

(** A sum is [-0] only when both terms are, and the sum of well-scaled
    numbers is well-scaled. *)
Lemma add_scaled (x y : number) :
  well_scaled x -> well_scaled y ->
  well_scaled (x + y)%js /\
  ((x + y)%js = S754_zero true -> x = S754_zero true /\ y = S754_zero true).
Proof.
  intros Hx Hy.
  destruct x as [[]|[]| |sx mx ex], y as [[]|[]| |sy my ey]; try done.
  simpl in Hx, Hy. unfold Num.add, SFadd.
  destruct (binary_normalize_scaled
              (cond_Zopp sx (Zpos (shl_align mx ex (Z.min ex ey)).1)
               + cond_Zopp sy (Zpos (shl_align my ey (Z.min ex ey)).1))
              (Z.min ex ey) ltac:(lia)) as [Hs Hz].
  split; [done|]. intros H. by rewrite H in Hz.
Qed.

(** ** The target calculator *)

(** C3. [calculateBMR] never fails; it returns the male formula when [gender]
    is exactly ["male"] and the female formula for every other value of
    [gender]. *)
Theorem calculateBMR_spec (weight height age : number) (gender : string) :
  calculateBMR weight height age gender =
    if decide (gender = "male") then spec_BMR_male weight height age
    else spec_BMR_female weight height age.
Proof.
  unfold calculateBMR.
  destruct (String.eqb_spec gender "male"); by case_decide.
Qed.

Lemma mul_NaN_r (x : number) : (x * NaN)%js = NaN.
Proof. by destruct x. Qed.

(** The five levels of the table get their multiplier. *)
Lemma calculateTDEE_table (bmr : number) :
  calculateTDEE bmr "sedentary" = (bmr * 1.2)%js /\
  calculateTDEE bmr "light" = (bmr * 1.375)%js /\
  calculateTDEE bmr "moderate" = (bmr * 1.55)%js /\
  calculateTDEE bmr "active" = (bmr * 1.725)%js /\
  calculateTDEE bmr "veryActive" = (bmr * 1.9)%js.
Proof. repeat split; reflexivity. Qed.

(** A level that is neither in the table nor a name that object literals
    inherit gets 1.2. *)
Lemma calculateTDEE_default (bmr : number) (activityLevel : string) :
  own_property activityMultipliers activityLevel = None ->
  existsb (String.eqb activityLevel) Object_prototype_keys = false ->
  calculateTDEE bmr activityLevel = (bmr * 1.2)%js.
Proof.
  intros Hown Hproto. unfold calculateTDEE, get_property.
  by rewrite Hown, Hproto.
Qed.

Lemma inherited_not_own (key : string) :
  existsb (String.eqb key) Object_prototype_keys = true ->
  own_property activityMultipliers key = None.
Proof.
  intros H. apply existsb_exists in H as (k & Hin & Heq).
  apply String.eqb_eq in Heq. subst k.
  unfold Object_prototype_keys in Hin. simpl in Hin.
  repeat (destruct Hin as [<-|Hin]; [reflexivity|]). destruct Hin.
Qed.

(** A level that names an inherited property is not in the table, and yet
    does not get 1.2: the product is [NaN]. *)
Lemma calculateTDEE_inherited (bmr : number) (activityLevel : string) :
  existsb (String.eqb activityLevel) Object_prototype_keys = true ->
  calculateTDEE bmr activityLevel = NaN.
Proof.
  intros Hproto. unfold calculateTDEE, get_property.
  rewrite (inherited_not_own _ Hproto), Hproto. simpl. apply mul_NaN_r.
Qed.

(** C4. At the level ["constructor"], which is not in the table,
    [calculateTDEE] does not multiply by 1.2: the lookup finds the function
    every object literal inherits, and the result is [NaN] whatever [bmr]
    is, where the table of the specification gives [bmr * 1.2]. *)
Theorem calculateTDEE_constructor :
  (forall bmr, calculateTDEE bmr "constructor" = NaN) /\
  spec_TDEE 1500 "constructor" = (1500 * 1.2)%js /\
  calculateTDEE 1500 "constructor" <> spec_TDEE 1500 "constructor".
Proof.
  split; [|split].
  - intros bmr. by apply calculateTDEE_inherited.
  - reflexivity.
  - by vm_compute.
Qed.

(** ** Profile submission *)

Lemma not_string_true (s : string) : not_string s = true <-> s = "".
Proof. destruct s; simpl; split; congruence. Qed.

Lemma fields_check (formData : FormData) :
  not_string (fd_height formData) || not_string (fd_weight formData)
    || not_string (fd_age formData) = bool_decide (some_field_empty formData).
Proof.
  destruct (decide (some_field_empty formData)) as [He|He].
  - rewrite bool_decide_eq_true_2 by done.
    destruct He as [-> | [-> | ->] ]; simpl; by rewrite ?orb_true_r.
  - rewrite bool_decide_eq_false_2 by done. unfold some_field_empty in He.
    destruct (fd_height formData), (fd_weight formData), (fd_age formData);
      simpl; try done; exfalso; apply He; auto.
Qed.

Lemma ProfileSetup_handleSubmit_rejected appId now ok formData st :
  some_field_empty formData ->
  ProfileSetup_handleSubmit appId now ok formData st = (Rejected, alert fill_all_fields st).
Proof.
  intros He. unfold ProfileSetup_handleSubmit.
  by rewrite fields_check, bool_decide_eq_true_2.
Qed.

Lemma ProfileSetup_handleSubmit_submitted appId now ok formData st :
  ~ some_field_empty formData ->
  (ProfileSetup_handleSubmit appId now ok formData st).1
    = Submitted (computed_profile formData (Some now)).
Proof.
  intros He. unfold ProfileSetup_handleSubmit.
  rewrite fields_check, bool_decide_eq_false_2 by done.
  by destruct (currentUser st), ok.
Qed.

Lemma ProfileSetup_handleSubmit_written appId now formData st uid :
  currentUser st = Some uid ->
  ~ some_field_empty formData ->
  ProfileSetup_handleSubmit appId now true formData st =
    (Submitted (computed_profile formData (Some now)),
     setUserProfile (Some (computed_profile formData (Some now)))
       (set_db (<[profileRef appId uid := DProfile (computed_profile formData (Some now))]> (db st)) st)).
Proof.
  intros Hu He. unfold ProfileSetup_handleSubmit.
  rewrite fields_check, bool_decide_eq_false_2 by done.
  by rewrite Hu.
Qed.

Lemma SettingsPage_handleSubmit_rejected appId ok formData st :
  some_field_empty formData ->
  SettingsPage_handleSubmit appId ok formData st = (Rejected, alert fill_all_fields st).
Proof.
  intros He. unfold SettingsPage_handleSubmit.
  by rewrite fields_check, bool_decide_eq_true_2.
Qed.

Lemma SettingsPage_handleSubmit_submitted appId ok formData st :
  ~ some_field_empty formData ->
  (SettingsPage_handleSubmit appId ok formData st).1
    = Submitted (computed_profile formData (fd_createdAt formData)).
Proof.
  intros He. unfold SettingsPage_handleSubmit.
  rewrite fields_check, bool_decide_eq_false_2 by done.
  unfold handleProfileUpdate. by destruct (userId st), ok.
Qed.

(** C10. Both submissions are rejected exactly when the height, the weight
    or the age field is the empty string; a rejection only shows the message
    and leaves the database and the profile as they were; with the three
    fields non-empty nothing else is checked: whatever the gender, the
    activity level, the goal and the text of the fields, the targets are
    computed from them and handed to the write. *)
Theorem submission_rejected_iff_field_empty
    (appId : string) (now : Z) (ok : bool) (formData : FormData) (st : App) :
  ((ProfileSetup_handleSubmit appId now ok formData st).1 = Rejected
     <-> some_field_empty formData) /\
  ((SettingsPage_handleSubmit appId ok formData st).1 = Rejected
     <-> some_field_empty formData) /\
  (if decide (some_field_empty formData) then
     ProfileSetup_handleSubmit appId now ok formData st
       = (Rejected, alert fill_all_fields st) /\
     SettingsPage_handleSubmit appId ok formData st
       = (Rejected, alert fill_all_fields st) /\
     db (alert fill_all_fields st) = db st /\
     userProfile (alert fill_all_fields st) = userProfile st
   else
     (ProfileSetup_handleSubmit appId now ok formData st).1
       = Submitted (computed_profile formData (Some now)) /\
     (SettingsPage_handleSubmit appId ok formData st).1
       = Submitted (computed_profile formData (fd_createdAt formData))).
Proof.
  destruct (decide (some_field_empty formData)) as [He|He].
  - rewrite ProfileSetup_handleSubmit_rejected, SettingsPage_handleSubmit_rejected by done.
    simpl. tauto.
  - rewrite ProfileSetup_handleSubmit_submitted, SettingsPage_handleSubmit_submitted by done.
    repeat split; try done; intros; by exfalso.
Qed.

Lemma submission_rejected_iff_field_empty_witness :
  (ProfileSetup_handleSubmit "default-app-id" 0 true empty_height_form
     (fresh_session "u1")).1 = Rejected /\
  (SettingsPage_handleSubmit "default-app-id" true (scenario_form "maintain")
     (fresh_session "u1")).1 <> Rejected.
Proof.
  split.
  - apply (submission_rejected_iff_field_empty "default-app-id" 0 true
             empty_height_form (fresh_session "u1")).
    by left.
  - intros H.
    apply (submission_rejected_iff_field_empty "default-app-id" 0 true
             (scenario_form "maintain") (fresh_session "u1")) in H.
    destruct H as [H|[H|H]]; discriminate H.
Defined.

(** ** Whole-number ages *)

Lemma is_digit_cases (c : ascii) :
  is_digit c = true ->
  In c ["0"; "1"; "2"; "3"; "4"; "5"; "6"; "7"; "8"; "9"]%char.
Proof.
  destruct c as [[] [] [] [] [] [] [] []]; intros H; vm_compute in H;
    try discriminate H; simpl; auto 11.
Qed.

Ltac digit_cases H :=
  apply is_digit_cases in H; simpl in H;
  repeat (destruct H as [<-|H]); [..|destruct H].

Lemma digit_in_digit (c : ascii) :
  is_digit c = true -> digit_in 10 c = Some (code c - 48) /\ 0 <= code c - 48.
Proof. intros H. digit_cases H; by vm_compute. Qed.

Lemma trim_start_digit (c : ascii) (s : string) :
  is_digit c = true -> trim_start (String c s) = String c s.
Proof. intros H. digit_cases H; reflexivity. Qed.

Lemma scan_sign_digit (c : ascii) (s : string) :
  is_digit c = true -> scan_sign (String c s) = (false, String c s).
Proof. intros H. digit_cases H; reflexivity. Qed.

Lemma prefix_Infinity_digit (c : ascii) (s : string) :
  is_digit c = true -> String.prefix "Infinity" (String c s) = false.
Proof. intros H. digit_cases H; reflexivity. Qed.

Lemma scan_radix_digits (s : string) :
  all_digits s = true -> scan_radix s = (10, s).
Proof.
  intros Hd. destruct s as [|c s]; [reflexivity|].
  simpl in Hd. apply andb_prop in Hd as [H Hs].
  digit_cases H; try reflexivity.
  destruct s as [|c' s]; [reflexivity|].
  simpl in Hs. apply andb_prop in Hs as [H' _].
  digit_cases H'; reflexivity.
Qed.

Lemma scan_digits_all (s : string) (acc n : Z) :
  all_digits s = true -> 0 <= acc ->
  scan_digits 10 s acc n
    = (digits_value_from acc s, n + Z.of_nat (String.length s), EmptyString)
  /\ 0 <= digits_value_from acc s.
Proof.
  revert acc n. induction s as [|c s IH]; intros acc n Hd Hacc.
  - simpl. split; [f_equal; f_equal; lia | done].
  - simpl in Hd. apply andb_prop in Hd as [Hc Hs].
    destruct (digit_in_digit c Hc) as [Hdig Hpos].
    simpl scan_digits. simpl digits_value_from. rewrite Hdig.
    destruct (IH (acc * 10 + (code c - 48)) (n + 1) Hs ltac:(lia)) as (Hv & Hv0).
    split; [|done]. rewrite Hv. f_equal. f_equal.
    change (String.length (String c s)) with (S (String.length s)). lia.
Qed.

(** On a whole number written in digits, the two parsers give the number
    the digits denote. *)
Lemma parse_whole_number (s : string) :
  whole_number s = true ->
  parseInt s = of_Z (digits_value s) /\ parseFloat s = of_Z (digits_value s).
Proof.
  unfold whole_number. destruct s as [|c s]; [done|]. simpl negb. rewrite andb_true_l.
  intros Hd. pose proof Hd as Hall. simpl in Hd. apply andb_prop in Hd as [Hc Hs].
  unfold parseInt, parseFloat, digits_value.
  rewrite trim_start_digit, scan_sign_digit by done.
  rewrite scan_radix_digits, prefix_Infinity_digit by done.
  destruct (scan_digits_all (String c s) 0 0 Hall ltac:(lia)) as (-> & Hv).
  change (String.length (String c s)) with (S (String.length s)).
  replace (0 + Z.of_nat (S (String.length s)) =? 0) with false
    by (symmetry; apply Z.eqb_neq; lia).
  destruct (digits_value_from 0 (String c s)) as [|p|p]; [done| |lia].
  split; [done|].
  cbn [scan_exponent]. unfold decimal, of_Z. rewrite Z.leb_refl, Z.pow_0_r.
  by rewrite Z.mul_1_r.
Qed.

Lemma parseInt_whole_number (age : string) :
  whole_number age = true -> parseInt age = parseFloat age.
Proof. intros H. destruct (parse_whole_number age H) as [-> ->]. done. Qed.

(** ** The two profile scenarios *)

Lemma scenario_maintain_targets (createdAt : option Z) :
  let p := computed_profile (scenario_form "maintain") createdAt in
  pd_calorieTarget p = 2035%js /\ pd_carbs p = 204%js /\
  pd_protein p = 153%js /\ pd_fat p = 68%js.
Proof. by vm_compute. Qed.

Lemma scenario_lose_target (createdAt : option Z) :
  pd_calorieTarget (computed_profile (scenario_form "lose") createdAt) = 1730%js.
Proof. by vm_compute. Qed.

Lemma persistedProfile_written appId now formData st uid :
  currentUser st = Some uid ->
  ~ some_field_empty formData ->
  persistedProfile appId uid (ProfileSetup_handleSubmit appId now true formData st).2
    = Some (computed_profile formData (Some now)).
Proof.
  intros Hu He. rewrite (ProfileSetup_handleSubmit_written _ _ _ _ uid) by done.
  unfold persistedProfile. simpl. by rewrite lookup_insert_eq.
Qed.

(** ** The formulas of the code and of the specification *)

Lemma calculateTDEE_spec (bmr : number) (activityLevel : string) :
  existsb (String.eqb activityLevel) Object_prototype_keys = false ->
  calculateTDEE bmr activityLevel = spec_TDEE bmr activityLevel.
Proof.
  intros Hproto. unfold spec_TDEE, spec_multiplier.
  repeat case_decide; subst; try by apply calculateTDEE_table.
  apply calculateTDEE_default; [|done].
  unfold activityMultipliers. cbn [own_property].
  by repeat (rewrite (proj2 (String.eqb_neq _ _)) by congruence).
Qed.

Lemma adjustCaloriesForGoal_spec (tdee : number) (goal : string) :
  adjustCaloriesForGoal tdee goal = spec_adjustForGoal tdee goal.
Proof.
  unfold adjustCaloriesForGoal, spec_adjustForGoal.
  destruct (String.eqb_spec goal "lose"), (String.eqb_spec goal "gain");
    repeat case_decide; congruence.
Qed.

Lemma computed_target_spec (weight height age : number)
    (gender activityLevel goal : string) :
  existsb (String.eqb activityLevel) Object_prototype_keys = false ->
  computed_target weight height age gender activityLevel goal
  = spec_target_formula weight height age gender activityLevel goal.
Proof.
  intros Hproto. unfold computed_target, spec_target_formula, spec_BMR.
  by rewrite calculateBMR_spec, calculateTDEE_spec, adjustCaloriesForGoal_spec.
Qed.

(** ** Numbers in decimal notation *)

Lemma digits_value_from_app (s t : string) (acc : Z) :
  digits_value_from acc (s +:+ t) = digits_value_from (digits_value_from acc s) t.
Proof. revert acc. induction s as [|c s IH]; intros acc; [done|]. apply IH. Qed.

Lemma scan_digits_point (s rest : string) (acc n : Z) :
  all_digits s = true -> 0 <= acc ->
  scan_digits 10 (s +:+ String "." rest) acc n
    = (digits_value_from acc s, n + Z.of_nat (String.length s), String "." rest)
  /\ 0 <= digits_value_from acc s.
Proof.
  revert acc n. induction s as [|c s IH]; intros acc n Hd Hacc.
  - split; [|done]. change ("" +:+ String "." rest) with (String "." rest).
    cbn [String.length digits_value_from].
    change (scan_digits 10 (String "." rest) acc n) with (acc, n, String "." rest).
    change (Z.of_nat 0) with 0. by rewrite Z.add_0_r.
  - simpl in Hd. apply andb_prop in Hd as [Hc Hs].
    destruct (digit_in_digit c Hc) as [Hdig Hpos].
    change (String c s +:+ String "." rest) with (String c (s +:+ String "." rest)).
    simpl scan_digits. simpl digits_value_from. rewrite Hdig.
    destruct (IH (acc * 10 + (code c - 48)) (n + 1) Hs ltac:(lia)) as (Hv & Hv0).
    split; [|done]. rewrite Hv. f_equal. f_equal.
    change (String.length (String c s)) with (S (String.length s)). lia.
Qed.

Lemma scan_radix_numeral (c : ascii) (s rest : string) :
  all_digits (String c s) = true ->
  scan_radix (String c s +:+ String "." rest) = (10, String c s +:+ String "." rest).
Proof.
  intros Hd. simpl in Hd. apply andb_prop in Hd as [H Hs].
  digit_cases H; try reflexivity.
  destruct s as [|c' s]; [reflexivity|].
  simpl in Hs. apply andb_prop in Hs as [H' _].
  digit_cases H'; reflexivity.
Qed.

Lemma append_empty_r (s : string) : s +:+ "" = s.
Proof.
  induction s as [|c s IH]; [done|].
  change (String c s +:+ "") with (String c (s +:+ "")). by rewrite IH.
Qed.

(** On a number in decimal notation [parseFloat] gives the number that the
    notation denotes, and [parseInt] the whole number before the point. *)
Lemma parse_numeral (whole fraction : string) :
  is_numeral whole fraction = true ->
  parseFloat (numeral whole fraction) = numeral_value whole fraction /\
  parseInt (numeral whole fraction) = of_Z (digits_value whole).
Proof.
  unfold is_numeral. intros [Hw Hf]%andb_prop. unfold numeral, numeral_value.
  destruct fraction as [|d fraction].
  - cbn [not_string String.length]. rewrite append_empty_r.
    destruct (parse_whole_number whole Hw) as [-> ->]. split; [|done].
    unfold decimal, of_Z, digits_value.
    unfold whole_number in Hw. apply andb_prop in Hw as [_ Hd].
    destruct (scan_digits_all whole 0 0 Hd ltac:(lia)) as [_ Hv].
    destruct (digits_value_from 0 whole) as [|p|p]; [done| |lia].
    change (- Z.of_nat 0) with 0. rewrite Z.leb_refl, Z.pow_0_r.
    by rewrite Z.mul_1_r.
  - cbn [not_string]. unfold whole_number in Hw.
    destruct whole as [|c s]; [done|]. cbn [not_string negb andb] in Hw.
    pose proof Hw as Hall. simpl in Hw. apply andb_prop in Hw as [Hc Hs].
    destruct (scan_digits_point (String c s) (String d fraction) 0 0 Hall ltac:(lia))
      as [Hscan Hv].
    destruct (scan_digits_all (String d fraction) (digits_value_from 0 (String c s)) 0
                Hf Hv) as [Hscan' Hv'].
    assert ((0 + Z.of_nat (String.length (String c s)) =? 0) = false) as Hn.
    { apply Z.eqb_neq. change (String.length (String c s)) with (S (String.length s)). lia. }
    split.
    + unfold parseFloat.
      change (String c s +:+ String "." (String d fraction))
        with (String c (s +:+ String "." (String d fraction))).
      rewrite trim_start_digit, scan_sign_digit, prefix_Infinity_digit by done.
      change (String c (s +:+ String "." (String d fraction)))
        with (String c s +:+ String "." (String d fraction)).
      rewrite Hscan, Hscan', Hn. cbn [andb scan_exponent].
      unfold digits_value. rewrite digits_value_from_app.
      f_equal; lia.
    + unfold parseInt.
      change (String c s +:+ String "." (String d fraction))
        with (String c (s +:+ String "." (String d fraction))).
      rewrite trim_start_digit, scan_sign_digit by done.
      change (String c (s +:+ String "." (String d fraction)))
        with (String c s +:+ String "." (String d fraction)).
      rewrite scan_radix_numeral, Hscan, Hn by done.
      unfold digits_value.
      by destruct (digits_value_from 0 (String c s)) as [|p|p].
Qed.

Lemma numeral_not_empty (whole fraction : string) :
  is_numeral whole fraction = true -> numeral whole fraction <> "".
Proof.
  unfold is_numeral, whole_number, numeral. intros [[Hw _]%andb_prop _]%andb_prop.
  destruct whole; [done|]. by destruct (not_string fraction).
Qed.

(** C1, amended. For a height, a weight and an age written in decimal
    notation, any gender and goal, and any activity level that is not a name
    every object inherits, the calorie target that the profile setup persists
    is [round(adjustForGoal(computeTDEE(computeBMR(weight, height, age,
    gender), activityLevel), goal))] with the formulas and the table of the
    specification, where weight and height are the numbers written and age
    is the whole number before the point of the age written.  For the profile
    of the first scenario the persisted targets are 2035, 204, 153 and 68. *)
Theorem persisted_target_formula :
  (forall appId now st uid gender activityLevel goal createdAt
          height height' weight weight' age age',
     currentUser st = Some uid ->
     is_numeral height height' = true ->
     is_numeral weight weight' = true ->
     is_numeral age age' = true ->
     existsb (String.eqb activityLevel) Object_prototype_keys = false ->
     let formData :=
       {| fd_height := numeral height height'; fd_weight := numeral weight weight';
          fd_age := numeral age age'; fd_gender := gender;
          fd_activityLevel := activityLevel; fd_goal := goal;
          fd_createdAt := createdAt |} in
     pd_calorieTarget <$>
       persistedProfile appId uid (ProfileSetup_handleSubmit appId now true formData st).2
     = Some (spec_target_formula (numeral_value weight weight')
               (numeral_value height height') (of_Z (digits_value age))
               gender activityLevel goal)) /\
  (forall appId now st uid,
     currentUser st = Some uid ->
     let p := persistedProfile appId uid
                (ProfileSetup_handleSubmit appId now true (scenario_form "maintain") st).2 in
     pd_calorieTarget <$> p = Some 2035%js /\ pd_carbs <$> p = Some 204%js /\
     pd_protein <$> p = Some 153%js /\ pd_fat <$> p = Some 68%js).
Proof.
  split.
  - intros appId now st uid gender activityLevel goal createdAt
      height height' weight weight' age age' Hu Hh Hw Ha Hproto formData.
    subst formData. rewrite persistedProfile_written; [|done|].
    + unfold computed_profile.
      cbn [fmap option_fmap option_map pd_calorieTarget
           fd_height fd_weight fd_age fd_gender fd_activityLevel fd_goal].
      destruct (parse_numeral _ _ Hh) as [-> _].
      destruct (parse_numeral _ _ Hw) as [-> _].
      destruct (parse_numeral _ _ Ha) as [_ ->].
      by rewrite computed_target_spec.
    + intros [H|[H|H]]; cbn [fd_height fd_weight fd_age] in H.
      * exact (numeral_not_empty _ _ Hh H).
      * exact (numeral_not_empty _ _ Hw H).
      * exact (numeral_not_empty _ _ Ha H).
  - intros appId now st uid Hu.
    rewrite persistedProfile_written; [|done|by vm_compute; intros [|[|]]].
    pose proof (scenario_maintain_targets (Some now)) as Ht.
    set (p := computed_profile _ _) in *. clearbody p. cbv zeta in Ht.
    destruct Ht as (H1 & H2 & H3 & H4).
    cbn [fmap option_fmap option_map]. rewrite H1, H2, H3, H4.
    repeat split.
Qed.

Lemma persisted_target_formula_witness :
  pd_calorieTarget <$>
    persistedProfile "default-app-id" "u1"
      (ProfileSetup_handleSubmit "default-app-id" 0 true
         {| fd_height := numeral "175" "5"; fd_weight := numeral "70" "25";
            fd_age := numeral "30" "5"; fd_gender := "female";
            fd_activityLevel := "moderate"; fd_goal := "gain"; fd_createdAt := None |}
         (fresh_session "u1")).2
  = Some (spec_target_formula (numeral_value "70" "25") (numeral_value "175" "5")
            (of_Z (digits_value "30")) "female" "moderate" "gain").
Proof.
  apply (proj1 persisted_target_formula "default-app-id" 0 (fresh_session "u1") "u1"
           "female" "moderate" "gain" None "175" "5" "70" "25" "30" "5");
    reflexivity.
Defined.

(** C1 as the specification states it fails for an age that is not whole:
    with the age field 30.5 the persisted target is 2035, computed from the
    age 30, and the formula of the specification at the age 30.5 gives
    2031. *)
Lemma fractional_age_target_differs :
  let persisted :=
    pd_calorieTarget <$>
      persistedProfile "default-app-id" "u1"
        (ProfileSetup_handleSubmit "default-app-id" 0 true fractional_age_form
           (fresh_session "u1")).2 in
  persisted = Some 2035%js /\
  spec_target_formula 70 175 30.5 "male" "sedentary" "maintain" = 2031%js /\
  persisted <> Some (spec_target_formula 70 175 30.5 "male" "sedentary" "maintain").
Proof.
  cbv zeta. rewrite persistedProfile_written;
    [|reflexivity|vm_compute; intros [H|[H|H]]; discriminate H].
  vm_compute. repeat split. intros H. discriminate H.
Qed.

(** An age in exponent notation is read up to the [e]: 1e2 counts as 1. *)
Example exponent_age_read_as_one :
  parseInt "1e2" = 1%js /\ parseFloat "1e2" = 100%js /\
  computed_target 70 175 1 "male" "sedentary" "maintain" = 2232%js /\
  computed_target 70 175 100 "male" "sedentary" "maintain" = 1558%js.
Proof. by vm_compute. Qed.

Lemma submitted_scenario_lose appId now ok st :
  (ProfileSetup_handleSubmit appId now ok (scenario_form "lose") st).1
    = Submitted (computed_profile (scenario_form "lose") (Some now)) /\
  (SettingsPage_handleSubmit appId ok (scenario_form "lose") st).1
    = Submitted (computed_profile (scenario_form "lose") None).
Proof.
  split.
  - apply ProfileSetup_handleSubmit_submitted. vm_compute. intros [H|[H|H]]; discriminate H.
  - apply SettingsPage_handleSubmit_submitted. vm_compute. intros [H|[H|H]]; discriminate H.
Qed.

(** C2, amended. For the profile of the second scenario the energy
    expenditure is 2034.8004 (not 2034.6), and the calorie target that either
    submission computes is round(2034.8004 * 0.85) = 1730. *)
Theorem scenario_lose_calorieTarget (appId : string) (now : Z) (ok : bool) (st : App) :
  calculateTDEE (calculateBMR 70 175 30 "male") "sedentary" = 2034.8004000000001%js /\
  Math_round (2034.8004000000001 * 0.85) = 1730%js /\
  pd_calorieTarget <$>
    submitted (ProfileSetup_handleSubmit appId now ok (scenario_form "lose") st).1
    = Some 1730%js /\
  pd_calorieTarget <$>
    submitted (SettingsPage_handleSubmit appId ok (scenario_form "lose") st).1
    = Some 1730%js.
Proof.
  destruct (submitted_scenario_lose appId now ok st) as [-> ->].
  cbn [submitted fmap option_fmap option_map]. rewrite !scenario_lose_target.
  repeat split; by vm_compute.
Qed.

(** C2 as the specification states it fails: the computed target is not
    1729, the value of round(2034.6 * 0.85). *)
Lemma scenario_lose_not_1729 :
  Math_round (2034.6 * 0.85) = 1729%js /\
  pd_calorieTarget <$>
    submitted (ProfileSetup_handleSubmit "default-app-id" 0 true (scenario_form "lose")
                 (fresh_session "u1")).1
    <> Some 1729%js.
Proof.
  split; [by vm_compute|].
  rewrite (proj1 (submitted_scenario_lose _ _ _ _)).
  cbn [submitted fmap option_fmap option_map]. rewrite scenario_lose_target.
  intros H. vm_compute in H. discriminate H.
Qed.

(** ** The data wipe *)

Lemma in_collection_docRef (collection : path) (id : string) :
  in_collection collection (docRef collection id).
Proof.
  unfold in_collection, docRef. split.
  - rewrite length_app. simpl. lia.
  - apply take_app_length.
Qed.

Lemma elem_of_getDocs (db : store) (collection p : path) :
  p ∈ getDocs db collection <-> in_collection collection p /\ is_Some (db !! p).
Proof.
  unfold getDocs. rewrite list_elem_of_filter, elem_of_elements, elem_of_dom. tauto.
Qed.

Lemma lookup_commit (batch : list path) (db : store) (p : path) :
  commit batch db !! p = if decide (p ∈ batch) then None else db !! p.
Proof.
  induction batch as [|q batch IH].
  - change (commit [] db) with db.
    case_decide as H; [by apply elem_of_nil in H | done].
  - change (commit (q :: batch) db) with (delete q (commit batch db)).
    destruct (decide (q = p)) as [->|Hq].
    + rewrite lookup_delete_eq, decide_True; [done | by left].
    + rewrite lookup_delete_ne, IH by done.
      destruct (decide (p ∈ batch)) as [H1|H1].
      * rewrite decide_True; [done | by right].
      * rewrite decide_False; [done|].
        intros [?|?]%elem_of_cons; [by subst | done].
Qed.

Lemma lookup_commit_elem (batch : list path) (db : store) (p : path) :
  p ∈ batch -> commit batch db !! p = None.
Proof. intros H. rewrite lookup_commit. by rewrite decide_True. Qed.

Lemma lookup_commit_collection (db : store) (batch : list path) (collection : path) (id : string) :
  getDocs db collection ⊆ batch ->
  commit batch db !! docRef collection id = None.
Proof.
  intros Hsub. rewrite lookup_commit. case_decide as Hin; [done|].
  destruct (db !! docRef collection id) eqn:Hp; [|done].
  exfalso. apply Hin, Hsub, elem_of_getDocs. split.
  - apply in_collection_docRef.
  - by rewrite Hp.
Qed.

Lemma handleDataDelete_resolved (appId : string) (st : App) (uid : string) :
  userId st = Some uid ->
  handleDataDelete appId all_resolve st =
    (Returned,
     setUserProfile None
       (set_db (commit (profileRef appId uid ::
                          getDocs (db st) (mealsRef appId uid) ++
                          getDocs (db st) (dailyStatsRef appId uid)) (db st)) st)).
Proof. intros Hu. unfold handleDataDelete. by rewrite Hu. Qed.

Lemma handleDataDelete_failed (appId : string) (net : WipeNetwork) (st : App) :
  meals_read_ok net && stats_read_ok net && commit_ok net = false ->
  handleDataDelete appId net st =
    (match userId st with Some _ => Threw | None => Returned end, st).
Proof.
  intros Hnet. unfold handleDataDelete. destruct (userId st); [|done].
  by destruct (meals_read_ok net), (stats_read_ok net), (commit_ok net).
Qed.

(** C8. For a signed-in user and every database, the wipe either returns
    with the profile document, every meal document (whatever its
    [createdAt]) and every daily water document of the user absent from the
    database, every other document as it was and the profile of the session
    reset; or, when a read or the commit fails, it throws and the database
    and the session are as before: nothing is deleted in part. *)
Theorem handleDataDelete_all_or_nothing
    (appId : string) (net : WipeNetwork) (st : App) (uid : string) :
  userId st = Some uid ->
  let result := handleDataDelete appId net st in
  if meals_read_ok net && stats_read_ok net && commit_ok net then
    result.1 = Returned /\
    db result.2 !! profileRef appId uid = None /\
    (forall id, db result.2 !! docRef (mealsRef appId uid) id = None) /\
    (forall date, db result.2 !! docRef (dailyStatsRef appId uid) date = None) /\
    (forall p, p <> profileRef appId uid ->
               ~ in_collection (mealsRef appId uid) p ->
               ~ in_collection (dailyStatsRef appId uid) p ->
               db result.2 !! p = db st !! p) /\
    persistedProfile appId uid result.2 = None /\
    userProfile result.2 = None
  else
    result.1 = Threw /\ result.2 = st.
Proof.
  intros Hu.
  destruct (meals_read_ok net && stats_read_ok net && commit_ok net) eqn:Hnet.
  2:{ rewrite handleDataDelete_failed by done. by rewrite Hu. }
  assert (net = all_resolve) as ->.
  { destruct net as [[] [] []]; by try discriminate Hnet. }
  rewrite (handleDataDelete_resolved appId st uid Hu).
  set (batch := profileRef appId uid :: _ ++ _).
  cbn [fst snd db set_db setUserProfile userProfile].
  assert (commit batch (db st) !! profileRef appId uid = None) as Hprofile.
  { apply lookup_commit_elem. by left. }
  split; [done|]. split; [done|]. split; [|split; [|split; [|split]]].
  - intros id. apply lookup_commit_collection.
    intros p Hp. right. apply elem_of_app. by left.
  - intros date. apply lookup_commit_collection.
    intros p Hp. right. apply elem_of_app. by right.
  - intros p Hp Hm Hs. rewrite lookup_commit. case_decide as Hin; [|done].
    exfalso. apply elem_of_cons in Hin as [?|Hin]; [done|].
    apply elem_of_app in Hin as [Hin|Hin]; apply elem_of_getDocs in Hin as [? _]; done.
  - unfold persistedProfile. cbn [db set_db setUserProfile]. by rewrite Hprofile.
  - done.
Qed.

Lemma handleDataDelete_all_or_nothing_witness :
  let result := handleDataDelete "default-app-id" all_resolve populated_session in
  result.1 = Returned /\
  db result.2 !! profileRef "default-app-id" "u1" = None /\
  (forall id, db result.2 !! docRef (mealsRef "default-app-id" "u1") id = None) /\
  (forall date, db result.2 !! docRef (dailyStatsRef "default-app-id" "u1") date = None) /\
  (forall p, p <> profileRef "default-app-id" "u1" ->
             ~ in_collection (mealsRef "default-app-id" "u1") p ->
             ~ in_collection (dailyStatsRef "default-app-id" "u1") p ->
             db result.2 !! p = db populated_session !! p) /\
  persistedProfile "default-app-id" "u1" result.2 = None /\
  userProfile result.2 = None.
Proof.
  apply (handleDataDelete_all_or_nothing "default-app-id" all_resolve populated_session "u1").
  reflexivity.
Defined.

(** ** The inference request *)

Section InferenceProperties.

Variable JSON_parse : jsval -> option jsval.
Variable gt_zero_coerced : jsval -> bool.

Ltac split_guard :=
  match goal with |- context [if negb ?b then _ else _] => destruct b end.











End InferenceProperties.



(** A response whose list of parts holds [null] lacks its first part. *)
Example null_part_is_a_failure :
  inference_failure (fun _ => Some (VObj [])) (fun _ => false)
    (FetchResponse true "OK"
       (Some (VObj [("candidates",
                VArr [VObj [("content", VObj [("parts", VArr [VNull])])]])]))).
Proof.
  apply missing_fields.
  eapply no_part; try reflexivity. right. by right; right.
Qed.

(** ** The water counter *)

Lemma Math_max_zero_nonneg (y : number) :
  y <> NaN -> is_nonneg (Math_max 0 y) = true.
Proof. by destruct y as [[]|[]| |[] m e]. Qed.

Lemma plus_one_not_NaN (x : number) : is_nonneg x = true -> (x + 1)%js <> NaN.
Proof.
  destruct x as [[]|[]| |s m e]; try done.
  intros _. apply binary_normalize_not_NaN.
Qed.

Lemma minus_one_not_NaN (x : number) : is_nonneg x = true -> (x - 1)%js <> NaN.
Proof.
  destruct x as [[]|[]| |s m e]; try done.
  intros _. apply binary_normalize_not_NaN.
Qed.

Lemma or_zero_nonneg (n : number) : is_nonneg n = true -> is_nonneg (or_zero (Some n)) = true.
Proof. by destruct n as [[]|[]| |[] m e]. Qed.

Lemma updateWaterCount_nonneg ref ok newCount wt :
  newCount <> NaN ->
  water_nonneg ref wt ->
  water_nonneg ref (updateWaterCount ref ok newCount wt).
Proof.
  intros Hn [Hc Hdb]. unfold water_nonneg, updateWaterCount. simpl. split.
  - by apply Math_max_zero_nonneg.
  - destruct ok; [|done]. rewrite lookup_insert_eq. by apply Math_max_zero_nonneg.
Qed.

Lemma water_step_nonneg ref wt ev :
  water_nonneg ref wt -> water_nonneg ref (water_step ref wt ev).
Proof.
  intros Hwt. destruct ev as [ok|ok|]; simpl.
  - apply updateWaterCount_nonneg; [|done]. apply minus_one_not_NaN, Hwt.
  - apply updateWaterCount_nonneg; [|done]. apply plus_one_not_NaN, Hwt.
  - destruct Hwt as [Hc Hdb]. unfold water_nonneg, onWaterSnapshot. simpl.
    split; [|done].
    destruct (water_db wt !! ref) as [[| |n]|]; try done. by apply or_zero_nonneg.
Qed.

(** C7. From a non-negative count, on the screen and in the database, every
    finite sequence of clicks on minus and plus (and of snapshots, whether
    the writes succeed or not) leaves both non-negative; and a click on
    minus at 0 leaves the count at 0. *)
Theorem water_count_never_negative (ref : path) (wt : WaterTracker) (evs : list water_event) :
  water_nonneg ref wt ->
  water_nonneg ref (water_run ref wt evs) /\
  (forall ok db,
     waterCount (clickMinus ref ok {| waterCount := 0%js; water_db := db |}) = 0%js).
Proof.
  intros Hwt. split; [|done].
  revert wt Hwt. unfold water_run.
  induction evs as [|ev evs IH]; intros wt Hwt; simpl; [done|].
  apply IH. by apply water_step_nonneg.
Qed.

Lemma water_count_never_negative_witness :
  let ref := waterDocRef "default-app-id" "u1" "2024-01-03" in
  water_nonneg ref
    (water_run ref (water_start 0%js)
       [Minus true; Minus false; Plus true; Plus true; Plus true; Snapshot; Minus true]).
Proof.
  apply (water_count_never_negative (waterDocRef "default-app-id" "u1" "2024-01-03")
           (water_start 0%js)
           [Minus true; Minus false; Plus true; Plus true; Plus true; Snapshot; Minus true]).
  split; [reflexivity|]. simpl. by rewrite lookup_empty.
Defined.

(** The fourth scenario: at 0 a decrement leaves 0, and three increments
    give 3. *)
Example water_scenario :
  let ref := waterDocRef "default-app-id" "u1" "2024-01-03" in
  waterCount (water_run ref (water_start 0%js) [Minus true]) = 0%js /\
  waterCount (water_run ref (water_start 0%js) [Minus true; Plus true; Plus true; Plus true])
    = 3%js.
Proof. by vm_compute. Qed.

(** ** Consumed totals *)

Lemma consumedTotals_snoc (ms : list Meal) (m : Meal) :
  consumedTotals (ms ++ [m]) = addMeal (consumedTotals ms) m.
Proof. unfold consumedTotals. by rewrite fold_left_app. Qed.

Lemma or_zero_default (field : option number) :
  or_zero (Some (default 0%js field)) = or_zero field.
Proof. by destruct field. Qed.

Lemma addMeal_fill_missing (acc : Totals) (m : Meal) :
  addMeal acc (fill_missing m) = addMeal acc m.
Proof.
  unfold addMeal, fill_missing. cbn [meal_calories meal_carbs meal_protein meal_fat].
  by rewrite !or_zero_default.
Qed.

Lemma consumedTotals_fill_missing (before after : list Meal) (m : Meal) :
  consumedTotals (before ++ m :: after)
  = consumedTotals (before ++ fill_missing m :: after).
Proof.
  unfold consumedTotals. rewrite !fold_left_app. simpl.
  by rewrite addMeal_fill_missing.
Qed.

(** Adding the number 0 changes nothing, except that [-0] becomes [0]. *)
Lemma add_zero_r (x : number) : x <> S754_zero true -> (x + 0)%js = x.
Proof. by destruct x as [[]|[]| |s m e]. Qed.

Lemma or_zero_clean (field : option number) :
  well_scaled_field field -> clean (or_zero field).
Proof. by destruct field as [[[]|[]| |s m e]|]. Qed.

Lemma add_clean (x y : number) : clean x -> clean y -> clean (x + y)%js.
Proof.
  intros [Hx Hx0] [Hy Hy0]. destruct (add_scaled x y Hx Hy) as [Hs Hz].
  split; [done|]. intros H. by destruct (Hz H).
Qed.

Section Column.

(** A column of the totals: the projection [get] follows the field [field]
    of the meals. *)
Variable get : Totals -> number.
Variable field : Meal -> option number.
Hypothesis get_no_totals : get no_totals = 0%js.
Hypothesis get_addMeal :
  forall acc m, get (addMeal acc m) = (get acc + or_zero (field m))%js.
Hypothesis field_well_scaled :
  forall m, well_scaled_meal m -> well_scaled_field (field m).

Lemma get_fold_addMeal (meals : list Meal) (acc : Totals) :
  get (fold_left addMeal meals acc) = column_sum field meals (get acc).
Proof.
  revert acc. induction meals as [|m meals IH]; intros acc; [done|].
  simpl. by rewrite IH, get_addMeal.
Qed.

Lemma column_sum_clean (meals : list Meal) (a : number) :
  clean a -> Forall well_scaled_meal meals -> clean (column_sum field meals a).
Proof.
  intros Ha Hms. revert a Ha.
  induction Hms as [|m meals Hm _ IH]; intros a Ha; [done|].
  simpl. apply IH, add_clean; [done|]. by apply or_zero_clean, field_well_scaled.
Qed.

(** Taking out a meal that lacks the field leaves the column as it is. *)
Lemma column_sum_absent (before after : list Meal) (m : Meal) :
  Forall well_scaled_meal before ->
  field m = None ->
  get (consumedTotals (before ++ m :: after)) = get (consumedTotals (before ++ after)).
Proof.
  intros Hb Hm. unfold consumedTotals. fold no_totals. rewrite !get_fold_addMeal.
  unfold column_sum. rewrite !fold_left_app. simpl. rewrite Hm.
  fold (column_sum field before (get no_totals)).
  rewrite add_zero_r; [done|].
  apply column_sum_clean; [|done]. by rewrite get_no_totals.
Qed.

End Column.

Lemma consumedTotals_absent (before after : list Meal) (m : Meal) :
  Forall well_scaled_meal before ->
  let with_m := consumedTotals (before ++ m :: after) in
  let without := consumedTotals (before ++ after) in
  (meal_calories m = None -> calories with_m = calories without) /\
  (meal_carbs m = None -> carbs with_m = carbs without) /\
  (meal_protein m = None -> protein with_m = protein without) /\
  (meal_fat m = None -> fat with_m = fat without).
Proof.
  intros Hb. repeat split; intros Hm.
  - apply (column_sum_absent calories meal_calories); try done. by intros ? (?&?&?&?).
  - apply (column_sum_absent carbs meal_carbs); try done. by intros ? (?&?&?&?).
  - apply (column_sum_absent protein meal_protein); try done. by intros ? (?&?&?&?).
  - apply (column_sum_absent fat meal_fat); try done. by intros ? (?&?&?&?).
Qed.

(** C6. The amount the reducer adds for an absent field is the number 0:
    at any place of any list, a meal with absent fields gives the totals it
    gives with these fields written as 0; and the total of a field is what it
    is without the meals that lack the field.  In the third scenario,
    whatever the other fields of the first two meals, the calories add up
    to 750 and each macro total is that of the first two meals.  (The numbers
    of the meals are binary64 numbers: well scaled.) *)
Theorem missing_field_contributes_zero :
  or_zero None = 0%js /\
  (forall before m after,
     consumedTotals (before ++ m :: after)
     = consumedTotals (before ++ fill_missing m :: after)) /\
  (forall before m after,
     Forall well_scaled_meal before ->
     let with_m := consumedTotals (before ++ m :: after) in
     let without := consumedTotals (before ++ after) in
     (meal_calories m = None -> calories with_m = calories without) /\
     (meal_carbs m = None -> carbs with_m = carbs without) /\
     (meal_protein m = None -> protein with_m = protein without) /\
     (meal_fat m = None -> fat with_m = fat without)) /\
  (forall m1 m2 m3,
     well_scaled_meal m1 -> well_scaled_meal m2 ->
     meal_calories m1 = Some 300%js -> meal_calories m2 = Some 450%js ->
     meal_calories m3 = Some 0%js ->
     meal_carbs m3 = None -> meal_protein m3 = None -> meal_fat m3 = None ->
     calories (consumedTotals [m1; m2; m3]) = 750%js /\
     carbs (consumedTotals [m1; m2; m3]) = carbs (consumedTotals [m1; m2]) /\
     protein (consumedTotals [m1; m2; m3]) = protein (consumedTotals [m1; m2]) /\
     fat (consumedTotals [m1; m2; m3]) = fat (consumedTotals [m1; m2])).
Proof.
  split; [done|]. split; [intros; apply consumedTotals_fill_missing|].
  split; [intros before m after; apply consumedTotals_absent|].
  intros m1 m2 m3 Hw1 Hw2 H1 H2 H3 Hc Hp Hf.
  assert (Forall well_scaled_meal [m1; m2]) as Hw by auto using Forall.
  destruct (consumedTotals_absent [m1; m2] [] m3 Hw) as (_ & Hk & Hpr & Hft).
  change ([m1; m2] ++ [m3]) with [m1; m2; m3] in Hk, Hpr, Hft.
  change ([m1; m2] ++ []) with [m1; m2] in Hk, Hpr, Hft.
  split; [|by rewrite (Hk Hc), (Hpr Hp), (Hft Hf)].
  unfold consumedTotals. simpl. by rewrite H1, H2, H3.
Qed.

Lemma missing_field_contributes_zero_witness :
  calories (consumedTotals scenario_meals) = 750%js /\
  carbs (consumedTotals scenario_meals) = carbs (consumedTotals (take 2 scenario_meals)) /\
  protein (consumedTotals scenario_meals) = protein (consumedTotals (take 2 scenario_meals)) /\
  fat (consumedTotals scenario_meals) = fat (consumedTotals (take 2 scenario_meals)).
Proof.
  apply (proj2 (proj2 (proj2 missing_field_contributes_zero)));
    try reflexivity; repeat split; simpl; lia.
Defined.

(** In the third scenario the totals are exactly those of the first two
    meals. *)
Example scenario_meals_totals :
  consumedTotals scenario_meals = consumedTotals (take 2 scenario_meals) /\
  calories (consumedTotals scenario_meals) = 750%js.
Proof. by vm_compute. Qed.

Lemma or_zero_whole (field : option N) :
  Z.of_N (default 0%N field) < 2 ^ 53 ->
  or_zero (whole <$> field) = of_Z (Z.of_N (default 0%N field)).
Proof.
  destruct field as [[|p]|]; try done. intros Hp.
  change (Z.pos p < 2 ^ 53) in Hp.
  change (or_zero (Some (of_Z (Z.pos p))) = of_Z (Z.pos p)).
  by destruct (of_Z_pos_finite p Hp) as (m & e & ->).
Qed.

Lemma quantity_sum_nonneg field ws : 0 <= quantity_sum field ws.
Proof. induction ws as [|w ws IH]; simpl; lia. Qed.

Lemma fold_addMeal_whole (ws : list WholeMeal) (c k p f : Z) :
  0 <= c -> 0 <= k -> 0 <= p -> 0 <= f ->
  c + quantity_sum wm_calories ws < 2 ^ 53 ->
  k + quantity_sum wm_carbs ws < 2 ^ 53 ->
  p + quantity_sum wm_protein ws < 2 ^ 53 ->
  f + quantity_sum wm_fat ws < 2 ^ 53 ->
  fold_left addMeal (map meal_of ws)
    {| calories := of_Z c; carbs := of_Z k; protein := of_Z p; fat := of_Z f |}
  = {| calories := of_Z (c + quantity_sum wm_calories ws);
       carbs := of_Z (k + quantity_sum wm_carbs ws);
       protein := of_Z (p + quantity_sum wm_protein ws);
       fat := of_Z (f + quantity_sum wm_fat ws) |}.
Proof.
  revert c k p f. induction ws as [|w ws IH]; intros c k p f Hc Hk Hp Hf Sc Sk Sp Sf.
  - simpl. by rewrite !Z.add_0_r.
  - simpl in Sc, Sk, Sp, Sf.
    pose proof (quantity_sum_nonneg wm_calories ws).
    pose proof (quantity_sum_nonneg wm_carbs ws).
    pose proof (quantity_sum_nonneg wm_protein ws).
    pose proof (quantity_sum_nonneg wm_fat ws).
    cbn [map fold_left]. unfold addMeal at 2. cbn [meal_of meal_calories meal_carbs
      meal_protein meal_fat calories carbs protein fat].
    rewrite !or_zero_whole by lia. rewrite !add_of_Z by lia.
    rewrite IH by lia. simpl quantity_sum. by rewrite !Z.add_assoc.
Qed.

(** The totals of meals with whole quantities are the sums of the quantities. *)
Lemma consumedTotals_whole (ws : list WholeMeal) :
  sums_exact ws ->
  consumedTotals (map meal_of ws)
  = {| calories := of_Z (quantity_sum wm_calories ws);
       carbs := of_Z (quantity_sum wm_carbs ws);
       protein := of_Z (quantity_sum wm_protein ws);
       fat := of_Z (quantity_sum wm_fat ws) |}.
Proof.
  intros (Sc & Sk & Sp & Sf). unfold consumedTotals.
  change 0%js with (of_Z 0). by rewrite fold_addMeal_whole.
Qed.

Lemma quantity_sum_Permutation field (ws ws' : list WholeMeal) :
  Permutation ws ws' -> quantity_sum field ws = quantity_sum field ws'.
Proof. induction 1; simpl; lia. Qed.

(** C5, amended. The totals of the empty list are all 0, and for meals whose
    quantities are whole numbers with sums below [2^53], where the addition
    of numbers is exact, every permutation of the list has the same totals. *)
Theorem consumedTotals_permutation :
  consumedTotals [] = no_totals /\
  (forall (ws : list WholeMeal) (meals : list Meal),
     sums_exact ws ->
     Permutation (map meal_of ws) meals ->
     consumedTotals meals = consumedTotals (map meal_of ws)).
Proof.
  split; [done|]. intros ws meals Hs Hp.
  apply Permutation_sym, Permutation_map_inv in Hp as (ws' & -> & Hp).
  assert (sums_exact ws') as Hs'.
  { unfold sums_exact in *.
    by rewrite <- !(quantity_sum_Permutation _ ws ws'). }
  rewrite !consumedTotals_whole by done.
  by rewrite !(quantity_sum_Permutation _ ws ws').
Qed.

Lemma consumedTotals_permutation_witness :
  consumedTotals (rev (map meal_of whole_meals)) = consumedTotals (map meal_of whole_meals).
Proof.
  apply (proj2 consumedTotals_permutation whole_meals (rev (map meal_of whole_meals))).
  - vm_compute. repeat split.
  - apply Permutation_rev.
Defined.

(** C5 as the specification states it fails: 0.1 g, 0.2 g and 0.3 g of fat
    add up to 0.6000000000000001 in this order and to 0.6 in the reverse
    order. *)
Lemma totals_depend_on_order :
  let meals := [fat_only "a" 0.1%js; fat_only "b" 0.2%js; fat_only "c" 0.3%js] in
  Permutation meals (rev meals) /\
  fat (consumedTotals meals) = 0.6000000000000001%js /\
  fat (consumedTotals (rev meals)) = 0.6%js /\
  consumedTotals (rev meals) <> consumedTotals meals.
Proof.
  cbv zeta. split; [apply Permutation_rev|].
  split; [by vm_compute|]. split; [by vm_compute|].
  vm_compute. intros H. discriminate H.
Qed.

(** * The rest of the interface: properties *)

(** ** Numbers: the sign of a rounded result *)

Lemma binary_round_aux_sign (s : bool) (m e : Z) (l : location) :
  0 <= m -> has_sign s (binary_round_aux prec emax s m e l).
Proof.
  intros H. unfold binary_round_aux.
  pose proof (shr_fexp_nonneg m e l H) as H1.
  destruct (shr_fexp prec emax m e l) as [mrs1 e1]. simpl in H1.
  pose proof (shr_fexp_nonneg _ e1 loc_Exact
                (round_nearest_even_nonneg _ (loc_of_shr_record mrs1) H1)) as H2.
  destruct (shr_fexp prec emax _ e1 loc_Exact) as [mrs2 e2]. simpl in H2.
  destruct (shr_m mrs2) as [|p|p]; [done| |lia].
  by destruct (e2 <=? emax - prec).
Qed.

Lemma binary_round_sign (s : bool) (m : positive) (e : Z) :
  has_sign s (binary_round prec emax s m e).
Proof.
  unfold binary_round. destruct (shl_align _ _ _) as [mz ez].
  by apply binary_round_aux_sign.
Qed.

Lemma is_nonneg_has_sign (x : number) : has_sign false x -> is_nonneg x = true.
Proof. by destruct x as [[]|[]| |[] m e]. Qed.

Lemma is_nonneg_cases (x : number) :
  is_nonneg x = true -> has_sign false x \/ x = S754_zero true.
Proof. destruct x as [[]|[]| |[] m e]; try done; intros _; first [by left | by right]. Qed.

(** The sum of two numbers that are [>= 0] is [>= 0]. *)
Lemma add_nonneg (x y : number) :
  is_nonneg x = true -> is_nonneg y = true -> is_nonneg (x + y)%js = true.
Proof.
  destruct x as [[]|[]| |[] mx ex], y as [[]|[]| |[] my ey]; try done.
  intros _ _. apply is_nonneg_has_sign. unfold Num.add, SFadd.
  cbn [cond_Zopp]. set (a := (shl_align mx ex _).1). set (b := (shl_align my ey _).1).
  change (Zpos a + Zpos b) with (Zpos (a + b)). apply binary_round_sign.
Qed.

Lemma div_eucl_nonneg (a b : Z) : 0 <= a -> 0 < b -> 0 <= (Z.div_eucl a b).1.
Proof.
  intros Ha Hb. change ((Z.div_eucl a b).1) with (a / b). by apply Z.div_pos.
Qed.

(** A quotient of two finite numbers has the sign of the division. *)
Lemma div_finite_sign (sx sy : bool) (mx my : positive) (ex ey : Z) :
  has_sign (xorb sx sy) (S754_finite sx mx ex / S754_finite sy my ey)%js.
Proof.
  unfold Num.div, SFdiv, SFdiv_core_binary.
  set (m' := match _ with Z.pos _ => _ | Z0 => _ | Z.neg _ => _ end).
  assert (0 <= m') as Hm'.
  { unfold m'. destruct (_ - _ - _) as [|p|p]; try lia. apply Z.shiftl_nonneg. lia. }
  pose proof (div_eucl_nonneg m' (Zpos my) Hm' ltac:(lia)) as Hq.
  destruct (Z.div_eucl m' (Zpos my)) as [q r]. simpl in Hq.
  by apply binary_round_aux_sign.
Qed.

Lemma mul_finite_sign (sx sy : bool) (mx my : positive) (ex ey : Z) :
  has_sign (xorb sx sy) (S754_finite sx mx ex * S754_finite sy my ey)%js.
Proof. unfold Num.mul, SFmul. by apply binary_round_aux_sign. Qed.

(** ** The totals and the gauges *)

Lemma or_zero_not_negative (field : option number) :
  not_negative_field field -> is_nonneg (or_zero field) = true.
Proof. by destruct field as [[[]|[]| |[] m e]|]. Qed.

Lemma column_sum_nonneg (field : Meal -> option number) (meals : list Meal) (a : number) :
  is_nonneg a = true ->
  Forall (fun m => not_negative_field (field m)) meals ->
  is_nonneg (column_sum field meals a) = true.
Proof.
  intros Ha Hms. revert a Ha.
  induction Hms as [|m meals Hm _ IH]; intros a Ha; [done|].
  simpl. apply IH, add_nonneg; [done|]. by apply or_zero_not_negative.
Qed.

Lemma totals_nonneg (meals : list Meal) :
  Forall not_negative_meal meals ->
  is_nonneg (calories (consumedTotals meals)) = true /\
  is_nonneg (carbs (consumedTotals meals)) = true /\
  is_nonneg (protein (consumedTotals meals)) = true /\
  is_nonneg (fat (consumedTotals meals)) = true.
Proof.
  intros Hms. unfold consumedTotals.
  rewrite (get_fold_addMeal calories meal_calories), (get_fold_addMeal carbs meal_carbs),
    (get_fold_addMeal protein meal_protein), (get_fold_addMeal fat meal_fat) by done.
  repeat split; apply column_sum_nonneg; try done;
    eapply Forall_impl; try exact Hms; by intros m (?&?&?&?).
Qed.

(** X1. The totals of meals without a negative quantity are [>= 0]: never
    negative and never [NaN], whatever the order, the absent fields and the
    fields that are [NaN]. *)
Theorem consumedTotals_not_negative (meals : list Meal) :
  Forall not_negative_meal meals ->
  is_nonneg (calories (consumedTotals meals)) = true /\
  is_nonneg (carbs (consumedTotals meals)) = true /\
  is_nonneg (protein (consumedTotals meals)) = true /\
  is_nonneg (fat (consumedTotals meals)) = true.
Proof. exact (totals_nonneg meals). Qed.

Lemma consumedTotals_not_negative_witness :
  is_nonneg (calories (consumedTotals gauge_meals)) = true /\
  is_nonneg (carbs (consumedTotals gauge_meals)) = true /\
  is_nonneg (protein (consumedTotals gauge_meals)) = true /\
  is_nonneg (fat (consumedTotals gauge_meals)) = true.
Proof.
  apply (consumedTotals_not_negative gauge_meals).
  repeat constructor.
Defined.

Lemma div_nonneg (consumed target : number) :
  is_nonneg consumed = true -> Num.gt target 0 = true ->
  is_infinite consumed && is_infinite target = false ->
  is_nonneg (consumed / target)%js = true.
Proof.
  destruct consumed as [[]|[]| |[] mx ex], target as [[]|[]| |[] my ey]; try done.
  intros _ _ _. apply is_nonneg_has_sign. apply (div_finite_sign false false).
Qed.

Lemma mul_100_nonneg (q : number) :
  is_nonneg q = true -> is_nonneg (q * 100)%js = true.
Proof.
  destruct q as [[]|[]| |[] m e]; try done.
  intros _. apply is_nonneg_has_sign. apply (mul_finite_sign false false).
Qed.

Lemma Math_min_100 (r : number) :
  is_nonneg r = true ->
  is_nonneg (Math_min r 100) = true /\ le (Math_min r 100) 100 = true.
Proof.
  intros Hr. unfold Math_min, le, SFleb.
  destruct (SFcompare r 100%js) as [[]|] eqn:Hc.
  - destruct r as [[]|[]| |[] m e]; try done; by rewrite Hc.
  - by rewrite Hc.
  - done.
  - by destruct r as [[]|[]| |[] m e].
Qed.

Lemma percentage_within (consumed target : number) :
  is_nonneg consumed = true ->
  is_infinite consumed && is_infinite target = false ->
  is_nonneg (percentage consumed target) = true /\
  le (percentage consumed target) 100 = true /\
  (Num.gt target 0 = false -> percentage consumed target = 0%js).
Proof.
  intros Hc Hinf. unfold percentage.
  destruct (Num.gt target 0) eqn:Ht; [|done].
  destruct (Math_min_100 (consumed / target * 100)%js) as [H1 H2]; [|done].
  by apply mul_100_nonneg, div_nonneg.
Qed.

(** X2. The share that the ring and the bars show is between 0 and 100 for
    a consumed amount that is [>= 0] (the two not both infinite), and it is 0
    when the target is not above 0: zero, negative or [NaN]. *)
Theorem percentage_bounds (consumed target : number) :
  is_nonneg consumed = true ->
  is_infinite consumed && is_infinite target = false ->
  is_nonneg (percentage consumed target) = true /\
  le (percentage consumed target) 100 = true /\
  (Num.gt target 0 = false -> percentage consumed target = 0%js).
Proof. exact (percentage_within consumed target). Qed.

Lemma percentage_bounds_witness :
  is_nonneg (percentage 2750.5 2035) = true /\
  le (percentage 2750.5 2035) 100 = true /\
  (Num.gt 2035 0 = false -> percentage 2750.5 2035 = 0%js).
Proof. apply (percentage_bounds 2750.5 2035); reflexivity. Defined.

(** X3. With the totals of a day without a negative quantity and finite
    targets, the ring and the three bars each show a share between 0 and
    100. *)
Theorem gauges_within_bounds (meals : list Meal) (profile : ProfileData) :
  Forall not_negative_meal meals ->
  is_infinite (pd_calorieTarget profile) = false ->
  is_infinite (pd_carbs profile) = false ->
  is_infinite (pd_protein profile) = false ->
  is_infinite (pd_fat profile) = false ->
  let totals := consumedTotals meals in
  let within (p : number) := is_nonneg p = true /\ le p 100 = true in
  within (percentage (calories totals) (pd_calorieTarget profile)) /\
  within (percentage (carbs totals) (pd_carbs profile)) /\
  within (percentage (protein totals) (pd_protein profile)) /\
  within (percentage (fat totals) (pd_fat profile)).
Proof.
  intros Hms Ht1 Ht2 Ht3 Ht4.
  destruct (totals_nonneg meals Hms) as (Hc & Hk & Hp & Hf).
  cbv zeta. repeat split; apply percentage_within; try done;
    by rewrite ?Ht1, ?Ht2, ?Ht3, ?Ht4, andb_false_r.
Qed.

Lemma gauges_within_bounds_witness :
  let totals := consumedTotals gauge_meals in
  let within (p : number) := is_nonneg p = true /\ le p 100 = true in
  within (percentage (calories totals) (pd_calorieTarget some_profile)) /\
  within (percentage (carbs totals) (pd_carbs some_profile)) /\
  within (percentage (protein totals) (pd_protein some_profile)) /\
  within (percentage (fat totals) (pd_fat some_profile)).
Proof.
  apply (gauges_within_bounds gauge_meals some_profile);
    [repeat constructor | by vm_compute ..].
Defined.

Example gauge_full : percentage (calories (consumedTotals gauge_meals)) 2035 = 100%js.
Proof. by vm_compute. Qed.

(** ** The water counter counts whole servings *)

(** Subtracting whole numbers below [2^53] is exact. *)
Lemma sub_of_Z (a b : Z) :
  0 <= b <= a -> a < 2 ^ 53 -> (of_Z a - of_Z b)%js = of_Z (a - b).
Proof.
  intros Hb Ha.
  destruct b as [|b|b]; [| |lia].
  { rewrite Z.sub_0_r. destruct a as [|a|a]; [done| |lia].
    rewrite of_Z_pos by lia. done. }
  destruct a as [|a|a]; try lia.
  assert (Z.pos b <= Z.pos a) as Hle by lia. clear Hb.
  rewrite !of_Z_pos by lia.
  unfold canonical at 1 2. cbv zeta.
  set (da := Zpos (digits2_pos a)). set (db := Zpos (digits2_pos b)).
  pose proof (digits2_pos_le_53 a ltac:(lia)) as Hda. fold da in Hda.
  pose proof (digits2_pos_le_53 b ltac:(lia)) as Hdb. fold db in Hdb.
  pose proof (canonical_mantissa_spec a ltac:(lia)) as HMa. fold da in HMa.
  pose proof (canonical_mantissa_spec b ltac:(lia)) as HMb. fold db in HMb.
  set (Ma := Z.to_pos (Zpos a * 2 ^ (53 - da))) in *.
  set (Mb := Z.to_pos (Zpos b * 2 ^ (53 - db))) in *.
  unfold Num.sub, SFsub. set (ez := Z.min (da - 53) (db - 53)).
  destruct (shl_align_spec Ma (da - 53) ez ltac:(lia)) as (ma' & -> & Hma).
  destruct (shl_align_spec Mb (db - 53) ez ltac:(lia)) as (mb' & -> & Hmb).
  cbn [fst cond_Zopp].
  assert (Zpos ma' - Zpos mb' = (Zpos a - Zpos b) * 2 ^ (- ez)) as Hd.
  { rewrite Hma, Hmb, HMa, HMb, <- !Z.mul_assoc, <- !Z.pow_add_r by lia.
    replace (53 - da + (da - 53 - ez)) with (- ez) by lia.
    replace (53 - db + (db - 53 - ez)) with (- ez) by lia. lia. }
  assert (0 < 2 ^ (- ez)) as Hp by (apply Z.pow_pos_nonneg; lia).
  destruct (Zpos a - Zpos b) as [|d|d] eqn:Hab; [| |lia].
  - rewrite Hd. done.
  - destruct (Zpos ma' - Zpos mb') as [|m|m] eqn:Hm; [lia| |lia].
    unfold binary_normalize. rewrite of_Z_pos by lia.
    apply binary_round_integer; [lia|done|lia].
Qed.

Lemma Math_max_zero_of_Z (n : Z) :
  n < 2 ^ 53 -> Math_max 0 (of_Z n) = of_Z (Z.max 0 n).
Proof.
  intros Hn. destruct n as [|p|p].
  - done.
  - rewrite Z.max_r by lia. by destruct (of_Z_pos_finite p Hn) as (m & e & ->).
  - rewrite Z.max_l by lia.
    destruct (binary_round_pos true p 0 ltac:(lia)) as [(m & e & H & _)|H];
      unfold of_Z, binary_normalize; by rewrite H.
Qed.

Lemma counter_step_matches (ref : path) (bound : Z) (c : Counter) (wt : WaterTracker)
    (ev : water_event) :
  bound < 2 ^ 53 ->
  counter_within (bound - 1) c ->
  water_matches ref c wt ->
  counter_within bound (counter_step c ev) /\
  water_matches ref (counter_step c ev) (water_step ref wt ev).
Proof.
  intros Hb [Hc Hs] [Hw Hdb]. destruct c as [n s]. simpl in *.
  destruct ev as [ok|ok|]; simpl.
  - unfold clickMinus, updateWaterCount. rewrite Hw.
    change 1%js with (of_Z 1).
    assert (Math_max 0 (of_Z n - of_Z 1)%js = of_Z (Z.max 0 (n - 1))) as Hm.
    { destruct (Z.eq_dec n 0) as [->|]; [done|].
      rewrite sub_of_Z by lia. apply Math_max_zero_of_Z. lia. }
    rewrite Hm. unfold counter_within, water_matches. simpl.
    destruct ok; simpl; rewrite ?lookup_insert_eq; repeat split; try done; try lia.
    destruct s; lia.
  - unfold clickPlus, updateWaterCount. rewrite Hw.
    change 1%js with (of_Z 1). rewrite add_of_Z by lia.
    rewrite Math_max_zero_of_Z by lia. rewrite Z.max_r by lia.
    unfold counter_within, water_matches. simpl.
    destruct ok; simpl; rewrite ?lookup_insert_eq; repeat split; try done; try lia.
    destruct s; lia.
  - unfold onWaterSnapshot, counter_within, water_matches. simpl. rewrite Hdb.
    destruct s as [k|]; simpl; repeat split; try done; try lia.
    destruct k as [|p|p]; [done| |lia].
    by destruct (of_Z_pos_finite p ltac:(lia)) as (m & e & ->).
Qed.

(** X4. From whole counts, the tracker is a counter of whole servings: a click
    on plus adds one, a click on minus takes one off and stops at 0, a
    successful write stores the count on the screen and a snapshot shows the
    stored count (0 without a document); no rounding ever shows, as long as
    the counts stay below [2^53]. *)
Theorem water_counts_whole_servings (ref : path) (evs : list water_event)
    (bound : Z) (c : Counter) (wt : WaterTracker) :
  bound + Z.of_nat (List.length evs) < 2 ^ 53 ->
  counter_within bound c ->
  water_matches ref c wt ->
  water_matches ref (counter_run c evs) (water_run ref wt evs) /\
  counter_within (bound + Z.of_nat (List.length evs)) (counter_run c evs).
Proof.
  revert bound c wt. unfold counter_run, water_run.
  induction evs as [|ev evs IH]; intros bound c wt Hb Hc Hm.
  - simpl. rewrite Z.add_0_r. done.
  - cbn [List.length] in *. rewrite Nat2Z.inj_succ in *.
    destruct (counter_step_matches ref (bound + 1) c wt ev) as [Hc' Hm'];
      [lia| by replace (bound + 1 - 1) with bound by lia |done|].
    simpl fold_left.
    replace (bound + Z.succ (Z.of_nat (List.length evs)))
      with ((bound + 1) + Z.of_nat (List.length evs)) by lia.
    apply IH; [lia|done|done].
Qed.

Lemma water_counts_whole_servings_witness :
  let ref := waterDocRef "default-app-id" "u1" "2024-01-03" in
  let evs := [Minus true; Plus true; Plus false; Plus true; Snapshot; Minus true] in
  water_matches ref (counter_run (0, None) evs) (water_run ref (water_start 0%js) evs) /\
  counter_within (0 + 6) (counter_run (0, None) evs).
Proof.
  apply (water_counts_whole_servings (waterDocRef "default-app-id" "u1" "2024-01-03")
           [Minus true; Plus true; Plus false; Plus true; Snapshot; Minus true]
           0 (0, None) (water_start 0%js)).
  - reflexivity.
  - split; simpl; [lia|done].
  - split; [reflexivity|]. simpl. by rewrite lookup_empty.
Defined.

Example counter_run_example :
  counter_run (0, None) [Minus true; Plus true; Plus false; Plus true; Snapshot; Minus true]
  = (2, Some 2).
Proof. reflexivity. Qed.

(** ** Paths *)

Lemma docRef_inj (collection : path) (id id' : string) :
  docRef collection id = docRef collection id' -> id = id'.
Proof. unfold docRef. by intros [=]%app_inv_head. Qed.

Lemma in_collection_inv (collection p : path) :
  in_collection collection p -> exists id, p = docRef collection id.
Proof.
  intros [Hlen Htake]. unfold docRef.
  destruct (drop (List.length collection) p) as [|id [|x rest]] eqn:Hdrop.
  - apply (f_equal List.length) in Hdrop. rewrite length_drop in Hdrop. simpl in Hdrop. lia.
  - exists id. by rewrite <- (take_drop (List.length collection) p), Htake, Hdrop.
  - apply (f_equal List.length) in Hdrop. rewrite length_drop in Hdrop. simpl in Hdrop. lia.
Qed.

(** The root of a user is a prefix of every reference the handlers build for
    this user. *)
Lemma user_paths (appId uid : string) :
  userRoot appId uid `prefix_of` profileRef appId uid /\
  (forall id, userRoot appId uid `prefix_of` docRef (mealsRef appId uid) id) /\
  (forall date, userRoot appId uid `prefix_of` docRef (dailyStatsRef appId uid) date).
Proof.
  unfold profileRef, mealsRef, dailyStatsRef, docRef. repeat split; intros;
    rewrite <- ?(assoc_L (++)); by eexists.
Qed.

Lemma in_user_collection (appId uid name : string) (p : path) :
  in_collection (userRoot appId uid ++ [name]) p -> userRoot appId uid `prefix_of` p.
Proof.
  intros [id ->]%in_collection_inv. unfold docRef.
  rewrite <- (assoc_L (++)). by eexists.
Qed.

(** ** What a session writes *)

(** A call of [handleFoodAction] leaves the state as it is, or writes one
    meal of the user. *)
Lemma handleFoodAction_writes appId now newId ok food st :
  (handleFoodAction appId now newId ok food st).2 = st \/
  exists uid id stored t,
    userId st = Some uid /\
    (handleFoodAction appId now newId ok food st).2
      = set_db (<[docRef (mealsRef appId uid) id := DMeal stored t]> (db st)) st.
Proof.
  unfold handleFoodAction. destruct (userId st) as [uid|]; [|by left].
  destruct (editingMeal st) as [id|].
  - destruct (db st !! _) as [[p|stored t|n]|]; try by left.
    destruct food; try by left.
    destruct ok; [right; by eexists _, _, _, _ | by left].
  - destruct ok; [right; by eexists _, _, _, _ | by left].
Qed.

Lemma handleManualSubmit_state appId now newId ok md m st :
  (handleManualSubmit appId now newId ok md m st).2
  = closeAddModal (handleFoodAction appId now newId ok (manualFoodData md) st).2.
Proof. unfold handleManualSubmit. by destruct (handleFoodAction _ _ _ _ _ _). Qed.

Lemma app_step_session (appId uid : string) (st : App) (ev : app_event) :
  session_of uid st -> session_of uid (app_step appId st ev).
Proof.
  intros [Hc Hu]. unfold session_of.
  destruct ev as [now ok fd|ok fd|now newId ok food|now newId ok md|id| | |ok id|net];
    cbn [app_step].
  - unfold ProfileSetup_handleSubmit.
    destruct (_ || _); [done|]. rewrite Hc. by destruct ok.
  - unfold SettingsPage_handleSubmit, handleProfileUpdate.
    destruct (_ || _); [done|]. rewrite Hu. by destruct ok.
  - by destruct (handleFoodAction_writes appId now newId ok food st)
      as [->|(u & i & f & t & _ & ->)].
  - rewrite handleManualSubmit_state.
    by destruct (handleFoodAction_writes appId now newId ok (manualFoodData md) st)
      as [->|(u & i & f & t & _ & ->)].
  - done.
  - done.
  - done.
  - unfold confirmDeleteMeal. rewrite Hu. simpl. by destruct ok.
  - unfold handleDataDelete. rewrite Hu.
    by destruct (meals_read_ok net), (stats_read_ok net), (commit_ok net).
Qed.

Lemma app_run_session (appId uid : string) (evs : list app_event) (st : App) :
  session_of uid st -> session_of uid (app_run appId st evs).
Proof.
  revert st. unfold app_run. induction evs as [|ev evs IH]; intros st Hs; [done|].
  simpl. by apply IH, app_step_session.
Qed.

Lemma lookup_commit_outside (batch : list path) (db : store) (p : path) :
  p ∉ batch -> commit batch db !! p = db !! p.
Proof. intros H. rewrite lookup_commit. by rewrite decide_False. Qed.

Lemma wipe_batch_own (appId uid : string) (db : store) (p : path) :
  p ∈ profileRef appId uid ::
        getDocs db (mealsRef appId uid) ++ getDocs db (dailyStatsRef appId uid) ->
  userRoot appId uid `prefix_of` p.
Proof.
  intros [->|[[H _]%elem_of_getDocs|[H _]%elem_of_getDocs]%elem_of_app]%elem_of_cons.
  - apply user_paths.
  - by apply in_user_collection in H.
  - by apply in_user_collection in H.
Qed.

(** A step of the session of a user leaves alone every document that is not
    under the root of this user. *)
Lemma app_step_other_documents (appId uid : string) (st : App) (ev : app_event) (p : path) :
  session_of uid st ->
  ~ userRoot appId uid `prefix_of` p ->
  db (app_step appId st ev) !! p = db st !! p.
Proof.
  intros [Hc Hu] Hp.
  assert (p <> profileRef appId uid) as Hprofile.
  { intros ->. apply Hp, user_paths. }
  assert (forall id, p <> docRef (mealsRef appId uid) id) as Hmeal.
  { intros id ->. apply Hp, user_paths. }
  destruct ev as [now ok fd|ok fd|now newId ok food|now newId ok md|id| | |ok id|net]; simpl.
  - unfold ProfileSetup_handleSubmit.
    destruct (_ || _); [done|]. rewrite Hc. destruct ok; [|done].
    simpl. by rewrite lookup_insert_ne.
  - unfold SettingsPage_handleSubmit, handleProfileUpdate.
    destruct (_ || _); [done|]. rewrite Hu. destruct ok; [|done].
    simpl. by rewrite lookup_insert_ne.
  - destruct (handleFoodAction_writes appId now newId ok food st)
      as [->|(u & i & f & t & Hu' & ->)]; [done|].
    rewrite Hu in Hu'. injection Hu' as <-.
    cbn [db set_db]. by rewrite lookup_insert_ne.
  - rewrite handleManualSubmit_state.
    destruct (handleFoodAction_writes appId now newId ok (manualFoodData md) st)
      as [->|(u & i & f & t & Hu' & ->)]; [done|].
    rewrite Hu in Hu'. injection Hu' as <-.
    cbn [db set_db closeAddModal]. by rewrite lookup_insert_ne.
  - done.
  - done.
  - done.
  - unfold confirmDeleteMeal. rewrite Hu. simpl. destruct ok; [|done].
    simpl. by rewrite lookup_delete_ne.
  - unfold handleDataDelete. rewrite Hu.
    destruct (meals_read_ok net), (stats_read_ok net), (commit_ok net); try done.
    cbn [negb fst snd db setUserProfile set_db].
    change ([profileRef appId uid] ++ ?a ++ ?b) with (profileRef appId uid :: a ++ b).
    rewrite <- app_assoc.
    change ([profileRef appId uid] ++ ?a) with (profileRef appId uid :: a).
    apply lookup_commit_outside. intros Hin. by apply Hp, (wipe_batch_own _ _ (db st)).
Qed.

(** X5. Whatever a user does in a session (profile submissions, meals added,
    edited or deleted, a data wipe, with writes that succeed or fail), the
    documents outside the root of this user stay as they were: a session never
    writes or deletes a document of another user. *)
Theorem session_keeps_other_documents (appId uid : string) (evs : list app_event)
    (st : App) (p : path) :
  session_of uid st ->
  ~ userRoot appId uid `prefix_of` p ->
  db (app_run appId st evs) !! p = db st !! p.
Proof.
  revert st. unfold app_run. induction evs as [|ev evs IH]; intros st Hs Hp; [done|].
  simpl. rewrite IH; [|by apply app_step_session|done].
  by apply app_step_other_documents with uid.
Qed.

Lemma session_keeps_other_documents_witness :
  db (app_run "default-app-id" populated_session sample_day)
     !! profileRef "default-app-id" "u2"
  = db populated_session !! profileRef "default-app-id" "u2".
Proof.
  apply (session_keeps_other_documents "default-app-id" "u1" sample_day
           populated_session (profileRef "default-app-id" "u2")).
  - split; reflexivity.
  - intros [k Hk]. discriminate Hk.
Defined.


(** ** Stored targets and stored form *)

Lemma computed_profile_consistent (formData : FormData) (createdAt : option Z) :
  profile_consistent (computed_profile formData createdAt).
Proof. reflexivity. Qed.

Lemma computed_profile_createdAt (formData : FormData) (createdAt createdAt' : option Z) :
  computed_profile formData createdAt =
    let p := computed_profile formData createdAt' in
    {| pd_form := pd_form p; pd_calorieTarget := pd_calorieTarget p;
       pd_carbs := pd_carbs p; pd_protein := pd_protein p; pd_fat := pd_fat p;
       pd_createdAt := createdAt |}.
Proof. reflexivity. Qed.

Lemma mergeProfile_consistent (stored : option document) (data : ProfileData) :
  profile_consistent data ->
  exists p, mergeProfile stored data = DProfile p /\ profile_consistent p /\
            pd_form p = pd_form data /\ pd_calorieTarget p = pd_calorieTarget data /\
            pd_carbs p = pd_carbs data /\ pd_protein p = pd_protein data /\
            pd_fat p = pd_fat data.
Proof.
  intros Hd. unfold mergeProfile.
  destruct (pd_createdAt data) eqn:Hc; [by exists data|].
  destruct stored as [[old| |]|]; try by exists data.
  eexists. split; [reflexivity|]. split; [|done].
  unfold profile_consistent in *. cbn [pd_form pd_createdAt].
  rewrite (computed_profile_createdAt (pd_form data) (pd_createdAt old) (pd_createdAt data)).
  by rewrite <- Hd.
Qed.

Lemma profiles_consistent_insert (st : App) (ref : path) (p : ProfileData) :
  profiles_consistent st -> profile_consistent p ->
  profiles_consistent (setUserProfile (Some p) (set_db (<[ref := DProfile p]> (db st)) st)).
Proof.
  intros [Hdb Hs] Hp. split.
  - intros r q. cbn [db setUserProfile set_db].
    destruct (decide (ref = r)) as [->|Hne].
    + rewrite lookup_insert_eq. by intros [= <-].
    + rewrite lookup_insert_ne by done. apply Hdb.
  - intros q. cbn [userProfile setUserProfile]. by intros [= <-].
Qed.

Lemma profiles_consistent_meal (st : App) (ref : path) (food : jsval) (t : Z) :
  profiles_consistent st ->
  profiles_consistent (set_db (<[ref := DMeal food t]> (db st)) st).
Proof.
  intros [Hdb Hs]. split; [|done].
  intros r q. cbn [db set_db].
  destruct (decide (ref = r)) as [->|Hne].
  - by rewrite lookup_insert_eq.
  - rewrite lookup_insert_ne by done. apply Hdb.
Qed.

Lemma profiles_consistent_view (st st' : App) :
  db st' = db st -> userProfile st' = userProfile st ->
  profiles_consistent st -> profiles_consistent st'.
Proof. unfold profiles_consistent. by intros -> ->. Qed.

Lemma handleFoodAction_consistent appId now newId ok food st :
  profiles_consistent st ->
  profiles_consistent (handleFoodAction appId now newId ok food st).2.
Proof.
  intros Hst.
  destruct (handleFoodAction_writes appId now newId ok food st)
    as [->|(u & i & f & t & _ & ->)]; [done|].
  by apply profiles_consistent_meal.
Qed.

Lemma app_step_consistent (appId : string) (st : App) (ev : app_event) :
  profiles_consistent st -> profiles_consistent (app_step appId st ev).
Proof.
  intros Hst.
  destruct ev as [now ok fd|ok fd|now newId ok food|now newId ok md|id| | |ok id|net];
    cbn [app_step].
  - unfold ProfileSetup_handleSubmit.
    destruct (_ || _); [done|]. destruct (currentUser st); [|done]. destruct ok; [|done].
    cbn [snd]. apply profiles_consistent_insert; [done|].
    apply (computed_profile_consistent fd (Some now)).
  - unfold SettingsPage_handleSubmit, handleProfileUpdate.
    destruct (_ || _); [done|]. destruct (userId st) as [uid|]; [|done].
    destruct ok; [|done]. cbn [snd].
    destruct (mergeProfile_consistent (db st !! profileRef appId uid)
                (computed_profile fd (fd_createdAt fd))
                (computed_profile_consistent _ _)) as (p & Hp & Hc & _).
    change (mergeProfile _ _) with
      (mergeProfile (db st !! profileRef appId uid) (computed_profile fd (fd_createdAt fd))).
    rewrite Hp. destruct Hst as [Hdb Hs]. split.
    + intros r q. cbn [db alert setUserProfile set_db].
      destruct (decide (profileRef appId uid = r)) as [<-|Hne].
      * rewrite lookup_insert_eq. by intros [= <-].
      * rewrite lookup_insert_ne by done. apply Hdb.
    + intros q. cbn [userProfile alert setUserProfile]. intros [= <-].
      apply (computed_profile_consistent fd (fd_createdAt fd)).
  - by apply handleFoodAction_consistent.
  - rewrite handleManualSubmit_state.
    by apply (handleFoodAction_consistent appId now newId ok (manualFoodData md) st).
  - done.
  - done.
  - done.
  - unfold confirmDeleteMeal, handleDeleteMealRequest. cbn [mealToDelete].
    destruct (userId st) as [uid|]; [|done]. destruct ok; [|done]. cbn [snd].
    destruct Hst as [Hdb Hs]. split; [|done].
    intros r q. cbn [db set_db]. intros [_ H]%lookup_delete_Some. by apply Hdb in H.
  - unfold handleDataDelete. destruct (userId st) as [uid|]; [|done].
    destruct (meals_read_ok net), (stats_read_ok net), (commit_ok net); try done.
    cbn [negb snd]. destruct Hst as [Hdb Hs]. split; [|done].
    intros r q. cbn [db setUserProfile set_db]. rewrite lookup_commit.
    case_decide; [done|]. apply Hdb.
Qed.

(** X6. Every profile in the database and the profile of the session hold the
    targets that the calculator gives for the form stored with them, and
    this stays so whatever is done in the session: the handlers never store
    targets apart from the form they were computed from. *)
Theorem stored_targets_follow_stored_form (appId : string) (evs : list app_event)
    (st : App) :
  profiles_consistent st -> profiles_consistent (app_run appId st evs).
Proof.
  revert st. unfold app_run. induction evs as [|ev evs IH]; intros st Hst; [done|].
  simpl. by apply IH, app_step_consistent.
Qed.

Lemma stored_targets_follow_stored_form_witness :
  profiles_consistent (app_run "default-app-id" (fresh_session "u1") sample_day).
Proof.
  apply (stored_targets_follow_stored_form "default-app-id" sample_day (fresh_session "u1")).
  split.
  - intros ref p H. unfold fresh_session in H. cbn [db] in H.
    by rewrite lookup_empty in H.
  - intros p H. discriminate H.
Defined.


(** ** The first screen and the profile document *)

Lemma profileRef_not_meal (appId uid id : string) :
  docRef (mealsRef appId uid) id <> profileRef appId uid.
Proof.
  unfold profileRef, docRef, mealsRef. rewrite <- (assoc_L (++)).
  intros H%app_inv_head. discriminate H.
Qed.

Lemma profile_in_sync_view (appId uid : string) (st st' : App) :
  db st' = db st -> userProfile st' = userProfile st ->
  profile_in_sync appId uid st -> profile_in_sync appId uid st'.
Proof. unfold profile_in_sync. by intros -> ->. Qed.

Lemma profile_in_sync_meal (appId uid id : string) (food : jsval) (t : Z) (st : App) :
  profile_in_sync appId uid st ->
  profile_in_sync appId uid
    (set_db (<[docRef (mealsRef appId uid) id := DMeal food t]> (db st)) st).
Proof.
  unfold profile_in_sync. cbn [db userProfile set_db].
  by rewrite lookup_insert_ne by apply profileRef_not_meal.
Qed.

Lemma handleFoodAction_in_sync appId uid now newId ok food st :
  userId st = Some uid ->
  profile_in_sync appId uid st ->
  profile_in_sync appId uid (handleFoodAction appId now newId ok food st).2.
Proof.
  intros Hu Hst.
  destruct (handleFoodAction_writes appId now newId ok food st)
    as [->|(u & i & f & t & Hu' & ->)]; [done|].
  rewrite Hu in Hu'. injection Hu' as <-. by apply profile_in_sync_meal.
Qed.

Lemma app_step_in_sync (appId uid : string) (st : App) (ev : app_event) :
  session_of uid st ->
  profile_in_sync appId uid st -> profile_in_sync appId uid (app_step appId st ev).
Proof.
  intros [Hc Hu] Hst.
  destruct ev as [now ok fd|ok fd|now newId ok food|now newId ok md|id| | |ok id|net];
    cbn [app_step].
  - unfold ProfileSetup_handleSubmit.
    destruct (_ || _); [done|]. rewrite Hc. destruct ok; [|done].
    unfold profile_in_sync.
    cbn [snd db userProfile setUserProfile set_db]. by rewrite lookup_insert_eq.
  - unfold SettingsPage_handleSubmit, handleProfileUpdate.
    destruct (_ || _); [done|]. rewrite Hu. destruct ok; [|done].
    destruct (mergeProfile_consistent (db st !! profileRef appId uid)
                (computed_profile fd (fd_createdAt fd))
                (computed_profile_consistent _ _)) as (p & Hp & _ & H1 & H2 & H3 & H4 & H5).
    change (mergeProfile _ _) with
      (mergeProfile (db st !! profileRef appId uid) (computed_profile fd (fd_createdAt fd))).
    rewrite Hp. unfold profile_in_sync.
    cbn [snd db userProfile alert setUserProfile set_db]. rewrite lookup_insert_eq.
    change (pd_form (computed_profile fd (fd_createdAt fd)) = pd_form p /\
            pd_calorieTarget (computed_profile fd (fd_createdAt fd)) = pd_calorieTarget p /\
            pd_carbs (computed_profile fd (fd_createdAt fd)) = pd_carbs p /\
            pd_protein (computed_profile fd (fd_createdAt fd)) = pd_protein p /\
            pd_fat (computed_profile fd (fd_createdAt fd)) = pd_fat p).
    by rewrite H1, H2, H3, H4, H5.
  - by apply handleFoodAction_in_sync.
  - rewrite handleManualSubmit_state.
    by apply (handleFoodAction_in_sync appId uid now newId ok (manualFoodData md) st).
  - done.
  - done.
  - done.
  - unfold confirmDeleteMeal, handleDeleteMealRequest. cbn [mealToDelete].
    rewrite Hu. destruct ok; [|done].
    unfold profile_in_sync in *. cbn [snd db userProfile set_db].
    by rewrite lookup_delete_ne by apply profileRef_not_meal.
  - unfold handleDataDelete. rewrite Hu.
    destruct (meals_read_ok net), (stats_read_ok net), (commit_ok net); try done.
    unfold profile_in_sync.
    cbn [negb snd db userProfile setUserProfile set_db].
    rewrite lookup_commit_elem; [done|]. apply elem_of_app. left. apply elem_of_app. left.
    constructor.
Qed.

Lemma app_run_in_sync (appId uid : string) (evs : list app_event) (st : App) :
  session_of uid st ->
  profile_in_sync appId uid st -> profile_in_sync appId uid (app_run appId st evs).
Proof.
  revert st. unfold app_run. induction evs as [|ev evs IH]; intros st Hs Hst; [done|].
  simpl. apply IH; [by apply app_step_session | by apply app_step_in_sync].
Qed.

(** X7. Along a session the profile shown and the profile document stay in
    step, so the screen follows the database: once loading is over the
    profile setup is shown exactly when the user has no profile document, and
    loading the page again on the same database leads to the same screen. *)
Theorem setup_screen_iff_no_profile (appId uid : string) (evs : list app_event)
    (st : App) :
  session_of uid st ->
  profile_in_sync appId uid st ->
  let st' := app_run appId st evs in
  profile_in_sync appId uid st' /\
  (render false st' = ProfileSetupScreen <-> db st' !! profileRef appId uid = None) /\
  exists again,
    onAuthStateChanged appId true (Some uid) true (reloaded st')
      = Some (Returned, false, again) /\
    render false again = render false st'.
Proof.
  intros Hs Hst st'.
  pose proof (app_run_in_sync appId uid evs st Hs Hst) as Hsync.
  fold st' in Hsync. clearbody st'. split; [done|].
  unfold profile_in_sync in *.
  unfold onAuthStateChanged, render, reloaded. cbn [db].
  destruct (userProfile st') as [p|], (db st' !! profileRef appId uid) as [[q| |]|];
    try done; (split; [done|]); eexists; (split; [reflexivity|]); done.
Qed.

Lemma setup_screen_iff_no_profile_witness :
  let st' := app_run "default-app-id" (fresh_session "u1") sample_day in
  profile_in_sync "default-app-id" "u1" st' /\
  (render false st' = ProfileSetupScreen <->
   db st' !! profileRef "default-app-id" "u1" = None) /\
  exists again,
    onAuthStateChanged "default-app-id" true (Some "u1") true (reloaded st')
      = Some (Returned, false, again) /\
    render false again = render false st'.
Proof.
  apply (setup_screen_iff_no_profile "default-app-id" "u1" sample_day (fresh_session "u1")).
  - split; reflexivity.
  - exact I.
Defined.


(** ** The meals of the day *)

Lemma todaysMeals_lookup (appId uid : string) (today tomorrow : Z) (db : store)
    (p : path) (d : document) :
  todaysMeals appId uid today tomorrow db !! p = Some d <->
  db !! p = Some d /\ is_todays_meal (mealsRef appId uid) today tomorrow (p, d).
Proof. unfold todaysMeals. by rewrite map_lookup_filter_Some. Qed.

Lemma has_field_remove_field (name : string) (fields : list (string * jsval)) :
  has_field (remove_field name fields) name = false.
Proof.
  unfold has_field, remove_field. induction fields as [|[k v] fields IH]; [done|].
  rewrite filter_cons. case_decide as Hk; [|done].
  cbn [fst] in Hk. cbn [existsb fst]. by rewrite IH, (proj2 (String.eqb_neq _ _) Hk).
Qed.

Lemma has_field_remove_other (name other : string) (fields : list (string * jsval)) :
  name <> other ->
  has_field (remove_field name fields) other = has_field fields other.
Proof.
  intros Hne. unfold has_field, remove_field.
  induction fields as [|[k v] fields IH]; [done|].
  rewrite filter_cons. cbn [existsb fst]. case_decide as Hk.
  - cbn [existsb fst]. by rewrite IH.
  - cbn [fst] in Hk. subst k.
    by rewrite IH, (proj2 (String.eqb_neq _ _) Hne).
Qed.

Lemma own_field_remove_field (name other : string) (fields : list (string * jsval)) :
  own_field (remove_field name fields) other
  = if decide (other = name) then VUndefined else own_field fields other.
Proof.
  unfold remove_field. induction fields as [|[k v] fields IH].
  - by destruct (decide (other = name)).
  - rewrite filter_cons. destruct (decide (k = name)) as [->|Hk].
    + rewrite (decide_False (P := (name, v).1 <> name)) by (intros H; by apply H).
      rewrite IH. cbn [own_field].
      destruct (decide (other = name)) as [->|Hne]; [done|].
      by rewrite (proj2 (String.eqb_neq name other)) by congruence.
    + rewrite (decide_True (P := (k, v).1 <> name)) by done.
      cbn [own_field]. rewrite IH.
      destruct (String.eqb_spec k other) as [->|Hko]; [|done].
      by rewrite decide_False.
Qed.

Lemma has_field_set_path (name first : string) (rest : list string) (v : jsval)
    (fields : list (string * jsval)) :
  first <> name ->
  has_field (set_path (first :: rest) v fields) name = has_field fields name.
Proof.
  intros Hne.
  assert (forall x, has_field (set_field first x fields) name = has_field fields name) as H.
  { intros x. unfold set_field. change (has_field ((first, x) :: ?l) name)
      with (String.eqb first name || has_field l name).
    by rewrite (proj2 (String.eqb_neq _ _) Hne), has_field_remove_other. }
  destruct rest; apply H.
Qed.

(** X8. A meal added at time [now] under an identifier that is not in use is
    stored as the properties of the data, with [now] as [createdAt] in place
    of whatever the data hold under that name.  It joins the meals of the
    day when [now] falls in the window of the query, and leaves them as they
    were when it does not. *)
Theorem added_meal_listed_by_day (appId uid newId : string) (now today tomorrow : Z)
    (food : jsval) (st : App) :
  userId st = Some uid ->
  editingMeal st = None ->
  db st !! docRef (mealsRef appId uid) newId = None ->
  let ref := docRef (mealsRef appId uid) newId in
  let st' := (handleFoodAction appId now newId true food st).2 in
  exists fields,
    db st' = <[ref := DMeal (VObj fields) now]> (db st) /\
    (forall name,
       own_field fields name
       = if decide (name = "createdAt") then VUndefined else own_field (spread food) name) /\
    createdAt_of (DMeal (VObj fields) now) = Some now /\
    todaysMeals appId uid today tomorrow (db st') =
      if decide (today <= now < tomorrow)
      then <[ref := DMeal (VObj fields) now]> (todaysMeals appId uid today tomorrow (db st))
      else todaysMeals appId uid today tomorrow (db st).
Proof.
  intros Hu He Hfresh ref st'. subst st'. unfold handleFoodAction. rewrite Hu, He.
  cbn [snd db set_db]. fold ref.
  exists (remove_field "createdAt" (spread food)).
  assert (createdAt_of (DMeal (VObj (remove_field "createdAt" (spread food))) now)
          = Some now) as Hc.
  { unfold createdAt_of. cbn [spread]. by rewrite has_field_remove_field. }
  split; [done|]. split; [intros name; apply own_field_remove_field|]. split; [done|].
  unfold todaysMeals. case_decide as Hw.
  - apply map_filter_insert_True. split; [apply in_collection_docRef|].
    cbn [snd]. by rewrite Hc.
  - rewrite map_filter_insert_False.
    + by rewrite delete_id.
    + intros [_ H]. cbn [snd] in H. by rewrite Hc in H.
Qed.

Lemma added_meal_listed_by_day_witness :
  let food := VObj [("name", VStr "riz"); ("createdAt", VStr "hier");
                    ("calories", VNum 450%js)] in
  let ref := docRef (mealsRef "default-app-id" "u1") "m7" in
  let st' := (handleFoodAction "default-app-id" 1200 "m7" true food populated_session).2 in
  exists fields,
    db st' = <[ref := DMeal (VObj fields) 1200]> (db populated_session) /\
    (forall name,
       own_field fields name
       = if decide (name = "createdAt") then VUndefined else own_field (spread food) name) /\
    createdAt_of (DMeal (VObj fields) 1200) = Some 1200 /\
    todaysMeals "default-app-id" "u1" 1000 2000 (db st') =
      if decide (1000 <= 1200 < 2000)
      then <[ref := DMeal (VObj fields) 1200]>
             (todaysMeals "default-app-id" "u1" 1000 2000 (db populated_session))
      else todaysMeals "default-app-id" "u1" 1000 2000 (db populated_session).
Proof.
  apply (added_meal_listed_by_day "default-app-id" "u1" "m7" 1200 1000 2000
           (VObj [("name", VStr "riz"); ("createdAt", VStr "hier");
                  ("calories", VNum 450%js)])
           populated_session); reflexivity.
Defined.

(** What a number, a string and an array leave of themselves in the
    document that [addDoc] writes. *)
Example spread_examples :
  spread (VNum 450%js) = [] /\
  spread (VStr "riz") = [("0", VStr "r"); ("1", VStr "i"); ("2", VStr "z")] /\
  spread (VArr [VNull; VBool true]) = [("0", VNull); ("1", VBool true)].
Proof. repeat split; reflexivity. Qed.

Lemma todaysMeals_dom_edit (appId uid : string) (today tomorrow : Z) (db : store)
    (ref : path) (old new : document) :
  db !! ref = Some old ->
  createdAt_of new = createdAt_of old ->
  dom (todaysMeals appId uid today tomorrow (<[ref := new]> db))
  = dom (todaysMeals appId uid today tomorrow db).
Proof.
  intros Hold Hc. apply set_eq. intros p. rewrite !elem_of_dom. unfold is_Some.
  setoid_rewrite todaysMeals_lookup. unfold is_todays_meal.
  destruct (decide (p = ref)) as [->|Hne].
  - rewrite lookup_insert_eq, Hold. split.
    + intros (d & [= <-] & Hin & Hw). exists old. cbn [fst snd] in *.
      rewrite Hc in Hw. split; [done|]. split; [exact Hin | exact Hw].
    + intros (d & [= <-] & Hin & Hw). exists new. cbn [fst snd] in *.
      rewrite <- Hc in Hw. split; [done|]. split; [exact Hin | exact Hw].
  - by rewrite lookup_insert_ne.
Qed.

Lemma manual_update_createdAt (manualData : ManualData) (stored : jsval) (createdAt : Z) :
  createdAt_of (DMeal (VObj (update_fields (spread (manualFoodData manualData))
                               (spread stored))) createdAt)
  = createdAt_of (DMeal stored createdAt).
Proof.
  unfold createdAt_of, manualFoodData, update_fields. cbn [spread foldr fst snd].
  change (segments "name") with ["name"]. change (segments "calories") with ["calories"].
  change (segments "carbs") with ["carbs"]. change (segments "protein") with ["protein"].
  change (segments "fat") with ["fat"].
  by rewrite !has_field_set_path.
Qed.

(** X9. Sending the manual form while a meal is being edited never moves a
    meal into or out of the meals of the day, and touches no document but
    the one of the meal edited; whether the write succeeds or not, the form
    is reset, the dialog is closed and no meal is being edited any more. *)
Theorem manual_edit_keeps_day (appId uid id newId : string) (now today tomorrow : Z)
    (write_ok : bool) (manualData : ManualData) (m : AddFoodModal) (st : App) :
  userId st = Some uid ->
  editingMeal st = Some id ->
  let after := handleManualSubmit appId now newId write_ok manualData m st in
  dom (todaysMeals appId uid today tomorrow (db after.2))
    = dom (todaysMeals appId uid today tomorrow (db st)) /\
  (forall p, p <> docRef (mealsRef appId uid) id -> db after.2 !! p = db st !! p) /\
  after.1 = resetState m /\ editingMeal after.2 = None /\
  isAddFoodModalOpen after.2 = false.
Proof.
  intros Hu He after. subst after. unfold handleManualSubmit, handleFoodAction.
  rewrite Hu, He.
  change (manualFoodData manualData) with (VObj (spread (manualFoodData manualData))).
  destruct (db st !! docRef (mealsRef appId uid) id) as [[p|old createdAt|n]|] eqn:Hold;
    try destruct write_ok; cbn [fst snd handleClose closeAddModal db set_db
                                 editingMeal isAddFoodModalOpen]; try done.
  repeat split.
  - apply todaysMeals_dom_edit with (DMeal old createdAt); [done|].
    apply manual_update_createdAt.
  - intros p Hp. by rewrite lookup_insert_ne.
Qed.

Lemma manual_edit_keeps_day_witness :
  let manualData := {| md_name := "porridge"; md_calories := "320"; md_carbs := "54";
                       md_protein := "11"; md_fat := "5" |} in
  let st := handleEditMeal "m2" populated_session in
  let after := handleManualSubmit "default-app-id" 1500 "m9" true manualData empty_modal st in
  dom (todaysMeals "default-app-id" "u1" 1000 2000 (db after.2))
    = dom (todaysMeals "default-app-id" "u1" 1000 2000 (db st)) /\
  (forall p, p <> docRef (mealsRef "default-app-id" "u1") "m2" ->
             db after.2 !! p = db st !! p) /\
  after.1 = resetState empty_modal /\ editingMeal after.2 = None /\
  isAddFoodModalOpen after.2 = false.
Proof.
  apply (manual_edit_keeps_day "default-app-id" "u1" "m2" "m9" 1500 1000 2000 true _
           empty_modal (handleEditMeal "m2" populated_session)); reflexivity.
Defined.

(** X10. Confirming the deletion of a meal takes this meal, and no other, out
    of the database and out of the meals of the day, and closes the dialog;
    when the deletion fails the dialog stays open on the same meal and the
    database is as it was. *)
Theorem confirmed_delete_removes_one_meal (appId uid id : string) (today tomorrow : Z)
    (write_ok : bool) (d : DeleteDialog) (st : App) :
  userId st = Some uid ->
  let ref := docRef (mealsRef appId uid) id in
  let asked := handleDeleteMealRequest id d in
  let after := confirmDeleteMeal appId write_ok asked st in
  if write_ok then
    db after.2 = delete ref (db st) /\
    todaysMeals appId uid today tomorrow (db after.2)
      = delete ref (todaysMeals appId uid today tomorrow (db st)) /\
    mealToDelete after.1.2 = None /\ isDeleteMealModalOpen after.1.2 = false
  else after = (Threw, asked, st) /\ isDeleteMealModalOpen asked = true.
Proof.
  intros Hu ref asked after. subst after asked.
  unfold confirmDeleteMeal, handleDeleteMealRequest. cbn [mealToDelete]. rewrite Hu.
  destruct write_ok; [|done]. cbn [fst snd db set_db mealToDelete isDeleteMealModalOpen].
  fold ref. repeat split. unfold todaysMeals. by rewrite map_filter_delete.
Qed.

Lemma confirmed_delete_removes_one_meal_witness :
  let ref := docRef (mealsRef "default-app-id" "u1") "m2" in
  let asked := handleDeleteMealRequest "m2"
                 {| mealToDelete := None; isDeleteMealModalOpen := false |} in
  let after := confirmDeleteMeal "default-app-id" true asked populated_session in
  db after.2 = delete ref (db populated_session) /\
  todaysMeals "default-app-id" "u1" 1000 2000 (db after.2)
    = delete ref (todaysMeals "default-app-id" "u1" 1000 2000 (db populated_session)) /\
  mealToDelete after.1.2 = None /\ isDeleteMealModalOpen after.1.2 = false.
Proof.
  apply (confirmed_delete_removes_one_meal "default-app-id" "u1" "m2" 1000 2000 true
           {| mealToDelete := None; isDeleteMealModalOpen := false |} populated_session).
  reflexivity.
Defined.

(** X11. After a data wipe that succeeds the user starts again from nothing:
    the query of the meals of any day finds no meal, the water counter of any
    day shows 0 at its next snapshot, and the profile setup is shown, also
    after the page is loaded again. *)
Theorem wipe_leaves_clean_start (appId uid date : string) (today tomorrow : Z)
    (count : number) (st : App) :
  userId st = Some uid ->
  let st' := (handleDataDelete appId all_resolve st).2 in
  todaysMeals appId uid today tomorrow (db st') = ∅ /\
  waterCount (onWaterSnapshot (waterDocRef appId uid date)
                {| waterCount := count; water_db := db st' |}) = 0%js /\
  render false st' = ProfileSetupScreen /\
  exists again,
    onAuthStateChanged appId true (Some uid) true (reloaded st')
      = Some (Returned, false, again) /\
    render false again = ProfileSetupScreen.
Proof.
  intros Hu st'. subst st'.
  rewrite (handleDataDelete_resolved appId st uid Hu). cbn [snd].
  set (batch := profileRef appId uid :: _).
  assert (forall id, commit batch (db st) !! docRef (mealsRef appId uid) id = None) as Hmeals.
  { intros id. apply lookup_commit_collection. intros p Hp.
    right. apply elem_of_app. by left. }
  assert (forall id, commit batch (db st) !! docRef (dailyStatsRef appId uid) id = None)
    as Hstats.
  { intros id. apply lookup_commit_collection. intros p Hp.
    right. apply elem_of_app. by right. }
  assert (commit batch (db st) !! profileRef appId uid = None) as Hprofile.
  { apply lookup_commit_elem. by left. }
  clearbody batch. repeat split.
  - cbn [db setUserProfile set_db]. unfold todaysMeals.
    apply map_empty. intros p. apply map_lookup_filter_None. right.
    intros d Hp [Hc _]. cbn [fst] in Hc. apply in_collection_inv in Hc as [id ->].
    by rewrite Hmeals in Hp.
  - unfold onWaterSnapshot, waterDocRef. cbn [waterCount water_db db setUserProfile set_db].
    by rewrite Hstats.
  - unfold onAuthStateChanged, reloaded. cbn [db setUserProfile set_db].
    rewrite Hprofile. by eexists.
Qed.

Lemma wipe_leaves_clean_start_witness :
  let st' := (handleDataDelete "default-app-id" all_resolve populated_session).2 in
  todaysMeals "default-app-id" "u1" 1000 2000 (db st') = ∅ /\
  waterCount (onWaterSnapshot (waterDocRef "default-app-id" "u1" "2024-01-02")
                {| waterCount := 1%js; water_db := db st' |}) = 0%js /\
  render false st' = ProfileSetupScreen /\
  exists again,
    onAuthStateChanged "default-app-id" true (Some "u1") true (reloaded st')
      = Some (Returned, false, again) /\
    render false again = ProfileSetupScreen.
Proof.
  apply (wipe_leaves_clean_start "default-app-id" "u1" "2024-01-02" 1000 2000 1%js
           populated_session).
  reflexivity.
Defined.

(** X12. What the profile setup writes is what the next load of the page reads
    back: after a submission that is accepted and written, loading the page
    again ends the loading, shows the pages instead of the setup, and holds
    as profile the form with the targets computed from it and the time of
    the submission. *)
Theorem setup_then_reload (appId uid : string) (now : Z) (formData : FormData) (st : App) :
  currentUser st = Some uid ->
  ~ some_field_empty formData ->
  let st' := (ProfileSetup_handleSubmit appId now true formData st).2 in
  exists again,
    onAuthStateChanged appId true (Some uid) true (reloaded st')
      = Some (Returned, false, again) /\
    userProfile again = Some (computed_profile formData (Some now)) /\
    userId again = Some uid /\
    render false again = MainScreen.
Proof.
  intros Hc He st'. subst st'.
  rewrite (ProfileSetup_handleSubmit_written appId now formData st uid Hc He).
  unfold onAuthStateChanged, reloaded. cbn [snd db setUserProfile set_db].
  rewrite lookup_insert_eq. by eexists.
Qed.

Lemma setup_then_reload_witness :
  let st' := (ProfileSetup_handleSubmit "default-app-id" 100 true (scenario_form "lose")
                (fresh_session "u1")).2 in
  exists again,
    onAuthStateChanged "default-app-id" true (Some "u1") true (reloaded st')
      = Some (Returned, false, again) /\
    userProfile again = Some (computed_profile (scenario_form "lose") (Some 100)) /\
    userId again = Some "u1" /\
    render false again = MainScreen.
Proof.
  apply (setup_then_reload "default-app-id" "u1" 100 (scenario_form "lose")
           (fresh_session "u1")).
  - reflexivity.
  - intros [H|[H|H]]; discriminate H.
Defined.

(** ** Without a user *)

Lemma app_step_signed_out (appId : string) (st : App) (ev : app_event) :
  currentUser st = None -> userId st = None ->
  let st' := app_step appId st ev in
  db st' = db st /\ userProfile st' = userProfile st /\
  currentUser st' = None /\ userId st' = None.
Proof.
  intros Hc Hu.
  destruct ev as [now ok fd|ok fd|now newId ok food|now newId ok md|id| | |ok id|net];
    cbn [app_step]; cbv zeta.
  - unfold ProfileSetup_handleSubmit. destruct (_ || _); [done|]. by rewrite Hc.
  - unfold SettingsPage_handleSubmit, handleProfileUpdate.
    destruct (_ || _); [done|]. by rewrite Hu.
  - unfold handleFoodAction. by rewrite Hu.
  - unfold handleManualSubmit, handleFoodAction. by rewrite Hu.
  - done.
  - done.
  - done.
  - unfold confirmDeleteMeal. by rewrite Hu.
  - unfold handleDataDelete. by rewrite Hu.
Qed.

(** X13. While nobody is signed in, nothing that is done in the interface
    reaches the database or sets a profile: every handler stops at its check
    of the user, and the profile setup ends on its error message. *)
Theorem signed_out_session_writes_nothing (appId : string) (evs : list app_event)
    (st : App) :
  currentUser st = None -> userId st = None ->
  db (app_run appId st evs) = db st /\
  userProfile (app_run appId st evs) = userProfile st.
Proof.
  revert st. unfold app_run. induction evs as [|ev evs IH]; intros st Hc Hu; [done|].
  simpl. destruct (app_step_signed_out appId st ev Hc Hu) as (Hdb & Hp & Hc' & Hu').
  destruct (IH _ Hc' Hu') as [-> ->]. by rewrite Hdb, Hp.
Qed.

Lemma signed_out_session_writes_nothing_witness :
  let st := {| db := db populated_session; alerts := []; currentUser := None;
               userId := None; userProfile := None; editingMeal := None;
               isAddFoodModalOpen := false |} in
  db (app_run "default-app-id" st sample_day) = db st /\
  userProfile (app_run "default-app-id" st sample_day) = userProfile st.
Proof.
  apply (signed_out_session_writes_nothing "default-app-id" sample_day); reflexivity.
Defined.


(** ** Fields that are not numbers *)

Lemma add_NaN_l (x : number) : (NaN + x)%js = NaN.
Proof. by destruct x. Qed.

Lemma add_NaN_r (x : number) : (x + NaN)%js = NaN.
Proof. by destruct x. Qed.

Lemma sub_NaN_l (x : number) : (NaN - x)%js = NaN.
Proof. by destruct x. Qed.

Lemma sub_NaN_r (x : number) : (x - NaN)%js = NaN.
Proof. by destruct x. Qed.

Lemma mul_NaN_l (x : number) : (NaN * x)%js = NaN.
Proof. by destruct x. Qed.

Lemma calculateBMR_NaN (weight height age : number) (gender : string) :
  weight = NaN \/ height = NaN \/ age = NaN ->
  calculateBMR weight height age gender = NaN.
Proof.
  unfold calculateBMR.
  intros [-> | [-> | ->] ]; destruct (String.eqb gender "male");
    rewrite mul_NaN_r, ?add_NaN_r, ?add_NaN_l, ?sub_NaN_l, ?sub_NaN_r; reflexivity.
Qed.

Lemma computed_target_NaN (weight height age : number) (gender activityLevel goal : string) :
  weight = NaN \/ height = NaN \/ age = NaN ->
  computed_target weight height age gender activityLevel goal = NaN.
Proof.
  intros H. unfold computed_target. rewrite calculateBMR_NaN by done.
  unfold calculateTDEE. rewrite mul_NaN_l. unfold adjustCaloriesForGoal.
  destruct (String.eqb goal "lose"); [by rewrite mul_NaN_l|].
  destruct (String.eqb goal "gain"); [by rewrite mul_NaN_l|]. reflexivity.
Qed.

Lemma getMacroTargets_NaN :
  getMacroTargets NaN = {| mt_carbs := NaN; mt_protein := NaN; mt_fat := NaN |}.
Proof. reflexivity. Qed.

Lemma percentage_NaN_target (consumed : number) : percentage consumed NaN = 0%js.
Proof. reflexivity. Qed.

(** X14. The profile setup checks only that the three fields are not empty.
    When one of them does not read as a number, the submission is still
    written, and the profile document holds [NaN] as calorie target and as
    each of the three macronutrient targets; the gauge of such a target
    stays at 0 whatever was eaten. *)
Theorem unreadable_field_stores_NaN_targets (appId uid : string) (now : Z)
    (formData : FormData) (consumed : number) (st : App) :
  currentUser st = Some uid ->
  ~ some_field_empty formData ->
  parseFloat (fd_weight formData) = NaN \/ parseFloat (fd_height formData) = NaN \/
    parseInt (fd_age formData) = NaN ->
  exists p,
    persistedProfile appId uid (ProfileSetup_handleSubmit appId now true formData st).2
      = Some p /\
    pd_form p = formData /\
    pd_calorieTarget p = NaN /\ pd_carbs p = NaN /\ pd_protein p = NaN /\ pd_fat p = NaN /\
    percentage consumed (pd_calorieTarget p) = 0%js.
Proof.
  intros Hc He Hnan. exists (computed_profile formData (Some now)).
  split; [by apply persistedProfile_written|].
  unfold computed_profile.
  cbn [pd_form pd_calorieTarget pd_carbs pd_protein pd_fat].
  rewrite (computed_target_NaN _ _ _ _ _ _ Hnan). by rewrite getMacroTargets_NaN.
Qed.

Lemma unreadable_field_stores_NaN_targets_witness :
  let formData := {| fd_height := "175"; fd_weight := "soixante-dix"; fd_age := "30";
                     fd_gender := "male"; fd_activityLevel := "sedentary";
                     fd_goal := "maintain"; fd_createdAt := None |} in
  exists p,
    persistedProfile "default-app-id" "u1"
      (ProfileSetup_handleSubmit "default-app-id" 100 true formData (fresh_session "u1")).2
      = Some p /\
    pd_form p = formData /\
    pd_calorieTarget p = NaN /\ pd_carbs p = NaN /\ pd_protein p = NaN /\ pd_fat p = NaN /\
    percentage 1200%js (pd_calorieTarget p) = 0%js.
Proof.
  apply (unreadable_field_stores_NaN_targets "default-app-id" "u1" 100 _ 1200%js
           (fresh_session "u1")).
  - reflexivity.
  - intros [H|[H|H]]; discriminate H.
  - left. reflexivity.
Defined.

(** ** What the manual form stores *)

Lemma parseFloat_or_zero_whole (field : string) :
  field = "" \/ whole_number field = true ->
  parseFloat_or_zero field = of_Z (digits_value field).
Proof.
  intros [->|Hw]; [reflexivity|]. unfold parseFloat_or_zero.
  destruct field as [|c s]; [done|]. cbn [not_string].
  by destruct (parse_whole_number _ Hw) as [_ ->].
Qed.

(** X15. A manual entry whose four quantities are each left empty or typed as
    a whole number is stored under the new identifier with the name as
    typed, each quantity as the number typed and 0 for an empty one, and the
    time of the entry; the form is then reset and the dialog closed. *)
Theorem manual_entry_stored (appId uid newId : string) (now : Z)
    (manualData : ManualData) (m : AddFoodModal) (st : App) :
  userId st = Some uid ->
  editingMeal st = None ->
  Forall (fun field => field = "" \/ whole_number field = true)
    [md_calories manualData; md_carbs manualData; md_protein manualData;
     md_fat manualData] ->
  let after := handleManualSubmit appId now newId true manualData m st in
  db after.2 =
    <[docRef (mealsRef appId uid) newId :=
        DMeal (VObj [ ("name", VStr (md_name manualData));
                      ("calories", VNum (of_Z (digits_value (md_calories manualData))));
                      ("carbs", VNum (of_Z (digits_value (md_carbs manualData))));
                      ("protein", VNum (of_Z (digits_value (md_protein manualData))));
                      ("fat", VNum (of_Z (digits_value (md_fat manualData)))) ]) now]>
      (db st) /\
  after.1 = resetState m /\ isAddFoodModalOpen after.2 = false.
Proof.
  intros Hu He Hf after. subst after.
  apply Forall_cons in Hf as [H1 Hf]. apply Forall_cons in Hf as [H2 Hf].
  apply Forall_cons in Hf as [H3 Hf]. apply Forall_cons in Hf as [H4 _].
  unfold handleManualSubmit, handleFoodAction. rewrite Hu, He.
  cbn [fst snd handleClose closeAddModal db set_db isAddFoodModalOpen].
  unfold manualFoodData.
  by rewrite !parseFloat_or_zero_whole by done.
Qed.

Lemma manual_entry_stored_witness :
  let manualData := {| md_name := "porridge"; md_calories := "300"; md_carbs := "54";
                       md_protein := ""; md_fat := "5" |} in
  let after := handleManualSubmit "default-app-id" 200 "m1" true manualData empty_modal
                 (fresh_session "u1") in
  db after.2 =
    <[docRef (mealsRef "default-app-id" "u1") "m1" :=
        DMeal (VObj [ ("name", VStr "porridge");
                      ("calories", VNum (of_Z (digits_value "300")));
                      ("carbs", VNum (of_Z (digits_value "54")));
                      ("protein", VNum (of_Z (digits_value "")));
                      ("fat", VNum (of_Z (digits_value "5"))) ]) 200]>
      (db (fresh_session "u1")) /\
  after.1 = resetState empty_modal /\ isAddFoodModalOpen after.2 = false.
Proof.
  apply (manual_entry_stored "default-app-id" "u1" "m1" 200
           {| md_name := "porridge"; md_calories := "300"; md_carbs := "54";
              md_protein := ""; md_fat := "5" |} empty_modal (fresh_session "u1")).
  - reflexivity.
  - reflexivity.
  - repeat constructor; by right.
Defined.


(** ** Requests to the inference service *)

Section AnalysisProperties.

Variable JSON_parse : jsval -> option jsval.
Variable gt_zero_coerced : jsval -> bool.

Lemma gt_zero_length (x : jsval) (items : list jsval) :
  Z.of_nat (List.length items) < 2 ^ 53 - 1 ->
  exists len, get_field (VArr (x :: items)) "length" = Some len /\
              gt_zero gt_zero_coerced len = true.
Proof.
  intros H. eexists. split; [reflexivity|]. unfold gt_zero.
  destruct (Z.of_nat (List.length (x :: items))) as [|p|p] eqn:Hp.
  - simpl in Hp. lia.
  - rewrite of_Z_pos; [reflexivity|]. simpl List.length in Hp. lia.
  - lia.
Qed.

Lemma has_first_part_found (result candidate content part : jsval)
    (others parts : list jsval) :
  get_field result "candidates" = Some (VArr (candidate :: others)) ->
  get_field candidate "content" = Some content ->
  ToBoolean content = true ->
  get_field content "parts" = Some (VArr (part :: parts)) ->
  Z.of_nat (List.length others) < 2 ^ 53 - 1 ->
  Z.of_nat (List.length parts) < 2 ^ 53 - 1 ->
  has_first_part gt_zero_coerced result = Some true.
Proof.
  intros Hcand Hcontent Htruthy Hparts Ho Hp.
  destruct (gt_zero_length candidate others Ho) as (len & Hlen & Hgt).
  destruct (gt_zero_length part parts Hp) as (plen & Hplen & Hpgt).
  unfold has_first_part. rewrite Hcand. cbn [mbind option_bind ToBoolean negb].
  rewrite Hlen. cbn [mbind option_bind]. rewrite Hgt. cbn [negb get_first mbind option_bind].
  rewrite Hcontent. cbn [mbind option_bind]. rewrite Htruthy. cbn [negb].
  rewrite Hparts. cbn [mbind option_bind ToBoolean negb].
  rewrite Hplen. cbn [mbind option_bind]. by rewrite Hpgt.
Qed.

(** X16. A response that is [ok] and whose first candidate has a content with
    a first part whose text [JSON.parse] reads makes what was parsed the
    pending result, without any message and with the busy flag down;
    confirming a pending result that is truthy then stores its properties
    (a number or [true] has none) as a meal of the user, with the time of the
    confirmation as [createdAt]. *)
Theorem well_formed_response_is_pending (statusText : string)
    (result candidate content part text r : jsval) (others parts : list jsval)
    (m : AddFoodModal) (st : App) :
  get_field result "candidates" = Some (VArr (candidate :: others)) ->
  get_field candidate "content" = Some content ->
  ToBoolean content = true ->
  get_field content "parts" = Some (VArr (part :: parts)) ->
  get_field part "text" = Some text ->
  JSON_parse text = Some r ->
  Z.of_nat (List.length others) < 2 ^ 53 - 1 ->
  Z.of_nat (List.length parts) < 2 ^ 53 - 1 ->
  let after := sendAIRequest JSON_parse gt_zero_coerced
                 (FetchResponse true statusText (Some result)) m st in
  after = ({| mode := mode m; aiText := aiText m; aiResult := r; isLoading := false |}, st) /\
  (ToBoolean r = true ->
   forall (appId uid newId : string) (now : Z),
     userId st = Some uid -> editingMeal st = None ->
     db (handleAiResultConfirm appId now newId true after.1 after.2).2
       = <[docRef (mealsRef appId uid) newId :=
             DMeal (VObj (remove_field "createdAt" (spread r))) now]> (db st)).
Proof.
  intros Hcand Hcontent Htruthy Hparts Htext Hparse Ho Hp after.
  assert (sendAIRequest_try JSON_parse gt_zero_coerced
            (FetchResponse true statusText (Some result)) = Some r) as Htry.
  { unfold sendAIRequest_try. cbn [negb mbind option_bind].
    rewrite (has_first_part_found result candidate content part others parts) by done.
    cbn [mbind option_bind]. unfold first_part_text.
    rewrite Hcand. cbn [mbind option_bind get_first]. rewrite Hcontent.
    cbn [mbind option_bind]. rewrite Hparts. cbn [mbind option_bind get_first].
    by rewrite Htext. }
  subst after. unfold sendAIRequest. rewrite Htry. split; [done|].
  intros Hr appId uid newId now Hu He. unfold handleAiResultConfirm.
  cbn [fst snd aiResult]. rewrite Hr. unfold handleFoodAction. by rewrite Hu, He.
Qed.

(** X17. When a description has been typed, an analysis sends one text, the
    prompt followed by the description, and nothing else: in the mode of the
    image an image that was chosen is then neither read nor sent, and the
    outcome is the one of the same analysis without an image. *)
Theorem description_replaces_image (aiImage : option file_read) (response : fetch_result)
    (m : AddFoodModal) (st : App) :
  mode m = "ai-text" \/ mode m = "ai-image-confirm" ->
  aiText m <> "" ->
  analyzeWithAI JSON_parse gt_zero_coerced aiImage response m st
    = analyzeWithAI JSON_parse gt_zero_coerced None response m st /\
  (analyzeWithAI JSON_parse gt_zero_coerced aiImage response m st).1
    = Some [TextPart (prompt +:+ aiText m)].
Proof.
  intros Hmode Htext. unfold analyzeWithAI.
  assert (not_string (aiText m) = false) as ->.
  { destruct (not_string (aiText m)) eqn:H; [|done]. by apply not_string_true in H. }
  by destruct Hmode as [-> | ->].
Qed.

(** X18. An analysis never leaves the dialog busy and never touches the
    database.  A request goes out only in the mode of the description, or in
    the mode of the image with a description or an image that could be read;
    an image goes with the prompt alone, labelled as JPEG, its data being
    what follows the first comma of the data URL.  Without a request the
    pending result is [null], and a message is shown only for an image that
    could not be read. *)
Theorem analysis_ends_idle (aiImage : option file_read) (response : fetch_result)
    (m : AddFoodModal) (st : App) :
  let after := analyzeWithAI JSON_parse gt_zero_coerced aiImage response m st in
  isLoading after.2.1 = false /\
  db after.2.2 = db st /\
  mode after.2.1 = mode m /\
  match after.1 with
  | Some parts =>
      parts = [TextPart (prompt +:+ aiText m)] /\
        (mode m = "ai-text" \/ mode m = "ai-image-confirm" /\ aiText m <> "")
      \/ exists result,
           parts = [TextPart prompt; InlineData "image/jpeg" (split_comma_1 result)] /\
           mode m = "ai-image-confirm" /\ aiText m = "" /\
           aiImage = Some (ReadResult result)
  | None =>
      aiResult after.2.1 = VNull /\
      (after.2.2 = st \/
       after.2.2 = alert image_unreadable st /\ mode m = "ai-image-confirm" /\
       aiImage = Some ReadError)
  end.
Proof.
  intros after. subst after. unfold analyzeWithAI.
  assert (forall busy, let r := sendAIRequest JSON_parse gt_zero_coerced response busy st in
            isLoading r.1 = false /\ db r.2 = db st /\ mode r.1 = mode busy) as Hsend.
  { intros busy. unfold sendAIRequest. by destruct (sendAIRequest_try _ _ _). }
  destruct (String.eqb (mode m) "ai-text") eqn:Htext.
  { apply String.eqb_eq in Htext. cbn [orb fst snd].
    destruct (Hsend {| mode := mode m; aiText := aiText m; aiResult := VNull;
                       isLoading := true |}) as (H1 & H2 & H3).
    repeat split; try done. left. split; [done | by left]. }
  destruct (String.eqb (mode m) "ai-image-confirm") eqn:Himage.
  - apply String.eqb_eq in Himage. cbn [orb andb].
    destruct (not_string (aiText m)) eqn:Hempty; cbn [negb fst snd].
    + apply not_string_true in Hempty.
      destruct aiImage as [[|result]|]; cbn [fst snd isLoading mode aiResult db alert].
      * repeat split; try done. right. by repeat split.
      * destruct (Hsend {| mode := mode m; aiText := aiText m; aiResult := VNull;
                           isLoading := true |}) as (H1 & H2 & H3).
        repeat split; try done. right. by exists result.
      * repeat split; try done. by left.
    + destruct (Hsend {| mode := mode m; aiText := aiText m; aiResult := VNull;
                         isLoading := true |}) as (H1 & H2 & H3).
      repeat split; try done. left. split; [done|]. right. split; [done|].
      intros H. apply not_string_true in H. congruence.
  - cbn [orb andb fst snd isLoading mode aiResult db]. repeat split; try done. by left.
Qed.

End AnalysisProperties.

Lemma well_formed_response_is_pending_witness :
  let estimate := VObj [("name", VStr "riz"); ("calories", VNum 450%js)] in
  let part := VObj [("text", VStr "{...}")] in
  let content := VObj [("parts", VArr [part])] in
  let candidate := VObj [("content", content)] in
  let result := VObj [("candidates", VArr [candidate])] in
  let after := sendAIRequest (fun _ => Some estimate) (fun _ => false)
                 (FetchResponse true "OK" (Some result)) empty_modal populated_session in
  after = ({| mode := mode empty_modal; aiText := aiText empty_modal; aiResult := estimate;
              isLoading := false |}, populated_session) /\
  (ToBoolean estimate = true ->
   forall (appId uid newId : string) (now : Z),
     userId populated_session = Some uid -> editingMeal populated_session = None ->
     db (handleAiResultConfirm appId now newId true after.1 after.2).2
       = <[docRef (mealsRef appId uid) newId :=
             DMeal (VObj (remove_field "createdAt" (spread estimate))) now]>
           (db populated_session)).
Proof.
  apply (well_formed_response_is_pending
           (fun _ => Some (VObj [("name", VStr "riz"); ("calories", VNum 450%js)]))
           (fun _ => false) "OK"
           (VObj [("candidates",
                   VArr [VObj [("content",
                                VObj [("parts", VArr [VObj [("text", VStr "{...}")]])])]])])
           (VObj [("content", VObj [("parts", VArr [VObj [("text", VStr "{...}")]])])])
           (VObj [("parts", VArr [VObj [("text", VStr "{...}")]])])
           (VObj [("text", VStr "{...}")]) (VStr "{...}")
           (VObj [("name", VStr "riz"); ("calories", VNum 450%js)]) [] []
           empty_modal populated_session); try reflexivity; simpl; lia.
Defined.

Lemma description_replaces_image_witness :
  let m := {| mode := "ai-image-confirm"; aiText := "un bol de riz"; aiResult := VNull;
              isLoading := false |} in
  let aiImage := Some (ReadResult "data:image/png;base64,AAAA") in
  analyzeWithAI (fun _ => None) (fun _ => false) aiImage FetchThrows m populated_session
    = analyzeWithAI (fun _ => None) (fun _ => false) None FetchThrows m populated_session /\
  (analyzeWithAI (fun _ => None) (fun _ => false) aiImage FetchThrows m populated_session).1
    = Some [TextPart (prompt +:+ "un bol de riz")].
Proof.
  apply (description_replaces_image (fun _ => None) (fun _ => false)
           (Some (ReadResult "data:image/png;base64,AAAA")) FetchThrows
           {| mode := "ai-image-confirm"; aiText := "un bol de riz"; aiResult := VNull;
              isLoading := false |} populated_session).
  - by right.
  - discriminate.
Defined.


(** ** Whole quantities on the screen *)

Lemma Math_round_whole (n : Z) : 0 <= n < 2 ^ 53 -> Math_round (of_Z n) = of_Z n.
Proof.
  destruct n as [|p|p]; [reflexivity| |lia]. intros Hn.
  rewrite (of_Z_pos p) by lia. unfold canonical, Math_round.
  pose proof (digits2_pos_le_53 p ltac:(lia)) as Hd.
  remember (Zpos (digits2_pos p)) as d eqn:Hdd.
  destruct (0 <=? d - 53) eqn:He; [reflexivity|].
  apply Z.leb_gt in He. cbv zeta.
  assert (0 < 2 ^ (53 - d)) as Hk by (apply Z.pow_pos_nonneg; lia).
  replace (- (d - 53)) with (53 - d) by lia.
  rewrite Z2Pos.id by lia. cbn [cond_Zopp].
  replace (53 - d + 1) with (Z.succ (53 - d)) by lia.
  rewrite Z.pow_succ_r by lia.
  replace (2 * (Zpos p * 2 ^ (53 - d)) + 2 ^ (53 - d))
    with ((2 * Zpos p + 1) * 2 ^ (53 - d)) by lia.
  rewrite Z.div_mul_cancel_r by lia.
  replace ((2 * Zpos p + 1) / 2) with (Zpos p)
    by (apply Z.div_unique with 1; lia).
  change (Zpos p =? 0) with false. cbv iota.
  rewrite (of_Z_pos p) by lia. unfold canonical. by rewrite <- Hdd.
Qed.

(** X19. A quantity typed in the manual form as a whole number below [2^53],
    or left empty, is listed as typed: the rounding of the list of meals
    gives back the number typed, and 0 for an empty field. *)
Theorem whole_quantity_listed_as_typed (field : string) :
  field = "" \/ whole_number field = true ->
  digits_value field < 2 ^ 53 ->
  Math_round (parseFloat_or_zero field) = of_Z (digits_value field).
Proof.
  intros Hf Hv. rewrite parseFloat_or_zero_whole by done.
  apply Math_round_whole. split; [|done].
  destruct Hf as [->|Hw]; [done|].
  unfold whole_number in Hw. apply andb_prop in Hw as [_ Hd].
  by destruct (scan_digits_all field 0 0 Hd ltac:(lia)) as [_ H].
Qed.

Lemma whole_quantity_listed_as_typed_witness :
  Math_round (parseFloat_or_zero "320") = of_Z (digits_value "320").
Proof.
  apply (whole_quantity_listed_as_typed "320").
  - by right.
  - reflexivity.
Defined.

(** ** Profile writes that fail *)

(** X20. When the write of a profile fails, the database and the profile of
    the session stay as they were.  The setup then shows its error message;
    the settings page shows no message at all, and when no user is known to
    [App] it announces an update although nothing was written. *)
Theorem failed_profile_write_keeps_profile (appId : string) (now : Z)
    (formData : FormData) (st : App) :
  ~ some_field_empty formData ->
  let setup := (ProfileSetup_handleSubmit appId now false formData st).2 in
  let settings := (SettingsPage_handleSubmit appId false formData st).2 in
  (db setup = db st /\ userProfile setup = userProfile st /\
   alerts setup = an_error_occurred :: alerts st) /\
  (db settings = db st /\ userProfile settings = userProfile st /\
   alerts settings =
     match userId st with
     | Some _ => alerts st
     | None => profile_updated :: alerts st
     end).
Proof.
  intros He setup settings. subst setup settings.
  unfold ProfileSetup_handleSubmit, SettingsPage_handleSubmit, handleProfileUpdate.
  rewrite fields_check, bool_decide_eq_false_2 by done.
  by destruct (currentUser st), (userId st).
Qed.

Lemma failed_profile_write_keeps_profile_witness :
  let formData := scenario_form "gain" in
  let setup := (ProfileSetup_handleSubmit "default-app-id" 100 false formData
                  populated_session).2 in
  let settings := (SettingsPage_handleSubmit "default-app-id" false formData
                     populated_session).2 in
  (db setup = db populated_session /\ userProfile setup = userProfile populated_session /\
   alerts setup = an_error_occurred :: alerts populated_session) /\
  (db settings = db populated_session /\
   userProfile settings = userProfile populated_session /\
   alerts settings =
     match userId populated_session with
     | Some _ => alerts populated_session
     | None => profile_updated :: alerts populated_session
     end).
Proof.
  apply (failed_profile_write_keeps_profile "default-app-id" 100 (scenario_form "gain")
           populated_session).
  intros [H|[H|H]]; discriminate H.
Defined.


Lemma until_comma_no_comma (s : string) : no_comma s = true -> until_comma s = s.
Proof.
  induction s as [|c s IH]; [done|]. simpl. intros [Hc Hs]%andb_prop.
  destruct (Ascii.eqb c ","); [done|]. by rewrite IH.
Qed.

Lemma split_comma_1_data_url (header data : string) :
  no_comma header = true -> no_comma data = true ->
  split_comma_1 (header +:+ String "," data) = Some data.
Proof.
  intros Hh Hd. unfold split_comma_1.
  induction header as [|c header IH].
  - simpl. by rewrite until_comma_no_comma.
  - simpl in Hh. apply andb_prop in Hh as [Hc Hh]. simpl.
    destruct (Ascii.eqb c ","); [done|]. by apply IH.
Qed.

(** X21. An image chosen while no description is typed is analysed as an
    image: the request carries the prompt alone and the data of the image,
    which is what follows the comma of the data URL, and labels it as JPEG
    whatever type the data URL names. *)
Theorem chosen_image_is_sent_as_jpeg (JSON_parse : jsval -> option jsval)
    (gt_zero_coerced : jsval -> bool) (header data : string)
    (previous : option file_read) (response : fetch_result)
    (m : AddFoodModal) (st : App) :
  no_comma header = true ->
  no_comma data = true ->
  aiText m = "" ->
  let chosen := handleImageChange (Some (ReadResult (header +:+ String "," data)))
                  m previous in
  mode chosen.1 = "ai-image-confirm" /\
  (analyzeWithAI JSON_parse gt_zero_coerced chosen.2 response chosen.1 st).1
    = Some [TextPart prompt; InlineData "image/jpeg" (Some data)].
Proof.
  intros Hh Hd Ht chosen. subst chosen. unfold handleImageChange, analyzeWithAI.
  cbn [fst snd mode aiText]. rewrite Ht. split; [done|].
  change (String.eqb "ai-image-confirm" "ai-text") with false.
  change (String.eqb "ai-image-confirm" "ai-image-confirm") with true.
  cbn [not_string negb andb orb fst].
  by rewrite split_comma_1_data_url.
Qed.

Lemma chosen_image_is_sent_as_jpeg_witness :
  let m := {| mode := "main"; aiText := ""; aiResult := VNull; isLoading := false |} in
  let chosen := handleImageChange (Some (ReadResult ("data:image/png;base64" +:+
                                                       String "," "iVBORw0KGgo=")))
                  m None in
  mode chosen.1 = "ai-image-confirm" /\
  (analyzeWithAI (fun _ => None) (fun _ => false) chosen.2 FetchThrows chosen.1
     populated_session).1
    = Some [TextPart prompt; InlineData "image/jpeg" (Some "iVBORw0KGgo=")].
Proof.
  apply (chosen_image_is_sent_as_jpeg (fun _ => None) (fun _ => false)
           "data:image/png;base64" "iVBORw0KGgo=" None FetchThrows
           {| mode := "main"; aiText := ""; aiResult := VNull; isLoading := false |}
           populated_session); reflexivity.
Defined.

(** ** What an edit leaves of a meal *)

Lemma own_field_set_field (name other : string) (v : jsval)
    (fields : list (string * jsval)) :
  own_field (set_field name v fields) other
  = if decide (other = name) then v else own_field fields other.
Proof.
  unfold set_field. cbn [own_field]. rewrite own_field_remove_field.
  destruct (String.eqb_spec name other) as [->|Hne].
  - by rewrite decide_True.
  - destruct (decide (other = name)); [congruence|done].
Qed.

(** A name with a dot is a path into a nested field. *)
Example update_fields_nested :
  update_fields [("macros.fat", VNum 5%js); ("name", VStr "riz")]
    [("name", VStr "pain"); ("macros", VObj [("carbs", VNum 54%js)])]
  = [("macros", VObj [("fat", VNum 5%js); ("carbs", VNum 54%js)]); ("name", VStr "riz")].
Proof. reflexivity. Qed.

(** X22. Sending the manual form while a meal is being edited, with a write
    that succeeds, sets the five fields of the form in the document of the
    meal and keeps every other field of the document and its time stamp. *)
Theorem manual_edit_merges (appId uid id newId : string) (now createdAt : Z)
    (stored : jsval) (manualData : ManualData) (m : AddFoodModal) (st : App) :
  userId st = Some uid ->
  editingMeal st = Some id ->
  db st !! docRef (mealsRef appId uid) id = Some (DMeal stored createdAt) ->
  let after := handleManualSubmit appId now newId true manualData m st in
  exists fields,
    db after.2 !! docRef (mealsRef appId uid) id = Some (DMeal (VObj fields) createdAt) /\
    forall name,
      own_field fields name =
        if decide (name = "name") then VStr (md_name manualData)
        else if decide (name = "calories")
             then VNum (parseFloat_or_zero (md_calories manualData))
        else if decide (name = "carbs")
             then VNum (parseFloat_or_zero (md_carbs manualData))
        else if decide (name = "protein")
             then VNum (parseFloat_or_zero (md_protein manualData))
        else if decide (name = "fat")
             then VNum (parseFloat_or_zero (md_fat manualData))
        else own_field (spread stored) name.
Proof.
  intros Hu He Hold after. subst after. unfold handleManualSubmit, handleFoodAction.
  rewrite Hu, He, Hold.
  change (manualFoodData manualData) with (VObj (spread (manualFoodData manualData))).
  cbn [fst snd handleClose closeAddModal db set_db].
  eexists. split; [by rewrite lookup_insert_eq|].
  intros name. unfold manualFoodData, update_fields. cbn [spread foldr fst snd].
  change (segments "name") with ["name"]. change (segments "calories") with ["calories"].
  change (segments "carbs") with ["carbs"]. change (segments "protein") with ["protein"].
  change (segments "fat") with ["fat"].
  cbn [set_path]. by rewrite !own_field_set_field.
Qed.

Lemma manual_edit_merges_witness :
  let manualData := {| md_name := "porridge"; md_calories := "320"; md_carbs := "";
                       md_protein := "11"; md_fat := "5" |} in
  let st := handleEditMeal "m2" populated_session in
  let after := handleManualSubmit "default-app-id" 1500 "m9" true manualData empty_modal st in
  exists fields,
    db after.2 !! docRef (mealsRef "default-app-id" "u1") "m2"
      = Some (DMeal (VObj fields) 1000) /\
    forall name,
      own_field fields name =
        if decide (name = "name") then VStr (md_name manualData)
        else if decide (name = "calories")
             then VNum (parseFloat_or_zero (md_calories manualData))
        else if decide (name = "carbs")
             then VNum (parseFloat_or_zero (md_carbs manualData))
        else if decide (name = "protein")
             then VNum (parseFloat_or_zero (md_protein manualData))
        else if decide (name = "fat")
             then VNum (parseFloat_or_zero (md_fat manualData))
        else own_field (spread (VObj [("calories", VNum 450%js)])) name.
Proof.
  apply (manual_edit_merges "default-app-id" "u1" "m2" "m9" 1500 1000
           (VObj [("calories", VNum 450%js)])
           {| md_name := "porridge"; md_calories := "320"; md_carbs := "";
              md_protein := "11"; md_fat := "5" |}
           empty_modal (handleEditMeal "m2" populated_session)); reflexivity.
Defined.
